(** * vibe-forex: the pattern-mining results pipeline

    A shallow embedding of the code that produces and aggregates pattern
    mining results in the vibe-forex dashboard:

    - [Analyze]: [calculatePatternStatistics] of the analysis endpoint;
    - [Demo]: [KaggleApiClient.generateDemoResults] of [kaggle-api.ts];
    - [Notebook]: the Python miner emitted by
      [KaggleApiClient.generateNotebookCode] ([extract_patterns],
      [create_pattern], [calculate_statistics], [run_analysis]);
    - [Kernel]: the Python miner emitted by
      [DirectKaggleService.generateKernelCode]
      ([extract_sliding_window_patterns], [cluster_and_filter_patterns],
      [create_representative_pattern], ...);
    - [Submit]: the job submission endpoint and [submitPatternMiningJob].

    Numbers.  JavaScript numbers and numpy float64 values are idealised as
    exact rationals ([Q]); rounding, infinities and NaN are outside the
    model, and a division by zero yields [0] as in [Qdiv].  Integers that the
    code uses as counts or indices are [nat] or [Z].

    Library code (numpy's square root, sine and random generator,
    scikit-learn's KMeans and silhouette score, the JavaScript
    [Math.random], the network) is not part of the repository: it enters as
    section variables, with the few properties the proofs rely on stated as
    hypotheses. *)

From Stdlib Require Import String Ascii QArith Qminmax Qabs Qround Lia Lqa ZArith Bool List.
From Stdlib Require Import DecimalString Sorted.
Import ListNotations.

Open Scope Q_scope.

(** ** Rational helpers *)

Definition Qltb (x y : Q) : bool := negb (Qle_bool y x).

(** [sum(xs)], [Array.prototype.reduce((s, x) => s + x, 0)]. *)
Definition Qsum (xs : list Q) : Q := fold_left Qplus xs 0.

(** [len(xs)] as a number. *)
Definition Qlen {A} (xs : list A) : Q := inject_Z (Z.of_nat (length xs)).

(** [np.mean]. *)
Definition np_mean (xs : list Q) : Q := Qsum xs / Qlen xs.

(** [np.var]: the population variance (ddof = 0). *)
Definition np_var (xs : list Q) : Q :=
  let m := np_mean xs in
  np_mean (map (fun x => (x - m) * (x - m)) xs).

(** [np.diff]. *)
Fixpoint np_diff (xs : list Q) : list Q :=
  match xs with
  | x :: ((y :: _) as tl) => (y - x) :: np_diff tl
  | _ => []
  end.

(** [np.max] and [np.min] of a non-empty array (0 on the empty one, which
    the callers never pass). *)
Definition np_max (xs : list Q) : Q :=
  match xs with [] => 0 | x :: tl => fold_left Qmax tl x end.
Definition np_min (xs : list Q) : Q :=
  match xs with [] => 0 | x :: tl => fold_left Qmin tl x end.

(** ** Formatting: [f'{n:03d}'], [n.toString().padStart(3, '0')] *)

Definition string_of_nat (n : nat) : string :=
  NilEmpty.string_of_uint (Nat.to_uint n).

Fixpoint zeros (k : nat) : string :=
  match k with O => EmptyString | S k' => String "0"%char (zeros k') end.

Definition padStart (width : nat) (s : string) : string :=
  (zeros (width - String.length s) ++ s)%string.

Definition pattern_id (n : nat) : string :=
  ("pattern_" ++ padStart 3 (string_of_nat n))%string.

(** ** The result types of [types.ts] *)

Inductive PatternType := bullish | bearish | neutral.

Definition PatternType_eqb (a b : PatternType) : bool :=
  match a, b with
  | bullish, bullish | bearish, bearish | neutral, neutral => true
  | _, _ => false
  end.

(** [firstSeen] and [lastSeen] are ISO strings: either a literal of the
    source or [new Date(ms).toISOString()], kept as its millisecond
    argument. *)
Inductive IsoDate :=
| IsoLiteral (s : string)
| IsoOfMillis (ms : Q).

Record PatternOccurrence := { startIndex : Z; endIndex : Z }.

Record DiscoveredPattern := {
  id : string;
  type : PatternType;
  support : Q;
  confidence : Q;
  significance : Q;
  profitability : Q;
  winRate : Q;
  avgReturn : Q;
  maxDrawdown : Q;
  sharpeRatio : Q;
  pricePoints : list Q;
  duration : nat;
  frequency : nat;
  occurrences : list PatternOccurrence;
  firstSeen : option IsoDate;
  lastSeen : option IsoDate
}.

Module OutOfSampleResults.
Record t := { winRate : Q; avgReturn : Q; sharpeRatio : Q }.
End OutOfSampleResults.

(** [PatternMiningStatistics]; [avgSignificance] is not a field of the
    interface and only some producers add it. *)
Record PatternMiningStatistics := {
  totalPatterns : nat;
  uniquePatterns : nat;
  avgConfidence : Q;
  avgSupport : Q;
  avgSignificance : option Q;
  overallProfitability : Q;
  avgWinRate : Q;
  avgSharpeRatio : Q;
  bestPattern : string;
  worstPattern : string;
  patternFrequency : list (PatternType * nat);
  timeFrameDistribution : list (string * nat);
  crossValidationScore : Q;
  bootstrapConfidence : Q;
  outOfSampleResults : OutOfSampleResults.t
}.

Record CurrencyPair := { base : string; quote : string; symbol : string }.
Record TimeFrame := { value : string; label : string; minutes : Z }.

(** [PatternMiningParams].  [currencyPair] and [timeFrame] are optional
    only in that a request body may lack them. *)
Record PatternMiningParams := {
  currencyPair : option CurrencyPair;
  timeFrame : option TimeFrame;
  windowSize : Z;
  minSupport : Q;
  minConfidence : Q;
  dataPoints : Z;
  overlapThreshold : Q;
  noiseFilter : Q;
  significanceLevel : Q;
  bootstrapSamples : Z;
  crossValidationFolds : Z;
  includeTechnicalIndicators : bool;
  rsiPeriod : Z;
  macdFast : Z;
  macdSlow : Z;
  bollBandPeriod : Z
}.

(** [KaggleJobResults.metadata]; the Python miners add [parameters]. *)
Record Metadata := {
  dataPointsAnalyzed : nat;
  patternsFound : nat;
  executionTime : Q;
  algorithmVersion : string;
  parameters : option PatternMiningParams
}.

(** [{ patterns, statistics, metadata }], with the statistics of the
    producer at hand. *)
Record Results (Stats : Type) := {
  patterns : list DiscoveredPattern;
  statistics : Stats;
  metadata : Metadata
}.
Arguments patterns {Stats} _.
Arguments statistics {Stats} _.
Arguments metadata {Stats} _.

(** ** Shared list code *)

(** [x || 0] on a number: [0] is the only falsy rational. *)
Definition or0 (x : Q) : Q := if Qeq_bool x 0 then 0 else x.

(** [new Set(xs).size], [len(set(xs))] on pattern types. *)
Fixpoint distinct_types (ts : list PatternType) : list PatternType :=
  match ts with
  | [] => []
  | t :: tl =>
      let r := distinct_types tl in
      if existsb (PatternType_eqb t) r then r else t :: r
  end.

(** [freq[t] = (freq[t] || 0) + 1] on an object whose keys keep their
    insertion order. *)
Fixpoint freq_incr (t : PatternType) (freq : list (PatternType * nat))
  : list (PatternType * nat) :=
  match freq with
  | [] => [(t, 1%nat)]
  | (k, n) :: tl =>
      if PatternType_eqb k t then (k, S n) :: tl else (k, n) :: freq_incr t tl
  end.

Definition pattern_frequency (patterns : list DiscoveredPattern)
  : list (PatternType * nat) :=
  fold_left (fun freq p => freq_incr (type p) freq) patterns [].

(** ** Library interfaces of the Python miners *)

(** numpy: the square root, the sine and the global random generator.
    [RandomState] is the state of that generator; [np_random_seed s] is the
    state that [np.random.seed(s)] installs, and each drawing function
    returns its value with the next state.  [np_random_choice xs size] is
    [np.random.choice(xs, size=size, replace=True)]. *)
Class Numpy := {
  RandomState : Type;
  np_sqrt : Q -> Q;
  np_sqrt_nonneg : forall x, 0 <= np_sqrt x;
  np_sin : Q -> Q;
  np_random_seed : Z -> RandomState;
  np_random_normal : Q -> Q -> RandomState -> Q * RandomState;
  np_random_random : RandomState -> Q * RandomState;
  np_random_uniform : Q -> Q -> RandomState -> Q * RandomState;
  np_random_randint : Z -> Z -> RandomState -> Z * RandomState;
  np_random_choice : forall A : Type, list A -> nat -> RandomState -> list A * RandomState
}.
Arguments np_random_choice {_ A} _ _ _.

(** scikit-learn: [KMeans(n_clusters, random_state, n_init).fit_predict(X)],
    one label per row of [X], and [silhouette_score(X, labels)]. *)
Class Sklearn := {
  KMeans_fit_predict : nat -> Z -> nat -> list (list Q) -> list nat;
  silhouette_score : list (list Q) -> list nat -> Q
}.

(** [np.std]: the population standard deviation. *)
Definition np_std {np : Numpy} (xs : list Q) : Q := np_sqrt (np_var xs).

(** [np.mean] of a boolean array: the fraction of [True]. *)
Definition np_mean_bool (bs : list bool) : Q :=
  np_mean (map (fun b : bool => if b then 1 else 0) bs).

(** [np.mean(rows, axis=0)]: the element-wise mean of rows of one length. *)
Definition mean_axis0 (rows : list (list Q)) : list Q :=
  match rows with
  | [] => []
  | r0 :: _ =>
      map (fun j => np_mean (map (fun r => nth j r 0) rows)) (seq 0 (length r0))
  end.

(** The [j]-th column of a matrix given by rows. *)
Definition column (j : nat) (rows : list (list Q)) : list Q :=
  map (fun r => nth j r 0) rows.

(** [StandardScaler().fit_transform(X)]: every column is centred and
    divided by its standard deviation, a zero deviation counting as 1. *)
Definition StandardScaler_fit_transform {np : Numpy} (X : list (list Q)) : list (list Q) :=
  map (fun r =>
         map (fun j =>
                let col := column j X in
                let s := np_std col in
                let scale := if Qeq_bool s 0 then 1 else s in
                (nth j r 0 - np_mean col) / scale)
             (seq 0 (length r))) X.

(** [MinMaxScaler().fit_transform(xs.reshape(-1, 1)).flatten()] on a
    non-empty column: a zero range counts as 1. *)
Definition MinMaxScaler_fit_transform (xs : list Q) : list Q :=
  let lo := np_min xs in
  let range := np_max xs - lo in
  let scale := if Qeq_bool range 0 then 1 else range in
  map (fun x => (x - lo) / scale) xs.

(** [range(start, stop)]. *)
Definition py_range (start stop : Z) : list Z :=
  map (fun k => (start + Z.of_nat k)%Z) (seq 0 (Z.to_nat (stop - start))).

(** [xs[start:stop]] with Python's treatment of negative and overlong
    bounds. *)
Definition slice_index (n i : Z) : Z :=
  if (i <? 0)%Z then Z.max 0 (i + n) else Z.min i n.

Definition py_slice {A} (xs : list A) (start stop : Z) : list A :=
  let n := Z.of_nat (length xs) in
  let a := slice_index n start in
  let b := slice_index n stop in
  firstn (Z.to_nat (b - a)) (skipn (Z.to_nat a) xs).

(** [enumerate(xs)]. *)
Definition enumerate {A} (xs : list A) : list (Z * A) :=
  combine (map Z.of_nat (seq 0 (length xs))) xs.

(** [d.get(key, default)]. *)
Fixpoint dict_get (key : string) (d : list (string * Q)) (default : Q) : Q :=
  match d with
  | [] => default
  | (k, v) :: tl => if String.eqb k key then v else dict_get key tl default
  end.

(** [[windows[i] for i in range(len(windows)) if labels[i] == cluster_id]];
    [labels] is the array [fit_predict] returned for the rows built from
    [windows]. *)
Definition members {W} (windows : list W) (labels : list nat) (cluster_id : nat)
  : list W :=
  map fst (filter (fun wl => Nat.eqb (snd wl) cluster_id) (combine windows labels)).

(** [max(xs, key=f)] and [min(xs, key=f)]: the first extremal element. *)
Definition py_max_by {A} (key : A -> Q) (first : A) (rest : list A) : A :=
  fold_left (fun best x => if Qltb (key best) (key x) then x else best) rest first.
Definition py_min_by {A} (key : A -> Q) (first : A) (rest : list A) : A :=
  fold_left (fun best x => if Qltb (key x) (key best) then x else best) rest first.

(** ** Python computations: generator state and exceptions *)

Module Python.

Inductive PyExn := IndexError | KeyError | ValueError.

Inductive Outcome (A : Type) :=
| Returned (a : A)
| Raised (e : PyExn).
Arguments Returned {A} a.
Arguments Raised {A} e.

Section Monad.
Context {np : Numpy}.

Definition Py (A : Type) : Type := RandomState -> Outcome (A * RandomState).

Definition ret {A} (a : A) : Py A := fun g => Returned (a, g).

Definition bind {A B} (c : Py A) (k : A -> Py B) : Py B :=
  fun g => match c g with
           | Returned (a, g') => k a g'
           | Raised e => Raised e
           end.

Definition raise {A} (e : PyExn) : Py A := fun _ => Raised e.

(** A call into [np.random]. *)
Definition draw {A} (f : RandomState -> A * RandomState) : Py A :=
  fun g => Returned (f g).

(** [d[key]] for a key that may be absent. *)
Definition lookup {A} (field : option A) : Py A :=
  match field with
  | Some a => ret a
  | None => raise KeyError
  end.

(** [for x in xs: out.append(body(x))]. *)
Fixpoint for_each {A B} (body : A -> Py B) (xs : list A) : Py (list B) :=
  match xs with
  | [] => ret []
  | x :: tl =>
      bind (body x) (fun b =>
      bind (for_each body tl) (fun bs =>
      ret (b :: bs)))
  end.

(** [for x in xs: if ...: out.append(...)]. *)
Fixpoint for_append {A B} (body : A -> Py (option B)) (xs : list A) : Py (list B) :=
  match xs with
  | [] => ret []
  | x :: tl =>
      bind (body x) (fun ob =>
      bind (for_append body tl) (fun bs =>
      ret (match ob with Some b => b :: bs | None => bs end)))
  end.

(** [for x in xs: acc = body(acc, x)]. *)
Fixpoint for_fold {A S} (body : S -> A -> Py S) (xs : list A) (acc : S) : Py S :=
  match xs with
  | [] => ret acc
  | x :: tl => bind (body acc x) (for_fold body tl)
  end.

End Monad.

Notation "x <- c ;; k" := (bind c (fun x => k))
  (at level 61, c at next level, right associativity).

End Python.

(** * [calculatePatternStatistics] (analysis endpoint) *)

Module Analyze.

Definition zero_statistics : PatternMiningStatistics := {|
  totalPatterns := 0;
  uniquePatterns := 0;
  avgConfidence := 0;
  avgSupport := 0;
  avgSignificance := None;
  overallProfitability := 0;
  avgWinRate := 0;
  avgSharpeRatio := 0;
  bestPattern := "";
  worstPattern := "";
  patternFrequency := [];
  timeFrameDistribution := [];
  crossValidationScore := 0;
  bootstrapConfidence := 0;
  outOfSampleResults :=
    {| OutOfSampleResults.winRate := 0;
       OutOfSampleResults.avgReturn := 0;
       OutOfSampleResults.sharpeRatio := 0 |}
|}.

(** [patterns.reduce((best, current) => ... ? current : best)] without an
    initial value: the first element starts as the accumulator. *)
Definition reduce_best (first : DiscoveredPattern) (rest : list DiscoveredPattern)
  : DiscoveredPattern :=
  fold_left (fun best current =>
               if Qltb (or0 (profitability best)) (or0 (profitability current))
               then current else best) rest first.

Definition reduce_worst (first : DiscoveredPattern) (rest : list DiscoveredPattern)
  : DiscoveredPattern :=
  fold_left (fun worst current =>
               if Qltb (or0 (profitability current)) (or0 (profitability worst))
               then current else worst) rest first.

Definition calculatePatternStatistics (patterns : list DiscoveredPattern)
  : PatternMiningStatistics :=
  match patterns with
  | [] => zero_statistics
  | first :: rest =>
      let n := Qlen patterns in
      let avgConfidence := Qsum (map confidence patterns) / n in
      let avgSupport := Qsum (map support patterns) / n in
      let overallProfitability :=
        Qsum (map (fun p => or0 (profitability p)) patterns) / n in
      let avgWinRate := Qsum (map (fun p => or0 (winRate p)) patterns) / n in
      let avgSharpeRatio :=
        Qsum (map (fun p => or0 (sharpeRatio p)) patterns) / n in
      let bestPattern := reduce_best first rest in
      let worstPattern := reduce_worst first rest in
      let profitablePatterns :=
        length (filter (fun p => Qltb 0 (or0 (profitability p))) patterns) in
      let crossValidationScore :=
        inject_Z (Z.of_nat profitablePatterns) / n in
      {| totalPatterns := length patterns;
         uniquePatterns := length (distinct_types (map type patterns));
         avgConfidence := avgConfidence;
         avgSupport := avgSupport;
         avgSignificance := None;
         overallProfitability := overallProfitability;
         avgWinRate := avgWinRate;
         avgSharpeRatio := avgSharpeRatio;
         bestPattern := id bestPattern;
         worstPattern := id worstPattern;
         patternFrequency := pattern_frequency patterns;
         timeFrameDistribution := [];
         crossValidationScore := crossValidationScore;
         bootstrapConfidence :=
           Qmax 0 (Qmin 1 (avgConfidence * crossValidationScore));
         outOfSampleResults :=
           {| OutOfSampleResults.winRate := avgWinRate * 0.85;
              OutOfSampleResults.avgReturn := overallProfitability * 0.8;
              OutOfSampleResults.sharpeRatio := avgSharpeRatio * 0.75 |}
      |}
  end.

End Analyze.

(** * [generateDemoResults] ([kaggle-api.ts])

    [Math.random()] and [Date.now()] read ambient state that no argument
    of the function controls.  The state is the stream of values the next
    calls will return; a call pops the head of its stream. *)

Module Demo.

Record World := { randoms : nat -> Q; clocks : nat -> Q }.

Definition JS (A : Type) := World -> A * World.

Definition ret {A} (a : A) : JS A := fun w => (a, w).
Definition bind {A B} (c : JS A) (k : A -> JS B) : JS B :=
  fun w => let (a, w') := c w in k a w'.

Notation "x <- c ;; k" := (bind c (fun x => k))
  (at level 61, c at next level, right associativity).

Definition Math_random : JS Q :=
  fun w => (randoms w 0%nat,
            {| randoms := fun n => randoms w (S n); clocks := clocks w |}).

Definition Date_now : JS Q :=
  fun w => (clocks w 0%nat,
            {| randoms := randoms w; clocks := fun n => clocks w (S n) |}).

(** [Math.floor]. *)
Definition Math_floor (x : Q) : Z := Qfloor x.

(** [for (let i = 0; i < n; i++) body(i)], collecting what the body
    pushes. *)
Fixpoint for_push {A} (body : nat -> JS A) (i count : nat) : JS (list A) :=
  match count with
  | O => ret []
  | S count' =>
      a <- body i ;;
      rest <- for_push body (S i) count' ;;
      ret (a :: rest)
  end.

(** [['bullish', 'bearish', 'neutral'][k]]; [k] is 0, 1 or 2 for every
    value [Math.random()] can return. *)
Definition patternType_at (k : Z) : PatternType :=
  match k with
  | 0%Z => bullish
  | 1%Z => bearish
  | _ => neutral
  end.

Definition trendFactor (patternType : PatternType) : Q :=
  match patternType with
  | bullish => 0.0015
  | bearish => - 0.0015
  | neutral => 0
  end.

(** The inner loop: [currentPrice += trendFactor + noise; pricePoints.push(currentPrice)]. *)
Fixpoint price_walk (patternType : PatternType) (currentPrice : Q) (count : nat)
  : JS (list Q) :=
  match count with
  | O => ret []
  | S count' =>
      r <- Math_random ;;
      let noise := (r - 0.5) * 0.003 in
      let currentPrice := currentPrice + (trendFactor patternType + noise) in
      rest <- price_walk patternType currentPrice count' ;;
      ret (currentPrice :: rest)
  end.

Definition demo_pattern (i : nat) : JS DiscoveredPattern :=
  r <- Math_random ;;
  let patternType := patternType_at (Math_floor (r * 3)) in
  r <- Math_random ;;
  let confidence := 0.6 + r * 0.35 in
  r <- Math_random ;;
  let support := 0.02 + r * 0.15 in
  r <- Math_random ;;
  let significance := r * 0.8 + 0.2 in
  let windowSize := 20%nat in
  pricePoints <- price_walk patternType 0 windowSize ;;
  r_profit <- Math_random ;;
  r_win <- Math_random ;;
  r_ret <- Math_random ;;
  r_dd <- Math_random ;;
  r_sharpe <- Math_random ;;
  r_freq <- Math_random ;;
  now1 <- Date_now ;;
  r_first <- Math_random ;;
  now2 <- Date_now ;;
  r_last <- Math_random ;;
  ret {| id := pattern_id i;
         type := patternType;
         support := support;
         confidence := confidence;
         significance := significance;
         profitability := (r_profit - 0.3) * 0.12;
         winRate := confidence * 0.85 + r_win * 0.15;
         avgReturn := (r_ret - 0.25) * 0.08;
         maxDrawdown := r_dd * 0.04;
         sharpeRatio := Qmax 0 ((r_sharpe - 0.15) * 2.5);
         pricePoints := pricePoints;
         duration := windowSize;
         frequency := Z.to_nat (Math_floor (r_freq * 40) + 10);
         occurrences := [];
         firstSeen := Some (IsoOfMillis (now1 - r_first * 30 * 24 * 60 * 60 * 1000));
         lastSeen := Some (IsoOfMillis (now2 - r_last * 7 * 24 * 60 * 60 * 1000)) |}.

(** [patterns.sort((a, b) => b.confidence - a.confidence)]: a stable sort,
    descending in confidence. *)
Fixpoint insert_by_confidence (p : DiscoveredPattern) (sorted : list DiscoveredPattern)
  : list DiscoveredPattern :=
  match sorted with
  | [] => [p]
  | q :: tl =>
      if Qltb (confidence p) (confidence q)
      then q :: insert_by_confidence p tl
      else p :: q :: tl
  end.

Definition sort_by_confidence (ps : list DiscoveredPattern) : list DiscoveredPattern :=
  fold_right insert_by_confidence [] ps.

(** [patterns[k]?.id || '']. *)
Definition id_or_empty (p : option DiscoveredPattern) : string :=
  match p with Some p => id p | None => "" end.

Definition generateDemoResults (jobId : string) : JS (Results PatternMiningStatistics) :=
  r <- Math_random ;;
  let numPatterns := (Math_floor (r * 15) + 10)%Z in
  unsorted <- for_push demo_pattern 0 (Z.to_nat numPatterns) ;;
  let patterns := sort_by_confidence unsorted in
  let n := Qlen patterns in
  r_cv <- Math_random ;;
  r_boot <- Math_random ;;
  r_win <- Math_random ;;
  r_ret <- Math_random ;;
  r_sharpe <- Math_random ;;
  let statistics := {|
    totalPatterns := length patterns;
    uniquePatterns := length (distinct_types (map type patterns));
    avgConfidence := Qsum (map confidence patterns) / n;
    avgSupport := Qsum (map support patterns) / n;
    avgSignificance := Some (Qsum (map significance patterns) / n);
    overallProfitability := Qsum (map (fun p => or0 (profitability p)) patterns) / n;
    avgWinRate := Qsum (map (fun p => or0 (winRate p)) patterns) / n;
    avgSharpeRatio := Qsum (map (fun p => or0 (sharpeRatio p)) patterns) / n;
    bestPattern := id_or_empty (nth_error patterns 0);
    worstPattern := id_or_empty (nth_error patterns (length patterns - 1));
    patternFrequency := pattern_frequency patterns;
    timeFrameDistribution := [("1h"%string, length patterns)];
    crossValidationScore := r_cv * 0.4 + 0.55;
    bootstrapConfidence := r_boot * 0.25 + 0.65;
    outOfSampleResults :=
      {| OutOfSampleResults.winRate := r_win * 0.25 + 0.45;
         OutOfSampleResults.avgReturn := (r_ret - 0.25) * 0.06;
         OutOfSampleResults.sharpeRatio := Qmax 0 ((r_sharpe - 0.2) * 1.8) |}
  |} in
  ret {| patterns := patterns;
         statistics := statistics;
         metadata := {| dataPointsAnalyzed := 5000;
                        patternsFound := length patterns;
                        executionTime := 180;
                        algorithmVersion := "1.0.0";
                        parameters := None |} |}.

End Demo.

(** * The miner of [generateNotebookCode] ([kaggle-api.ts])

    The methods of [ForexPatternMiner]; [params] is the dictionary that the
    instance holds.  The module-level statements of the emitted script (its
    imports, [np.random.seed(42)] and the [PARAMS] literal) are outside the
    model. *)

Module Notebook.
Import Python.

Record Row := {
  timestamp : string;
  open : Q;
  high : Q;
  low : Q;
  close : Q
}.

(** The dictionaries appended to [windows]. *)
Record Window := {
  index : Z;
  normalized : list Q;
  trend : Q;
  volatility : Q;
  momentum : Q
}.

(** What [calculate_statistics] returns: five keys for an empty pattern
    list, the full dictionary otherwise. *)
Inductive StatsDict :=
| ShortStats (totalPatterns : nat) (avgConfidence avgSupport overallProfitability : Q)
    (patternFrequency : list (PatternType * nat))
| FullStats (stats : PatternMiningStatistics).

Definition base_prices : list (string * Q) :=
  [("EURUSD"%string, 1.2); ("GBPUSD"%string, 1.35); ("USDJPY"%string, 110);
   ("USDCHF"%string, 0.92); ("AUDUSD"%string, 0.75); ("USDCAD"%string, 1.25)].

(** [f'{n:02d}']. *)
Definition two_digits (n : Z) : string := padStart 2 (string_of_nat (Z.to_nat n)).

(** [f'2024-01-{i//1440+1:02d} {(i%1440)//60:02d}:{i%60:02d}:00']. *)
Definition timestamp_of (i : Z) : string :=
  ("2024-01-" ++ two_digits (i / 1440 + 1) ++ " " ++ two_digits ((i mod 1440) / 60)
   ++ ":" ++ two_digits (i mod 60) ++ ":00")%string.

Section Miner.
Context {np : Numpy} {sk : Sklearn}.
Variable params : PatternMiningParams.

Definition generate_forex_data : Py (list Row) :=
  let n_points := dataPoints params in
  cp <- lookup (currencyPair params) ;;
  let base_price := dict_get (symbol cp) base_prices 1 in
  prices <- for_fold (fun prices i =>
      change <- draw (np_random_normal 0 0.0008) ;;
      let trend := np_sin (inject_Z i / 500) * 0.0002 in
      ret (prices ++ [last prices 0 * (1 + change + trend)]))
    (py_range 1 n_points) [base_price] ;;
  for_each (fun ic : Z * Q =>
      let (i, close) := ic in
      let open_p := if (0 <? i)%Z then nth (Z.to_nat (i - 1)) prices 0 else close in
      h <- draw (np_random_normal 0 0.0001) ;;
      let high := Qmax open_p close * (1 + Qabs h) in
      l <- draw (np_random_normal 0 0.0001) ;;
      let low := Qmin open_p close * (1 - Qabs l) in
      ret {| timestamp := timestamp_of i;
             open := open_p; high := high; low := low; close := close |})
    (enumerate prices).

(** The body of the window loop of [extract_patterns]; [window[0]] raises
    on an empty window. *)
Definition window_at (data : list Row) (window_size i : Z) : Py (option Window) :=
  let window := map close (py_slice data i (i + window_size)) in
  match window with
  | [] => raise IndexError
  | w0 :: _ =>
      let normalized := map (fun x => (x - w0) / w0) window in
      let trend := last normalized 0 - hd 0 normalized in
      let volatility := np_std normalized in
      let momentum := np_mean (np_diff normalized) in
      if Qltb 0.0001 volatility
      then ret (Some {| index := i; normalized := normalized; trend := trend;
                        volatility := volatility; momentum := momentum |})
      else ret None
  end.

Definition extract_windows (data : list Row) : Py (list Window) :=
  let window_size := windowSize params in
  for_append (window_at data window_size)
             (py_range 0 (Z.of_nat (length data) - window_size)).

Definition create_pattern (cluster_windows : list Window) (cluster_id : nat)
  (support : Q) : Py DiscoveredPattern :=
  let avg_trend := np_mean (map trend cluster_windows) in
  let avg_vol := np_mean (map volatility cluster_windows) in
  let avg_momentum := np_mean (map momentum cluster_windows) in
  let pattern_type :=
    if Qltb 0.002 avg_trend && Qltb 0 avg_momentum then bullish
    else if Qltb avg_trend (- 0.002) && Qltb avg_momentum 0 then bearish
    else neutral in
  let trend_std := np_std (map trend cluster_windows) in
  let confidence := Qmax 0.5 (1 / (1 + trend_std * 1000)) in
  let trends := map trend cluster_windows in
  bootstrap_means <- for_each (fun _ : nat =>
      sample <- draw (np_random_choice trends (length trends)) ;;
      ret (np_mean sample)) (seq 0 100) ;;
  let observed_mean := np_mean trends in
  let p_value :=
    np_mean_bool (map (fun m => Qle_bool (Qabs observed_mean) (Qabs m)) bootstrap_means) in
  let significance := Qmax 0.1 (1 - p_value) in
  noise <- draw (np_random_normal 0 0.02) ;;
  let profitability := avg_trend * 50 + noise in
  let profitability := Qmax (- 0.1) (Qmin 0.15 profitability) in
  let avg_shape := mean_axis0 (map normalized cluster_windows) in
  ret {| id := pattern_id cluster_id;
         type := pattern_type;
         support := support;
         confidence := confidence;
         significance := significance;
         profitability := profitability;
         winRate := confidence * 0.8;
         avgReturn := profitability;
         maxDrawdown := Qabs avg_trend * 0.5;
         sharpeRatio := Qmax 0 (profitability / (avg_vol + 0.001));
         pricePoints := avg_shape;
         duration := length avg_shape;
         frequency := length cluster_windows;
         occurrences := [];
         firstSeen := None;
         lastSeen := None |}.

(** The loop over [range(n_clusters)] that ends [extract_patterns]. *)
Definition frequent_patterns (windows : list Window) (labels : list nat)
  (n_clusters : nat) (min_support : Q) : Py (list DiscoveredPattern) :=
  for_append (fun cluster_id =>
      let cluster_windows := members windows labels cluster_id in
      let support := Qlen cluster_windows / Qlen windows in
      if Qle_bool min_support support && (3 <=? length cluster_windows)%nat
      then pattern <- create_pattern cluster_windows cluster_id support ;;
           ret (Some pattern)
      else ret None)
    (seq 0 n_clusters).

Definition extract_patterns (data : list Row) : Py (list DiscoveredPattern) :=
  let min_support := minSupport params in
  windows <- extract_windows data ;;
  if (length windows <? 10)%nat then ret []
  else
    let features := map (fun w => [trend w; volatility w; momentum w]) windows in
    let features_scaled := StandardScaler_fit_transform features in
    let n_clusters := Nat.min 10 (Nat.max 3 (length windows / 20)) in
    let labels := KMeans_fit_predict n_clusters 42 10 features_scaled in
    frequent_patterns windows labels n_clusters min_support.

Definition calculate_statistics (patterns : list DiscoveredPattern) : Py StatsDict :=
  match patterns with
  | [] => ret (ShortStats 0 0 0 0 [])
  | first :: rest =>
      let avgWinRate := np_mean (map winRate patterns) in
      let overallProfitability := np_mean (map profitability patterns) in
      let avgSharpeRatio := np_mean (map sharpeRatio patterns) in
      let best := py_max_by profitability first rest in
      let worst := py_min_by profitability first rest in
      tf <- lookup (timeFrame params) ;;
      ret (FullStats {|
        totalPatterns := length patterns;
        uniquePatterns := length (distinct_types (map type patterns));
        avgConfidence := np_mean (map confidence patterns);
        avgSupport := np_mean (map support patterns);
        avgSignificance := Some (np_mean (map significance patterns));
        overallProfitability := overallProfitability;
        avgWinRate := avgWinRate;
        avgSharpeRatio := avgSharpeRatio;
        bestPattern := id best;
        worstPattern := id worst;
        patternFrequency := pattern_frequency patterns;
        timeFrameDistribution := [(value tf, length patterns)];
        crossValidationScore :=
          Qlen (filter (fun p => Qltb 0 (profitability p)) patterns) / Qlen patterns;
        bootstrapConfidence :=
          np_mean (map (fun p => confidence p * significance p) patterns);
        outOfSampleResults :=
          {| OutOfSampleResults.winRate := avgWinRate * 0.85;
             OutOfSampleResults.avgReturn := overallProfitability * 0.8;
             OutOfSampleResults.sharpeRatio := avgSharpeRatio * 0.75 |}
      |})
  end.

Definition run_analysis : Py (Results StatsDict) :=
  data <- generate_forex_data ;;
  patterns <- extract_patterns data ;;
  statistics <- calculate_statistics patterns ;;
  ret {| patterns := patterns;
         statistics := statistics;
         metadata := {| dataPointsAnalyzed := length data;
                        patternsFound := length patterns;
                        executionTime := 0;
                        algorithmVersion := "1.0.0";
                        parameters := Some params |} |}.

End Miner.
End Notebook.

(** * The miner of [generateKernelCode] ([DirectKaggleService])

    [self.data] is passed from [generate_forex_data] to
    [extract_sliding_window_patterns] explicitly; [create_visualizations]
    only draws and is left out, and so are the module-level statements of
    the emitted script, among them the [PARAMS] literal. *)

Module Kernel.
Import Python.

(** A row of the OHLC frame; [timestamp] counts the minutes after
    2024-01-01 00:00. *)
Record Row := {
  timestamp : Z;
  open : Q;
  high : Q;
  low : Q;
  close : Q;
  volume : Z
}.

Record Features := {
  normalized_prices : list Q;
  trend : Q;
  volatility : Q;
  skewness : Q;
  kurtosis : Q;
  momentum : Q;
  price_range : Q;
  pattern_strength : Q;
  directional_changes : nat
}.

Record Window := {
  start_idx : Z;
  end_idx : Z;
  features : Features
}.

Definition base_prices : list (string * Q) :=
  [("EURUSD"%string, 1.2); ("GBPUSD"%string, 1.35); ("USDJPY"%string, 110);
   ("USDCHF"%string, 0.92); ("AUDUSD"%string, 0.75); ("USDCAD"%string, 1.25);
   ("NZDUSD"%string, 0.7); ("EURGBP"%string, 0.89); ("EURJPY"%string, 132)].

(** [len([i for i in range(1, len(returns)) if returns[i] * returns[i-1] < 0])]. *)
Fixpoint count_sign_changes (returns : list Q) : nat :=
  match returns with
  | x :: ((y :: _) as tl) =>
      ((if Qltb (y * x) 0 then 1 else 0) + count_sign_changes tl)%nat
  | _ => O
  end.

(** [len(set(labels))]. *)
Definition distinct_labels (labels : list nat) : nat :=
  length (nodup Nat.eq_dec labels).

(** [np.argmax]: the first index of the largest score (0 on no scores). *)
Fixpoint argmax_from (best_i : nat) (best : Q) (i : nat) (scores : list Q) : nat :=
  match scores with
  | [] => best_i
  | s :: tl =>
      if Qltb best s then argmax_from i s (S i) tl
      else argmax_from best_i best (S i) tl
  end.

Definition np_argmax (scores : list Q) : nat :=
  match scores with
  | [] => O
  | s :: tl => argmax_from 0 s 1 tl
  end.

Definition empty_statistics : PatternMiningStatistics := {|
  totalPatterns := 0;
  uniquePatterns := 0;
  avgConfidence := 0;
  avgSupport := 0;
  avgSignificance := None;
  overallProfitability := 0;
  avgWinRate := 0;
  avgSharpeRatio := 0;
  bestPattern := "";
  worstPattern := "";
  patternFrequency := [];
  timeFrameDistribution := [];
  crossValidationScore := 0;
  bootstrapConfidence := 0;
  outOfSampleResults :=
    {| OutOfSampleResults.winRate := 0;
       OutOfSampleResults.avgReturn := 0;
       OutOfSampleResults.sharpeRatio := 0 |}
|}.

Section Miner.
Context {np : Numpy} {sk : Sklearn}.
Variable config : PatternMiningParams.

(** [np.random.seed(s)]. *)
Definition np_random_seed_ (s : Z) : Py unit :=
  fun _ => Returned (tt, np_random_seed s).

Definition generate_forex_data : Py (list Row) :=
  let n_points := dataPoints config in
  cp <- lookup (currencyPair config) ;;
  let base_price := dict_get (symbol cp) base_prices 1 in
  _ <- np_random_seed_ 42 ;;
  prices <- for_fold (fun prices i =>
      random_walk <- draw (np_random_normal 0 0.0008) ;;
      let trend_component := np_sin (inject_Z i / 500) * 0.0002 in
      let cycle_component := np_sin (inject_Z i / 50) * 0.0001 in
      let hour := ((i * 15 / 60) mod 24)%Z in
      let session_multiplier :=
        if ((8 <=? hour) && (hour <=? 16) || (13 <=? hour) && (hour <=? 21))%Z
        then 1.5 else 1 in
      pattern_injection <-
        (if (50 <? i)%Z then
           r <- draw np_random_random ;;
           if Qltb 0.985 r then
             pattern_type <- draw (np_random_choice [bullish; bearish] 1) ;;
             pattern_strength <- draw (np_random_uniform 0.0005 0.0015) ;;
             ret (pattern_strength *
                  (match hd bullish pattern_type with bullish => 1 | _ => - (1) end))
           else ret 0
         else ret 0) ;;
      let total_change :=
        (random_walk + trend_component + cycle_component + pattern_injection)
        * session_multiplier in
      let new_price := last prices 0 * (1 + total_change) in
      ret (prices ++ [new_price]))
    (py_range 1 n_points) [base_price] ;;
  for_each (fun ic : Z * Q =>
      let (i, close) := ic in
      let open_price := if (0 <? i)%Z then nth (Z.to_nat (i - 1)) prices 0 else close in
      n <- draw (np_random_normal 0 0.0001) ;;
      let intrabar_volatility := Qabs n in
      let high := Qmax open_price close * (1 + intrabar_volatility) in
      let low := Qmin open_price close * (1 - intrabar_volatility) in
      volume <- draw (np_random_randint 1000 10000) ;;
      ret {| timestamp := (i * 15)%Z;
             open := open_price; high := high; low := low; close := close;
             volume := volume |})
    (enumerate prices).

Definition calculate_skewness (returns : list Q) : Q :=
  let mean_return := np_mean returns in
  let std_return := np_std returns in
  if Qeq_bool std_return 0 then 0
  else np_mean (map (fun r => Qpower ((r - mean_return) / std_return) 3) returns).

Definition calculate_kurtosis (returns : list Q) : Q :=
  let mean_return := np_mean returns in
  let std_return := np_std returns in
  if Qeq_bool std_return 0 then 0
  else np_mean (map (fun r => Qpower ((r - mean_return) / std_return) 4) returns) - 3.

(** [MinMaxScaler.fit_transform] refuses an array without samples. *)
Definition calculate_pattern_features (window_data : list Row) : Py Features :=
  let closes := map close window_data in
  match closes with
  | [] => raise ValueError
  | c0 :: _ =>
      let normalized_prices := MinMaxScaler_fit_transform closes in
      let returns :=
        map (fun dc : Q * Q => fst dc / snd dc)
            (combine (np_diff closes) (removelast closes)) in
      let first_last := Qabs (last normalized_prices 0 - hd 0 normalized_prices) in
      ret {| normalized_prices := normalized_prices;
             trend := last normalized_prices 0 - hd 0 normalized_prices;
             volatility := np_std returns;
             skewness := calculate_skewness returns;
             kurtosis := calculate_kurtosis returns;
             momentum := np_mean returns;
             price_range := (np_max closes - np_min closes) / c0;
             pattern_strength := np_std normalized_prices + first_last;
             directional_changes := count_sign_changes returns |}
  end.

(** The body of the window loop of [extract_sliding_window_patterns]. *)
Definition window_at (data : list Row) (window_size i : Z) : Py (option Window) :=
  let window_data := py_slice data i (i + window_size) in
  features <- calculate_pattern_features window_data ;;
  if Qltb 0.05 (pattern_strength features)
  then ret (Some {| start_idx := i; end_idx := (i + window_size)%Z;
                    features := features |})
  else ret None.

Definition extract_windows (data : list Row) : Py (list Window) :=
  let window_size := windowSize config in
  for_append (window_at data window_size)
             (py_range 0 (Z.of_nat (length data) - window_size)).

Definition estimate_pattern_profitability (cluster_windows : list Window)
  (avg_trend avg_volatility : Q) : Py Q :=
  let base_profit := avg_trend * 50 in
  let volatility_penalty := avg_volatility * 100 in
  noise <- draw (np_random_normal 0 0.01) ;;
  let profitability := base_profit - volatility_penalty + noise in
  ret (Qmax (- 0.08) (Qmin 0.12 profitability)).

Definition create_representative_pattern (cluster_windows : list Window)
  (cluster_id : nat) (support : Q) : Py DiscoveredPattern :=
  let features_list := map features cluster_windows in
  let avg_trend := np_mean (map trend features_list) in
  let avg_volatility := np_mean (map volatility features_list) in
  let avg_momentum := np_mean (map momentum features_list) in
  let pattern_type :=
    if Qltb 0.01 avg_trend && Qltb 0 avg_momentum then bullish
    else if Qltb avg_trend (- 0.01) && Qltb avg_momentum 0 then bearish
    else neutral in
  let trend_variance := np_var (map trend features_list) in
  let confidence := Qmax 0.5 (1 / (1 + trend_variance * 1000)) in
  let trends := map trend features_list in
  let t_stat := np_mean trends / (np_std trends / np_sqrt (Qlen trends) + 1e-8) in
  let significance := Qmin 0.99 (Qmax 0.1 (Qabs t_stat / 10)) in
  let all_shapes := map normalized_prices features_list in
  let avg_shape := mean_axis0 all_shapes in
  profitability <- estimate_pattern_profitability cluster_windows avg_trend avg_volatility ;;
  ret {| id := pattern_id cluster_id;
         type := pattern_type;
         support := support;
         confidence := confidence;
         significance := significance;
         profitability := profitability;
         winRate := confidence * 0.8;
         avgReturn := profitability;
         maxDrawdown := avg_volatility * 2;
         sharpeRatio := Qmax 0 (profitability / (avg_volatility + 0.001));
         pricePoints := avg_shape;
         duration := length avg_shape;
         frequency := length cluster_windows;
         occurrences := [];
         firstSeen := Some (IsoLiteral "2024-01-01T00:00:00Z");
         lastSeen := Some (IsoLiteral "2024-01-31T23:59:59Z") |}.

(** The loop over [range(optimal_clusters)] that ends
    [cluster_and_filter_patterns]. *)
Definition frequent_patterns (windows : list Window) (cluster_labels : list nat)
  (optimal_clusters : nat) (min_support : Q) : Py (list DiscoveredPattern) :=
  let total_windows := Qlen windows in
  for_append (fun cluster_id =>
      let cluster_windows := members windows cluster_labels cluster_id in
      let support := Qlen cluster_windows / total_windows in
      if Qle_bool min_support support && (5 <=? length cluster_windows)%nat
      then pattern <- create_representative_pattern cluster_windows cluster_id support ;;
           ret (Some pattern)
      else ret None)
    (seq 0 optimal_clusters).

Definition cluster_and_filter_patterns (windows : list Window) (min_support : Q)
  : Py (list DiscoveredPattern) :=
  let feature_matrix :=
    map (fun window =>
           let f := features window in
           [trend f; volatility f; momentum f; price_range f; skewness f; kurtosis f])
        windows in
  let features_scaled := StandardScaler_fit_transform feature_matrix in
  let max_clusters := Nat.min 15 (length windows / 20) in
  let max_clusters := if (max_clusters <? 3)%nat then 3%nat else max_clusters in
  let cluster_range := seq 3 (max_clusters + 1 - 3) in
  let silhouette_scores :=
    map (fun n_clusters =>
           let cluster_labels := KMeans_fit_predict n_clusters 42 10 features_scaled in
           if (1 <? distinct_labels cluster_labels)%nat
           then silhouette_score features_scaled cluster_labels
           else - (1))
        cluster_range in
  let optimal_clusters := nth (np_argmax silhouette_scores) cluster_range 0%nat in
  let cluster_labels := KMeans_fit_predict optimal_clusters 42 10 features_scaled in
  frequent_patterns windows cluster_labels optimal_clusters min_support.

Definition extract_sliding_window_patterns (data : list Row)
  : Py (list DiscoveredPattern) :=
  let min_support := minSupport config in
  windows <- extract_windows data ;;
  if (length windows <? 10)%nat then ret []
  else cluster_and_filter_patterns windows min_support.

Definition calculate_comprehensive_statistics (patterns : list DiscoveredPattern)
  : Py PatternMiningStatistics :=
  match patterns with
  | [] => ret empty_statistics
  | first :: rest =>
      let avgWinRate := np_mean (map winRate patterns) in
      let overallProfitability := np_mean (map profitability patterns) in
      let avgSharpeRatio := np_mean (map sharpeRatio patterns) in
      let best_pattern := py_max_by profitability first rest in
      let worst_pattern := py_min_by profitability first rest in
      let profitable_count :=
        Qlen (filter (fun p => Qltb 0 (profitability p)) patterns) in
      tf <- lookup (timeFrame config) ;;
      ret {|
        totalPatterns := length patterns;
        uniquePatterns := length (distinct_types (map type patterns));
        avgConfidence := np_mean (map confidence patterns);
        avgSupport := np_mean (map support patterns);
        avgSignificance := Some (np_mean (map significance patterns));
        overallProfitability := overallProfitability;
        avgWinRate := avgWinRate;
        avgSharpeRatio := avgSharpeRatio;
        bestPattern := id best_pattern;
        worstPattern := id worst_pattern;
        patternFrequency := pattern_frequency patterns;
        timeFrameDistribution := [(value tf, length patterns)];
        crossValidationScore := profitable_count / Qlen patterns;
        bootstrapConfidence :=
          np_mean (map (fun p => confidence p * significance p) patterns);
        outOfSampleResults :=
          {| OutOfSampleResults.winRate := avgWinRate * 0.85;
             OutOfSampleResults.avgReturn := overallProfitability * 0.8;
             OutOfSampleResults.sharpeRatio := avgSharpeRatio * 0.75 |}
      |}
  end.

Definition run_complete_analysis : Py (Results PatternMiningStatistics) :=
  data <- generate_forex_data ;;
  patterns <- extract_sliding_window_patterns data ;;
  statistics <- calculate_comprehensive_statistics patterns ;;
  ret {| patterns := patterns;
         statistics := statistics;
         metadata := {| dataPointsAnalyzed := length data;
                        patternsFound := length patterns;
                        executionTime := 0;
                        algorithmVersion := "1.0.0";
                        parameters := Some config |} |}.

End Miner.
End Kernel.

(** * The submission endpoint ([POST]) and [submitPatternMiningJob]

    [Date.now()] and the log of requests sent to Kaggle are the state; what
    Kaggle answers to a push is the section variable [fetch_push]. *)

Module Job.
Record t := { jobId : string; estimatedTime : Q; status : string }.
End Job.

Module Submit.

(** The [authorization] header as the handler sees it: absent or not a
    bearer token, a bearer token that does not decode, or the decoded
    credentials. *)
Inductive AuthHeader :=
| NoBearer
| BadBearer
| Bearer (username apiKey : string).

(** A request; [body] is what [request.json()] yields, the message of the
    error it throws on the left. *)
Record Request := {
  body : string + PatternMiningParams;
  authorization : AuthHeader
}.

(** The JSON pushed to [/kernels/push]; the code file is the script
    generated for [code_params]. *)
Record PushRequest := {
  auth_username : string;
  auth_apiKey : string;
  title : string;
  slug : string;
  code_params : PatternMiningParams
}.

Inductive FetchOutcome :=
| FetchThrows
| FetchNotOk (errorText : string)
| FetchOkBadJson
| FetchOk (ref : option string).

Record ApiResponse := {
  success : bool;
  data : option Job.t;
  error : option string;
  timestamp : nat
}.

(** [NextResponse.json(body, { status })]. *)
Record NextResponse := { http_status : nat; json : ApiResponse }.

Record State := { clock : nat -> nat; pushed : list PushRequest }.

Definition JS (A : Type) := State -> A * State.

Definition ret {A} (a : A) : JS A := fun s => (a, s).
Definition bind {A B} (c : JS A) (k : A -> JS B) : JS B :=
  fun s => let (a, s') := c s in k a s'.

Notation "x <- c ;; k" := (bind c (fun x => k))
  (at level 61, c at next level, right associativity).

Definition Date_now : JS nat :=
  fun s => (clock s 0%nat, {| clock := fun n => clock s (S n); pushed := pushed s |}).

(** [x || y] on strings: the empty string is falsy. *)
Definition or_string (x y : string) : string :=
  if String.eqb x "" then y else x.

(** Strings hold UTF-8.  [btoa] throws an [InvalidCharacterError] on a
    character above U+00FF, which UTF-8 starts with a byte of 0xC4 or
    more; every byte of a character up to U+00FF is below that. *)
Definition btoa_defined (s : string) : bool :=
  forallb (fun c => (nat_of_ascii c <? 196)%nat) (list_ascii_of_string s).

Definition getEstimatedExecutionTime (params : PatternMiningParams) : Q :=
  let baseTime := 120 in
  let baseTime := baseTime + (inject_Z (dataPoints params) / 1000) * 15 in
  let baseTime := baseTime + inject_Z (windowSize params) * 3 in
  let baseTime := baseTime + (inject_Z (bootstrapSamples params) / 100) * 5 in
  Qmax baseTime 120.

Section Network.
Variable fetch_push : PushRequest -> FetchOutcome.

Definition fetch (req : PushRequest) : JS FetchOutcome :=
  fun s => (fetch_push req, {| clock := clock s; pushed := pushed s ++ [req] |}).

Definition fallback_jobId (username : string) : JS string :=
  now <- Date_now ;;
  ret (username ++ "/forex-pattern-" ++ string_of_nat now)%string.

(** [KaggleApiClient.submitPatternMiningJob]: every failure inside the
    [try] block ends in the [catch] branch, which returns a fallback id.
    The options of [fetch] are evaluated in order: the [Authorization]
    header, where [btoa] may throw, before the body with the slug's
    [Date.now()]; only then is the request sent. *)
Definition submitPatternMiningJob (username apiKey : string)
  (params : PatternMiningParams) : JS string :=
  match currencyPair params with
  | None => fallback_jobId username
  | Some cp =>
      now <- Date_now ;;
      let kernelTitle :=
        ("Forex Pattern Mining " ++ symbol cp ++ " " ++ string_of_nat now)%string in
      if btoa_defined (username ++ ":" ++ apiKey) then
        now' <- Date_now ;;
        createResponse <- fetch {| auth_username := username;
                                   auth_apiKey := apiKey;
                                   title := kernelTitle;
                                   slug := ("forex-pattern-mining-"
                                            ++ string_of_nat now')%string;
                                   code_params := params |} ;;
        match createResponse with
        | FetchThrows => fallback_jobId username
        | FetchNotOk _ => fallback_jobId username
        | FetchOkBadJson => fallback_jobId username
        | FetchOk (Some ref) =>
            if String.eqb ref "" then fallback_jobId username else ret ref
        | FetchOk None => fallback_jobId username
        end
      else fallback_jobId username
  end.

Definition respond (status : nat) (success : bool) (data : option Job.t)
  (error : option string) : JS NextResponse :=
  now <- Date_now ;;
  ret {| http_status := status;
         json := {| success := success; data := data; error := error;
                    timestamp := now |} |}.

Definition POST (request : Request) : JS NextResponse :=
  match body request with
  | inl message => respond 500 false None (Some message)
  | inr params =>
      match currencyPair params, timeFrame params with
      | Some _, Some _ =>
          let kaggleUsername := "netszy"%string in
          let kaggleApiKey := "60a515ec7742c89c180861c1ec823493"%string in
          let (kaggleUsername, kaggleApiKey) :=
            match authorization request with
            | Bearer u k => (or_string u kaggleUsername, or_string k kaggleApiKey)
            | _ => (kaggleUsername, kaggleApiKey)
            end in
          jobId <- submitPatternMiningJob kaggleUsername kaggleApiKey params ;;
          let estimatedTime := getEstimatedExecutionTime params in
          respond 200 true
                  (Some {| Job.jobId := jobId;
                           Job.estimatedTime := estimatedTime;
                           Job.status := "submitted" |})
                  None
      | _, _ =>
          respond 400 false None
                  (Some "Missing required parameters: currencyPair and timeFrame"%string)
      end
  end.

End Network.
End Submit.

(** * Properties named by the specification *)

Module Spec.
Import Python.

(** The significance of the specification: [B] resamples of the trends
    with replacement, the mean of each, the fraction [p_value] of means
    whose absolute value reaches the absolute observed mean, and
    [max(0.1, 1 - p_value)]. *)
Definition bootstrap_significance {np : Numpy} (B : nat) (trends : list Q) : Py Q :=
  bootstrap_means <- for_each (fun _ : nat =>
      sample <- draw (np_random_choice trends (length trends)) ;;
      ret (np_mean sample)) (seq 0 B) ;;
  let observed_mean := np_mean trends in
  let p_value :=
    np_mean_bool (map (fun m => Qle_bool (Qabs observed_mean) (Qabs m)) bootstrap_means) in
  ret (Qmax 0.1 (1 - p_value)).

(** The confidence of the specification, from the variance of the trends. *)
Definition variance_confidence (scale : Q) (trends : list Q) : Q :=
  Qmax 0.5 (1 / (1 + np_var trends * scale)).

(** Aggregation correctness: the mean confidence and the identifier of a
    pattern of maximal profitability. *)
Definition aggregates (patterns : list DiscoveredPattern) (s : PatternMiningStatistics)
  : Prop :=
  avgConfidence s == np_mean (map confidence patterns) /\
  exists best, In best patterns /\ bestPattern s = id best /\
               forall p, In p patterns -> profitability p <= profitability best.

(** The out-of-sample discount. *)
Definition discounted (s : PatternMiningStatistics) : Prop :=
  OutOfSampleResults.winRate (outOfSampleResults s) == avgWinRate s * 0.85 /\
  OutOfSampleResults.avgReturn (outOfSampleResults s) == overallProfitability s * 0.8 /\
  OutOfSampleResults.sharpeRatio (outOfSampleResults s) == avgSharpeRatio s * 0.75.

(** Invalid parameters: [windowSize] below one bar, [minSupport] outside
    (0, 1], or [bootstrapSamples <= 0]. *)
Definition invalid_parameters (params : PatternMiningParams) : Prop :=
  (windowSize params < 1)%Z \/
  ~ (0 < minSupport params /\ minSupport params <= 1) \/
  (bootstrapSamples params <= 0)%Z.

(** [patternStrength] of a normalized window. *)
Definition patternStrength {np : Numpy} (normalized : list Q) : Q :=
  np_std normalized + Qabs (last normalized 0 - hd 0 normalized).

End Spec.

(** * A reference instance of the library interfaces

    A concrete square root (rounded down to ten decimal places), a
    counter-driven generator and a round-robin clustering, on which the
    model runs. *)

Module Ref.

Definition sqrt10 (x : Q) : Q :=
  inject_Z (Z.sqrt (Qfloor (x * 100000000000000000000))) / 10000000000.

Definition unit_draw (g : nat) : Q := inject_Z (Z.of_nat (g mod 10)) / 10.

Definition normal (mu sigma : Q) (g : nat) : Q * nat :=
  (mu + sigma * (inject_Z (Z.of_nat (g mod 5)) - 2) / 2, S g).

Definition choice (A : Type) (xs : list A) (size : nat) (g : nat) : list A * nat :=
  (match xs with
   | [] => []
   | d :: _ => map (fun k => nth ((g / 7 + g * S k) mod length xs) xs d) (seq 0 size)
   end, S g).

Definition numpy : Numpy.
Proof.
  refine {| RandomState := nat;
            np_sqrt := sqrt10;
            np_sin := fun x => x - x * x * x / 6;
            np_random_seed := Z.to_nat;
            np_random_normal := normal;
            np_random_random := fun g => (unit_draw g, S g);
            np_random_uniform := fun lo hi g => (lo + (hi - lo) * unit_draw g, S g);
            np_random_randint := fun lo hi g => ((lo + Z.of_nat g mod (hi - lo))%Z, S g);
            np_random_choice := choice |}.
  intro x. unfold sqrt10, Qdiv.
  apply Qmult_le_0_compat.
  - change 0 with (inject_Z 0). rewrite <- Zle_Qle. apply Z.sqrt_nonneg.
  - discriminate.
Defined.

Definition sklearn : Sklearn := {|
  KMeans_fit_predict := fun n_clusters _ _ X =>
    map (fun i => (i mod n_clusters)%nat) (seq 0 (length X));
  silhouette_score := fun _ labels => inject_Z (Z.of_nat (length (nodup Nat.eq_dec labels))) / 10
|}.

Definition params : PatternMiningParams := {|
  currencyPair := Some {| base := "EUR"; quote := "USD"; symbol := "EURUSD" |};
  timeFrame := Some {| value := "1h"; label := "1 Hour"; minutes := 60 |};
  windowSize := 3;
  minSupport := 0.05;
  minConfidence := 0.7;
  dataPoints := 18;
  overlapThreshold := 0.3;
  noiseFilter := 0.1;
  significanceLevel := 0.05;
  bootstrapSamples := 1000;
  crossValidationFolds := 5;
  includeTechnicalIndicators := true;
  rsiPeriod := 14;
  macdFast := 12;
  macdSlow := 26;
  bollBandPeriod := 20
|}.

(** Two ambient states of the JavaScript runtime that differ in the values
    [Math.random()] is about to return; all of them lie in [0, 1). *)
Definition world : Demo.World := {|
  Demo.randoms := fun n => inject_Z (Z.of_nat ((n * n + 3 * n) mod 17)) / 17;
  Demo.clocks := fun _ => 1700000000000
|}.

Definition world' : Demo.World := {|
  Demo.randoms := fun n => inject_Z (Z.of_nat ((n * n + 3 * n + 5) mod 17)) / 17;
  Demo.clocks := fun _ => 1700000000000
|}.

(** A pattern with the given identifier, confidence and profitability. *)
Definition pattern (name : string) (conf profit : Q) : DiscoveredPattern := {|
  id := name;
  type := neutral;
  support := 0.1;
  confidence := conf;
  significance := 0.5;
  profitability := profit;
  winRate := conf * 0.8;
  avgReturn := profit;
  maxDrawdown := 0.01;
  sharpeRatio := Qmax 0 (profit / 0.011);
  pricePoints := [0; 0.001; 0.002];
  duration := 3;
  frequency := 5;
  occurrences := [];
  firstSeen := None;
  lastSeen := None
|}.

Definition sample_patterns : list DiscoveredPattern :=
  [pattern "pattern_000" 0.9 0.02; pattern "pattern_001" 0.6 0.05;
   pattern "pattern_002" 0.7 (- 0.01)].

(** Eighteen closing prices, as rows of either miner. *)
Definition closes : list Q :=
  [1; 2; 4; 2; 1; 2; 4; 2; 1; 2; 4; 2; 1; 2; 4; 2; 1; 2].

Definition notebook_rows : list Notebook.Row :=
  map (fun c => {| Notebook.timestamp := ""; Notebook.open := c;
                   Notebook.high := c; Notebook.low := c; Notebook.close := c |})
      closes.

Definition kernel_rows : list Kernel.Row :=
  map (fun c => {| Kernel.timestamp := 0; Kernel.open := c; Kernel.high := c;
                   Kernel.low := c; Kernel.close := c; Kernel.volume := 1000 |})
      closes.

(** The windows that survive in either miner, the labels the reference
    clustering gives fifteen windows, and its first cluster. *)
Definition notebook_windows : list Notebook.Window :=
  match Notebook.extract_windows (np := numpy) params notebook_rows 0%nat with
  | Python.Returned (windows, _) => windows
  | Python.Raised _ => []
  end.

Definition kernel_windows : list Kernel.Window :=
  match Kernel.extract_windows (np := numpy) params kernel_rows 0%nat with
  | Python.Returned (windows, _) => windows
  | Python.Raised _ => []
  end.

Definition labels : list nat := map (fun i => (i mod 3)%nat) (seq 0 15).

Definition notebook_cluster : list Notebook.Window := members notebook_windows labels 0.

(** A steadily rising series: every window has the min-max trend 1. *)
Definition rising_rows : list Kernel.Row :=
  map (fun c => {| Kernel.timestamp := 0; Kernel.open := c; Kernel.high := c;
                   Kernel.low := c; Kernel.close := c; Kernel.volume := 1000 |})
      [1; 2; 3; 4; 5; 6; 7; 8; 9; 10; 11; 12; 13; 14; 15; 16; 17; 18].

Definition rising_cluster : list Kernel.Window :=
  members (match Kernel.extract_windows (np := numpy) params rising_rows 0%nat with
           | Python.Returned (windows, _) => windows
           | Python.Raised _ => []
           end) labels 0.

(** Two clusters of four windows whose trends have the standard
    deviations 0.0001 and 0.0002 (variances 1e-8 and 4e-8). *)
Definition window_with_trend (t : Q) : Notebook.Window := {|
  Notebook.index := 0;
  Notebook.normalized := [0; 0.001; t];
  Notebook.trend := t;
  Notebook.volatility := 0.0004;
  Notebook.momentum := t / 2
|}.

Definition tight_cluster : list Notebook.Window :=
  map window_with_trend [0; 0.0002; 0; 0.0002].

Definition loose_cluster : list Notebook.Window :=
  map window_with_trend [0; 0.0004; 0; 0.0004].

(** A request whose [windowSize], [minSupport] and [bootstrapSamples] are
    all out of range, a Kaggle that is unreachable, and a server state. *)
Definition invalid_params : PatternMiningParams := {|
  currencyPair := currencyPair params;
  timeFrame := timeFrame params;
  windowSize := -5;
  minSupport := 7;
  minConfidence := 0.7;
  dataPoints := 10000;
  overlapThreshold := 0.3;
  noiseFilter := 0.1;
  significanceLevel := 0.05;
  bootstrapSamples := 0;
  crossValidationFolds := 5;
  includeTechnicalIndicators := true;
  rsiPeriod := 14;
  macdFast := 12;
  macdSlow := 26;
  bollBandPeriod := 20
|}.

Definition invalid_request : Submit.Request := {|
  Submit.body := inr invalid_params;
  Submit.authorization := Submit.NoBearer
|}.

Definition kaggle_down : Submit.PushRequest -> Submit.FetchOutcome :=
  fun _ => Submit.FetchThrows.

Definition state : Submit.State := {|
  Submit.clock := fun n => (1000 + n)%nat;
  Submit.pushed := []
|}.

(** [params] with the largest noise filter of the parameter panel. *)
Definition strict_params : PatternMiningParams := {|
  currencyPair := currencyPair params;
  timeFrame := timeFrame params;
  windowSize := 3;
  minSupport := 0.05;
  minConfidence := 0.7;
  dataPoints := 18;
  overlapThreshold := 0.3;
  noiseFilter := 0.5;
  significanceLevel := 0.05;
  bootstrapSamples := 1000;
  crossValidationFolds := 5;
  includeTechnicalIndicators := true;
  rsiPeriod := 14;
  macdFast := 12;
  macdSlow := 26;
  bollBandPeriod := 20
|}.

(** Four rows with a single window: a move of one per mille and back, and
    a spike. *)
Definition quiet_rows : list Notebook.Row :=
  map (fun c => {| Notebook.timestamp := ""; Notebook.open := c;
                   Notebook.high := c; Notebook.low := c; Notebook.close := c |})
      [1000; 1001; 1000; 1000].

Definition spike_rows : list Kernel.Row :=
  map (fun c => {| Kernel.timestamp := 0; Kernel.open := c; Kernel.high := c;
                   Kernel.low := c; Kernel.close := c; Kernel.volume := 1000 |})
      [1; 2; 1; 1].

End Ref.

From Stdlib Require Import DecimalNat.


(** * Conditions on the ambient state and on results *)

Module Ambient.

(** Every value [Math.random()] is about to return lies in [0, 1). *)
Definition unit_draws (w : Demo.World) : Prop :=
  forall n, 0 <= Demo.randoms w n /\ Demo.randoms w n < 1.

(** The ranges that the comments of [generateDemoResults] promise. *)
Definition demo_ranges (p : DiscoveredPattern) : Prop :=
  (0.6 <= confidence p /\ confidence p <= 0.95) /\
  (0.02 <= support p /\ support p <= 0.17) /\
  (0.2 <= significance p /\ significance p <= 1) /\
  (- 0.036 <= profitability p /\ profitability p <= 0.084) /\
  (0.51 <= winRate p /\ winRate p <= 0.9575) /\
  (0 <= maxDrawdown p /\ maxDrawdown p <= 0.04) /\
  (0 <= sharpeRatio p /\ sharpeRatio p <= 2.125) /\
  (10 <= frequency p <= 49)%nat /\
  length (pricePoints p) = 20%nat /\ duration p = 20%nat.

End Ambient.

(** * The technical indicators of [forex-data.ts]

    The indicator functions that [calculateTechnicalIndicators] calls on the
    close prices, for a period that is a positive integer (the analysis
    endpoint passes 14, 12, 26 and 20). *)

Module Indicators.

(** [Math.sqrt], with the one law the proofs use. *)
Class JSMath := {
  Math_sqrt : Q -> Q;
  Math_sqrt_nonneg : forall x, 0 <= Math_sqrt x
}.

(** [xs.slice(start, stop)] for bounds that are not negative. *)
Definition slice (xs : list Q) (start stop : nat) : list Q :=
  firstn (stop - start) (skipn start xs).

(** [xs.reduce((a, b) => a + b)]: without an initial value the reduction
    of an empty array throws a [TypeError]. *)
Definition reduce_add (xs : list Q) : option Q :=
  match xs with
  | [] => None
  | x :: rest => Some (fold_left Qplus rest x)
  end.

(** A loop that pushes one value per index and stops at the first throw. *)
Fixpoint for_push {A} (body : nat -> option A) (indices : list nat) : option (list A) :=
  match indices with
  | [] => Some []
  | i :: rest =>
      match body i with
      | None => None
      | Some a =>
          match for_push body rest with
          | None => None
          | Some out => Some (a :: out)
          end
      end
  end.

(** The indices of [for (let i = first; i < n; i++)]. *)
Definition indices_from (first n : nat) : list nat := seq first (n - first).

Definition calculateSMA (prices : list Q) (period : positive) : option (list Q) :=
  let p := Pos.to_nat period in
  for_push (fun i =>
      match reduce_add (slice prices (i + 1 - p) (i + 1)) with
      | None => None
      | Some sum => Some (sum / inject_Z (Zpos period))
      end)
    (indices_from (p - 1) (length prices)).

(** The loop of [calculateEMA] from index 1 on; [prev] is [ema[i - 1]]. *)
Fixpoint ema_from (multiplier prev : Q) (prices : list Q) : list Q :=
  match prices with
  | [] => []
  | price :: rest =>
      let value := price * multiplier + prev * (1 - multiplier) in
      value :: ema_from multiplier value rest
  end.

Definition calculateEMA (prices : list Q) (period : positive) : list Q :=
  let multiplier := 2 / (inject_Z (Zpos period) + 1) in
  match prices with
  | [] => []
  | first :: rest => first :: ema_from multiplier first rest
  end.

(** The second loop of [calculateRSI]. *)
Fixpoint rsi_from (prices : list Q) (period avgGain avgLoss : Q) (indices : list nat)
  : list Q :=
  match indices with
  | [] => []
  | i :: rest =>
      let change := nth i prices 0 - nth (i - 1) prices 0 in
      let gain := if Qltb 0 change then change else 0 in
      let loss := if Qltb change 0 then - change else 0 in
      let avgGain := (avgGain * (period - 1) + gain) / period in
      let avgLoss := (avgLoss * (period - 1) + loss) / period in
      let rs := avgGain / (if Qeq_bool avgLoss 0 then 1 else avgLoss) in
      let rsiValue := 100 - 100 / (1 + rs) in
      rsiValue :: rsi_from prices period avgGain avgLoss rest
  end.

Definition calculateRSI (prices : list Q) (period : positive) : list Q :=
  let p := Pos.to_nat period in
  let pq := inject_Z (Zpos period) in
  if (length prices <? p + 1)%nat then []
  else
    let totals :=
      fold_left (fun (totals : Q * Q) i =>
          let (gains, losses) := totals in
          let change := nth i prices 0 - nth (i - 1) prices 0 in
          if Qltb 0 change then (gains + change, losses)
          else (gains, losses - change))
        (seq 1 p) (0, 0) in
    let avgGain := fst totals / pq in
    let avgLoss := snd totals / pq in
    rsi_from prices pq avgGain avgLoss (indices_from p (length prices)).

Record MACD := { macd : list Q; signal : list Q; histogram : list Q }.

Definition calculateMACD (prices : list Q) (fastPeriod slowPeriod : positive) : MACD :=
  let emaFast := calculateEMA prices fastPeriod in
  let emaSlow := calculateEMA prices slowPeriod in
  let startIndex :=
    (Nat.max (length emaFast) (length emaSlow)
     - Nat.min (length emaFast) (length emaSlow))%nat in
  let macdLine :=
    map (fun i => nth i emaFast 0 - nth i emaSlow 0)
        (indices_from startIndex (Nat.min (length emaFast) (length emaSlow))) in
  let signalLine := calculateEMA macdLine 9 in
  let histogram :=
    map (fun i => nth i macdLine 0 - nth i signalLine 0)
        (indices_from 0 (Nat.min (length macdLine) (length signalLine))) in
  {| macd := macdLine; signal := signalLine; histogram := histogram |}.

Record Bands := { upper : list Q; middle : list Q; lower : list Q }.

Definition calculateBollingerBands {m : JSMath} (prices : list Q) (period : positive)
  (stdDev : Q) : option Bands :=
  let p := Pos.to_nat period in
  match calculateSMA prices period with
  | None => None
  | Some sma =>
      match
        for_push (fun i =>
            let window := slice prices (i + 1 - p) (i + 1) in
            match reduce_add window with
            | None => None
            | Some sum =>
                let mean := sum / Qlen window in
                let variance :=
                  fold_left (fun a b => a + Qpower (b - mean) 2) window 0
                  / Qlen window in
                let standardDeviation := Math_sqrt variance in
                Some (nth (i + 1 - p) sma 0 + stdDev * standardDeviation,
                      nth (i + 1 - p) sma 0 - stdDev * standardDeviation)
            end)
          (indices_from (p - 1) (length prices))
      with
      | None => None
      | Some bands =>
          Some {| upper := map fst bands; middle := sma; lower := map snd bands |}
      end
  end.

End Indicators.

(** * The filters of the analysis endpoint *)

Module Filters.

(** [FilterOptions] arrives in the request body unchecked: a field may hold
    a string outside its type, which the last constructors stand for. *)
Inductive PatternTypeFilter := all | only (t : PatternType) | other_type.
Inductive SortField :=
| by_confidence | by_support | by_profitability | by_frequency | by_significance
| other_field.
Inductive SortOrder := asc | other_order.

Record FilterOptions := {
  patternType : PatternTypeFilter;
  minConfidence : Q;
  minSupport : Q;
  minProfitability : Q;
  sortBy : SortField;
  sortOrder : SortOrder
}.

(** The value the comparator reads off a pattern. *)
Definition sort_value (field : SortField) (p : DiscoveredPattern) : Q :=
  match field with
  | by_confidence => confidence p
  | by_support => support p
  | by_profitability => or0 (profitability p)
  | by_frequency => or0 (inject_Z (Z.of_nat (frequency p)))
  | by_significance => significance p
  | other_field => confidence p
  end.

(** The comparator handed to [filtered.sort]. *)
Definition comparator (filters : FilterOptions) (a b : DiscoveredPattern) : Q :=
  let aValue := sort_value (sortBy filters) a in
  let bValue := sort_value (sortBy filters) b in
  match sortOrder filters with
  | asc => aValue - bValue
  | other_order => bValue - aValue
  end.

(** [Array.prototype.sort] with a comparator: a stable sort; [p] stood
    before every element of [sorted] and moves behind those it compares
    greater than. *)
Fixpoint insert (compare : DiscoveredPattern -> DiscoveredPattern -> Q)
  (p : DiscoveredPattern) (sorted : list DiscoveredPattern) : list DiscoveredPattern :=
  match sorted with
  | [] => [p]
  | q :: tl =>
      if Qltb 0 (compare p q) then q :: insert compare p tl else p :: q :: tl
  end.

Definition sort (compare : DiscoveredPattern -> DiscoveredPattern -> Q)
  (ps : list DiscoveredPattern) : list DiscoveredPattern :=
  fold_right (insert compare) [] ps.

Definition applyPatternFilters (patterns : list DiscoveredPattern)
  (filters : FilterOptions) : list DiscoveredPattern :=
  let filtered := patterns in
  let filtered :=
    match patternType filters with
    | all => filtered
    | only t => filter (fun p => PatternType_eqb (type p) t) filtered
    | other_type => filter (fun _ => false) filtered
    end in
  let filtered :=
    filter (fun p => Qle_bool (minConfidence filters) (confidence p)) filtered in
  let filtered :=
    filter (fun p => Qle_bool (minSupport filters) (support p)) filtered in
  let filtered :=
    if Qltb (- (1)) (minProfitability filters)
    then filter (fun p => Qle_bool (minProfitability filters) (or0 (profitability p)))
                filtered
    else filtered in
  sort (comparator filters) filtered.

(** What a pattern has to satisfy to pass the filters. *)
Definition passes (filters : FilterOptions) (p : DiscoveredPattern) : Prop :=
  match patternType filters with
  | all => True
  | only t => type p = t
  | other_type => False
  end /\
  minConfidence filters <= confidence p /\
  minSupport filters <= support p /\
  (- (1) < minProfitability filters -> minProfitability filters <= profitability p).

(** The order the result is in. *)
Definition in_order (filters : FilterOptions) (a b : DiscoveredPattern) : Prop :=
  match sortOrder filters with
  | asc => sort_value (sortBy filters) a <= sort_value (sortBy filters) b
  | other_order => sort_value (sortBy filters) b <= sort_value (sortBy filters) a
  end.

End Filters.

(** * The correlations of the analysis endpoint *)

Module Correlation.

(** [patternGroups]: an object whose keys keep their insertion order. *)
Fixpoint group_push (p : DiscoveredPattern)
  (groups : list (PatternType * list DiscoveredPattern))
  : list (PatternType * list DiscoveredPattern) :=
  match groups with
  | [] => [(type p, [p])]
  | (k, members) :: tl =>
      if PatternType_eqb k (type p) then (k, members ++ [p]) :: tl
      else (k, members) :: group_push p tl
  end.

Definition patternGroups (patterns : list DiscoveredPattern)
  : list (PatternType * list DiscoveredPattern) :=
  fold_left (fun groups p => group_push p groups) patterns [].

Definition calculateCorrelation {m : Indicators.JSMath} (x y : list Q) : Q :=
  if ((length x =? 0) || (length y =? 0) || negb (length x =? length y))%nat then 0
  else
    let n := Qlen x in
    let sumX := fold_left (fun a b => a + b) x 0 in
    let sumY := fold_left (fun a b => a + b) y 0 in
    let sumXY :=
      fold_left (fun sum (xi_i : Q * nat) => sum + fst xi_i * nth (snd xi_i) y 0)
                (combine x (seq 0 (length x))) 0 in
    let sumXX := fold_left (fun sum xi => sum + xi * xi) x 0 in
    let sumYY := fold_left (fun sum yi => sum + yi * yi) y 0 in
    let numerator := n * sumXY - sumX * sumY in
    let denominator :=
      Indicators.Math_sqrt ((n * sumXX - sumX * sumX) * (n * sumYY - sumY * sumY)) in
    if Qeq_bool denominator 0 then 0 else numerator / denominator.

Definition calculatePatternCorrelations {m : Indicators.JSMath}
  (patterns : list DiscoveredPattern) : list (PatternType * list (PatternType * Q)) :=
  let groups := patternGroups patterns in
  let indexed := combine (seq 0 (length groups)) groups in
  map (fun ia : nat * (PatternType * list DiscoveredPattern) =>
         let (i, a) := ia in
         (fst a,
          map (fun jb : nat * (PatternType * list DiscoveredPattern) =>
                 let (j, b) := jb in
                 (fst b,
                  if (i =? j)%nat then 1
                  else
                    let profitA := map (fun p => or0 (profitability p)) (snd a) in
                    let profitB := map (fun p => or0 (profitability p)) (snd b) in
                    calculateCorrelation profitA profitB))
              indexed))
      indexed.

(** [correlations[a][b]]. *)
Definition entry (correlations : list (PatternType * list (PatternType * Q)))
  (a b : PatternType) : option Q :=
  match find (fun row => PatternType_eqb (fst row) a) correlations with
  | None => None
  | Some (_, row) =>
      match find (fun cell => PatternType_eqb (fst cell) b) row with
      | None => None
      | Some (_, value) => Some value
      end
  end.

(** The patterns of a type, and their number. *)
Definition of_type (t : PatternType) (patterns : list DiscoveredPattern)
  : list DiscoveredPattern :=
  filter (fun p => PatternType_eqb (type p) t) patterns.

Definition count (t : PatternType) (patterns : list DiscoveredPattern) : nat :=
  length (of_type t patterns).

(** The position of a type among the keys of [patternGroups], counted from
    [start], and the group stored under it. *)
Fixpoint lookup_from (t : PatternType)
  (groups : list (PatternType * list DiscoveredPattern)) (start : nat)
  : option (nat * list DiscoveredPattern) :=
  match groups with
  | [] => None
  | (k, members) :: tl =>
      if PatternType_eqb k t then Some (start, members)
      else lookup_from t tl (S start)
  end.

End Correlation.

(** * Job status and results

    [getJobStatus] and [getJobResults] of [KaggleApiClient] and the [GET]
    handler of the results endpoint, over the clock of [Demo]. *)

Module Status.
Import Demo.

Inductive JobStatus := submitted | running | completed | failed | cancelled.

(** A value of Kaggle's JSON answers, as far as the code looks at it. *)
Inductive Json :=
| JUndefined
| JNull
| JBool (b : bool)
| JNumber (x : Q)
| JString (s : string)
| JObject.

Definition truthy (v : Json) : bool :=
  match v with
  | JUndefined | JNull => false
  | JBool b => b
  | JNumber x => negb (Qeq_bool x 0)
  | JString s => negb (String.eqb s "")
  | JObject => true
  end.

(** [String.prototype.toLowerCase] on the letters A to Z.  A character
    outside ASCII stays outside ASCII or becomes [k], and no key that the
    code looks up holds either. *)
Definition lower (c : ascii) : ascii :=
  let n := nat_of_ascii c in
  if ((65 <=? n) && (n <=? 90))%nat then ascii_of_nat (n + 32) else c.

Fixpoint toLowerCase (s : string) : string :=
  match s with
  | EmptyString => EmptyString
  | String c tl => String (lower c) (toLowerCase tl)
  end.

(** [status?.toLowerCase()]: [undefined] for a missing status, a
    [TypeError] (here [None]) for a status that is neither missing nor a
    string. *)
Inductive Key := key_undefined | key (s : string).

Definition lowered (status : Json) : option Key :=
  match status with
  | JUndefined | JNull => Some key_undefined
  | JString s => Some (key (toLowerCase s))
  | _ => None
  end.

(** What [statusMap[k] || 'submitted'] yields: a status of the map or,
    for a name every object inherits, that member of [Object.prototype]. *)
Inductive StatusValue :=
| known (s : JobStatus)
| inherited (name : string).

Definition Object_prototype : list string :=
  ["constructor"; "__proto__"; "hasOwnProperty"; "isPrototypeOf";
   "propertyIsEnumerable"; "toLocaleString"; "toString"; "valueOf";
   "__defineGetter__"; "__defineSetter__"; "__lookupGetter__";
   "__lookupSetter__"]%string.

Definition statusMap (k : Key) : StatusValue :=
  match k with
  | key_undefined => known submitted
  | key s =>
      if String.eqb s "queued" then known submitted
      else if String.eqb s "starting" then known running
      else if String.eqb s "running" then known running
      else if String.eqb s "complete" then known completed
      else if String.eqb s "error" then known failed
      else if String.eqb s "cancelled" then known cancelled
      else if String.eqb s "cancelAcknowledged" then known cancelled
      else if existsb (String.eqb s) Object_prototype then inherited s
      else known submitted
  end.

Definition mapKaggleStatus (kaggleStatus : Json) : option StatusValue :=
  match lowered kaggleStatus with
  | None => None
  | Some k => Some (statusMap k)
  end.

Definition calculateProgress (status : Json) : option Q :=
  match lowered status with
  | None => None
  | Some key_undefined => Some 10
  | Some (key s) =>
      Some (if String.eqb s "queued" then 5
            else if String.eqb s "starting" then 15
            else if String.eqb s "running" then 50
            else if String.eqb s "complete" then 100
            else if String.eqb s "error" then 0
            else if String.eqb s "cancelled" then 0
            else 10)
  end.

Definition getStatusMessage (status : Json) : option string :=
  match lowered status with
  | None => None
  | Some key_undefined => Some "Job status unknown"%string
  | Some (key s) =>
      Some (if String.eqb s "queued" then "Job queued for execution"
            else if String.eqb s "starting" then "Starting kernel environment"
            else if String.eqb s "running" then "Executing pattern mining analysis"
            else if String.eqb s "complete" then "Analysis completed successfully"
            else if String.eqb s "error" then "Job failed with errors"
            else if String.eqb s "cancelled" then "Job was cancelled"
            else "Job status unknown")%string
  end.

(** A time field: a value passed on from Kaggle, or
    [new Date(ms).toISOString()] kept as its argument. *)
Inductive TimeField :=
| passed_on (v : Json)
| iso (ms : Q).

Record KaggleJobStatus := {
  id : string;
  status : StatusValue;
  progress : Q;
  message : Json;
  startTime : TimeField;
  endTime : TimeField;
  executionTime : Json;
  logUrl : Json;
  outputUrl : Json
}.

(** The body of Kaggle's answer to the status request. *)
Record StatusData := {
  data_status : Json;
  failureMessage : Json;
  creationTime : Json;
  lastRunTime : Json;
  totalRuntime : Json;
  data_logUrl : Json;
  data_outputUrl : Json
}.

Inductive StatusFetch :=
| StatusThrows                         (* [fetch] rejects *)
| StatusNotOk                          (* [!response.ok] *)
| StatusBadJson                        (* [response.json()] rejects *)
| StatusNull                           (* the body is [null] *)
| StatusOk (data : StatusData).        (* any other body *)

(** [jobId.split('-').pop()]: what follows the last hyphen. *)
Fixpoint split_pop (current s : string) : string :=
  match s with
  | EmptyString => current
  | String c tl =>
      if Ascii.eqb c "-" then split_pop EmptyString tl
      else split_pop (current ++ String c EmptyString) tl
  end.

(** [new Date(ms)] is an invalid date beyond 8.64e15 milliseconds, and
    [toISOString] throws a [RangeError] on an invalid date. *)
Definition valid_time (ms : Q) : bool := Qle_bool (Qabs ms) 8640000000000000.

(** The [catch] branch of [getJobStatus]. *)
Definition demo_mode (jobId : string) : JS KaggleJobStatus :=
  now <- Date_now ;;
  ret {| id := jobId;
         status := known running;
         progress := 25;
         message := JString "Job running (demo mode)";
         startTime := iso now;
         endTime := passed_on JUndefined;
         executionTime := JNumber 60;
         logUrl := JUndefined;
         outputUrl := JUndefined |}.

Section Client.
(** [parseInt], [None] for [NaN]; the two requests, answered by Kaggle for
    the credentials and the job at hand. *)
Variable parseInt : string -> option Q.
Variable fetch_status : string -> string -> string -> StatusFetch.

(** The branch of a status request that is not ok: a status simulated from
    the age of the job. *)
Definition simulated (jobId : string) : JS KaggleJobStatus :=
  let timestamp := split_pop EmptyString jobId in
  jobAge <- (if String.eqb timestamp "" then ret (Some 60000)
             else now <- Date_now ;;
                  ret (match parseInt timestamp with
                       | Some t => Some (now - t)
                       | None => None
                       end)) ;;
  now' <- Date_now ;;
  match jobAge with
  | None => demo_mode jobId
  | Some jobAge =>
      let secondsElapsed := Math_floor (jobAge / 1000) in
      let state :=
        if (180 <? secondsElapsed)%Z
        then (completed, 100,
              "Pattern mining analysis completed successfully"%string)
        else if (30 <? secondsElapsed)%Z
        then (running, Qmin 90 (inject_Z secondsElapsed / 180 * 100),
              "Analyzing patterns using ML algorithms..."%string)
        else (submitted, 10, "Job submitted successfully"%string) in
      let is_completed :=
        match fst (fst state) with completed => true | _ => false end in
      if valid_time (now' - jobAge) then
        endTime <- (if is_completed then now'' <- Date_now ;; ret (iso now'')
                    else ret (passed_on JUndefined)) ;;
        ret {| id := jobId;
               status := known (fst (fst state));
               progress := snd (fst state);
               message := JString (snd state);
               startTime := iso (now' - jobAge);
               endTime := endTime;
               executionTime :=
                 if is_completed then JNumber 180
                 else JNumber (inject_Z secondsElapsed);
               logUrl := JUndefined;
               outputUrl :=
                 if is_completed then JString ("demo-output-" ++ jobId)
                 else JUndefined |}
      else demo_mode jobId
  end.

Definition getJobStatus (username apiKey jobId : string) : JS KaggleJobStatus :=
  match fetch_status username apiKey jobId with
  | StatusThrows => demo_mode jobId
  | StatusNotOk => simulated jobId
  | StatusBadJson => demo_mode jobId
  | StatusNull => demo_mode jobId
  | StatusOk data =>
      match mapKaggleStatus (data_status data),
            calculateProgress (data_status data),
            getStatusMessage (data_status data) with
      | Some status, Some progress, Some text =>
          startTime <- (if truthy (creationTime data)
                        then ret (passed_on (creationTime data))
                        else now <- Date_now ;; ret (iso now)) ;;
          ret {| id := jobId;
                 status := status;
                 progress := progress;
                 message := if truthy (failureMessage data)
                            then failureMessage data else JString text;
                 startTime := startTime;
                 endTime := passed_on (lastRunTime data);
                 executionTime := totalRuntime data;
                 logUrl := data_logUrl data;
                 outputUrl := data_outputUrl data |}
      | _, _, _ => demo_mode jobId
      end
  end.

(** What the output request and the parsing of its text come to.
    [Payload] is a truthy value found under a key of the parsed results. *)
Variable Payload : Type.

Inductive OutputFetch :=
| OutputThrows (message : string)      (* [fetch] or [text()] rejects *)
| OutputNotOk
| OutputNoMarkers                      (* no text between the two markers *)
| OutputUnparsable (message : string)  (* [JSON.parse] throws, or yields [null] *)
| OutputResults (patterns statistics metadata : option Payload).

Variable fetch_output : string -> string -> string -> OutputFetch.

(** A field of the results: found in Kaggle's output, replaced by the
    empty default, or taken from the demo results. *)
Inductive Field (D : Type) :=
| from_output (v : Payload)
| empty_default
| from_demo (d : D).
Arguments from_output {D} v.
Arguments empty_default {D}.
Arguments from_demo {D} d.

Definition or_default {D} (v : option Payload) : Field D :=
  match v with Some v => from_output v | None => empty_default end.

Record KaggleJobResults := {
  jobId_of : string;
  result_patterns : Field (list DiscoveredPattern);
  result_statistics : Field PatternMiningStatistics;
  result_metadata : Field Metadata
}.

(** The outcome of [getJobResults]: [null], the results, or a rethrown
    error. *)
Inductive Outcome :=
| null
| results (r : KaggleJobResults)
| thrown (message : string).

Definition demo_results (jobId : string) : JS Outcome :=
  demoResults <- generateDemoResults jobId ;;
  ret (results {| jobId_of := jobId;
                  result_patterns := from_demo (patterns demoResults);
                  result_statistics := from_demo (statistics demoResults);
                  result_metadata := from_demo (metadata demoResults) |}).

Definition getJobResults (username apiKey jobId : string) : JS Outcome :=
  job <- getJobStatus username apiKey jobId ;;
  match status job with
  | known completed =>
      match fetch_output username apiKey jobId with
      | OutputThrows message => ret (thrown message)
      | OutputNotOk => demo_results jobId
      | OutputNoMarkers => demo_results jobId
      | OutputUnparsable message => ret (thrown message)
      | OutputResults patterns statistics metadata =>
          ret (results {| jobId_of := jobId;
                          result_patterns := or_default patterns;
                          result_statistics := or_default statistics;
                          result_metadata := or_default metadata |})
      end
  | _ => ret null
  end.

Record ApiResponse := {
  success : bool;
  data : option KaggleJobResults;
  error : option string;
  timestamp : Q
}.

Record NextResponse := { http_status : nat; json : ApiResponse }.

Definition respond (code : nat) (success : bool) (data : option KaggleJobResults)
  (error : option string) : JS NextResponse :=
  now <- Date_now ;;
  ret {| http_status := code;
         json := {| success := success; data := data; error := error;
                    timestamp := now |} |}.

(** The [GET] handler; [jobId] is [searchParams.get('jobId')]. *)
Definition GET (jobId : option string) (authorization : Submit.AuthHeader)
  : JS NextResponse :=
  match jobId with
  | None => respond 400 false None (Some "Missing required parameter: jobId"%string)
  | Some jobId =>
      if String.eqb jobId "" then
        respond 400 false None (Some "Missing required parameter: jobId"%string)
      else
        let kaggleUsername := "netszy"%string in
        let kaggleApiKey := "60a515ec7742c89c180861c1ec823493"%string in
        let (kaggleUsername, kaggleApiKey) :=
          match authorization with
          | Submit.Bearer u k =>
              (Submit.or_string u kaggleUsername, Submit.or_string k kaggleApiKey)
          | _ => (kaggleUsername, kaggleApiKey)
          end in
        outcome <- getJobResults kaggleUsername kaggleApiKey jobId ;;
        match outcome with
        | null =>
            respond 202 false None
                    (Some "Job not completed or results not available yet"%string)
        | results r => respond 200 true (Some r) None
        | thrown message => respond 500 false None (Some message)
        end
  end.

End Client.

Arguments OutputThrows {Payload} message.
Arguments OutputNotOk {Payload}.
Arguments OutputNoMarkers {Payload}.
Arguments OutputUnparsable {Payload} message.
Arguments OutputResults {Payload} patterns statistics metadata.
Arguments from_output {Payload D} v.
Arguments empty_default {Payload D}.
Arguments from_demo {Payload D} d.
Arguments jobId_of {Payload} _.
Arguments result_patterns {Payload} _.
Arguments result_statistics {Payload} _.
Arguments result_metadata {Payload} _.
Arguments null {Payload}.
Arguments results {Payload} r.
Arguments thrown {Payload} message.
Arguments success {Payload} _.
Arguments data {Payload} _.
Arguments error {Payload} _.
Arguments timestamp {Payload} _.
Arguments http_status {Payload} _.
Arguments json {Payload} _.
Arguments GET parseInt fetch_status {Payload} fetch_output jobId authorization _.
Arguments getJobResults parseInt fetch_status {Payload} fetch_output
  username apiKey jobId _.

End Status.

(** * Sample collaborators

    A square root, a [parseInt] for decimal digits and a Kaggle that
    answers no request, on which the statements above are exercised. *)

Module Sample.

Definition jsmath : Indicators.JSMath := {|
  Indicators.Math_sqrt := np_sqrt (Numpy := Ref.numpy);
  Indicators.Math_sqrt_nonneg := np_sqrt_nonneg (Numpy := Ref.numpy)
|}.

Definition parseInt (s : string) : option Q :=
  match NilEmpty.uint_of_string s with
  | Some Decimal.Nil => None
  | Some d => Some (inject_Z (Z.of_nat (Nat.of_uint d)))
  | None => None
  end.

Definition status_down : string -> string -> string -> Status.StatusFetch :=
  fun _ _ _ => Status.StatusNotOk.

Definition output_down : string -> string -> string -> Status.OutputFetch unit :=
  fun _ _ _ => Status.OutputNotOk.

(** A KMeans that answers like [Ref.sklearn] for [random_state=42] and puts
    every row into cluster 0 for any other seed. *)
(** The euro sign, U+20AC, in UTF-8: a character that [btoa] rejects. *)
Definition euro_sign : string :=
  String (ascii_of_nat 226) (String (ascii_of_nat 130)
    (String (ascii_of_nat 172) EmptyString)).

Definition sklearn_at_42 : Sklearn := {|
  KMeans_fit_predict := fun n_clusters random_state n_init X =>
    if (random_state =? 42)%Z
    then KMeans_fit_predict (Sklearn := Ref.sklearn) n_clusters random_state n_init X
    else map (fun _ => 0%nat) X;
  silhouette_score := silhouette_score (Sklearn := Ref.sklearn)
|}.

(** Submitted at 1000 ms, looked at 200 s later. *)
Definition later : Demo.World := {|
  Demo.randoms := Demo.randoms Ref.world;
  Demo.clocks := fun _ => 201000
|}.

End Sample.
(** * Part II: properties *)

(** ** Rational and list facts *)

Lemma Qltb_lt x y : Qltb x y = true <-> x < y.
Proof.
  unfold Qltb. rewrite negb_true_iff. split; intro H.
  - apply Qnot_le_lt. intro Hle. apply Qle_bool_iff in Hle. congruence.
  - destruct (Qle_bool y x) eqn:E; [|reflexivity].
    apply Qle_bool_iff in E. exfalso. apply (Qlt_not_le _ _ H E).
Qed.

Lemma Qltb_ge x y : Qltb x y = false <-> y <= x.
Proof.
  unfold Qltb. rewrite negb_false_iff. apply Qle_bool_iff.
Qed.

Lemma or0_eq x : or0 x == x.
Proof.
  unfold or0. destruct (Qeq_bool x 0) eqn:E; [|reflexivity].
  apply Qeq_bool_eq in E. symmetry. exact E.
Qed.

Lemma fold_left_Qplus xs : forall a, fold_left Qplus xs a == a + Qsum xs.
Proof.
  unfold Qsum. induction xs as [|x xs IH]; intro a; simpl.
  - ring.
  - rewrite (IH (a + x)), (IH (0 + x)). ring.
Qed.

Lemma Qsum_cons x xs : Qsum (x :: xs) == x + Qsum xs.
Proof.
  unfold Qsum at 1. simpl. rewrite fold_left_Qplus. ring.
Qed.

Lemma Qsum_nonneg xs : Forall (fun x => 0 <= x) xs -> 0 <= Qsum xs.
Proof.
  induction 1 as [|x xs Hx _ IH].
  - unfold Qsum. simpl. apply Qle_refl.
  - rewrite Qsum_cons. lra.
Qed.

Lemma Qsum_map_ext {A} (f g : A -> Q) xs :
  (forall a, In a xs -> f a == g a) -> Qsum (map f xs) == Qsum (map g xs).
Proof.
  induction xs as [|x xs IH]; intro H; simpl.
  - reflexivity.
  - rewrite !Qsum_cons. rewrite IH.
    + rewrite (H x); [reflexivity | now left].
    + intros a Ha. apply H. now right.
Qed.

Lemma Qlen_nonneg {A} (xs : list A) : 0 <= Qlen xs.
Proof.
  unfold Qlen. change 0 with (inject_Z 0). rewrite <- Zle_Qle. lia.
Qed.

Lemma Qlen_pos {A} (xs : list A) : xs <> [] -> 0 < Qlen xs.
Proof.
  intro H. unfold Qlen. change 0 with (inject_Z 0). rewrite <- Zlt_Qlt.
  destruct xs; [congruence | simpl; lia].
Qed.

Lemma Qlen_map {A B} (f : A -> B) xs : Qlen (map f xs) = Qlen xs.
Proof. unfold Qlen. now rewrite length_map. Qed.

Lemma Qdiv_nonneg a b : 0 <= a -> 0 <= b -> 0 <= a / b.
Proof.
  intros Ha Hb. unfold Qdiv. apply Qmult_le_0_compat; [exact Ha|].
  apply Qinv_le_0_compat. exact Hb.
Qed.

Lemma np_mean_nonneg xs : Forall (fun x => 0 <= x) xs -> 0 <= np_mean xs.
Proof.
  intro H. unfold np_mean. apply Qdiv_nonneg.
  - now apply Qsum_nonneg.
  - apply Qlen_nonneg.
Qed.

Lemma np_var_nonneg xs : 0 <= np_var xs.
Proof.
  unfold np_var. apply np_mean_nonneg. apply Forall_forall.
  intros y Hy. apply in_map_iff in Hy. destruct Hy as [x [<- _]].
  set (d := x - np_mean xs). nra.
Qed.

Lemma np_std_nonneg {np : Numpy} xs : 0 <= np_std xs.
Proof. apply np_sqrt_nonneg. Qed.

(** The clamp [max(lo, 1 / (1 + d * k))] stays below 1 for [d, k >= 0]. *)
Lemma inverse_clamp_range lo d k :
  lo <= 1 -> 0 <= d -> 0 <= k ->
  lo <= Qmax lo (1 / (1 + d * k)) /\ Qmax lo (1 / (1 + d * k)) <= 1.
Proof.
  intros Hlo Hd Hk. split; [apply Q.le_max_l|].
  apply Q.max_lub; [exact Hlo|].
  assert (Hpos : 0 < 1 + d * k) by nra.
  apply Qle_shift_div_r; [exact Hpos|]. nra.
Qed.

Lemma py_max_by_spec {A} (key : A -> Q) rest : forall first,
  In (py_max_by key first rest) (first :: rest) /\
  forall x, In x (first :: rest) -> key x <= key (py_max_by key first rest).
Proof.
  unfold py_max_by. induction rest as [|y rest IH]; intro first; simpl.
  - split; [now left|]. intros x [<-|[]]. apply Qle_refl.
  - destruct (IH (if Qltb (key first) (key y) then y else first)) as [Hin Hmax].
    split.
    + destruct Hin as [Hin|Hin]; [|now right; right].
      rewrite <- Hin. destruct (Qltb (key first) (key y)); [right; now left | now left].
    + intros x Hx.
      assert (Hstep : key first <= key (if Qltb (key first) (key y) then y else first)
                      /\ key y <= key (if Qltb (key first) (key y) then y else first)).
      { destruct (Qltb (key first) (key y)) eqn:E.
        - apply Qltb_lt in E. split; [now apply Qlt_le_weak | apply Qle_refl].
        - apply Qltb_ge in E. split; [apply Qle_refl | exact E]. }
      destruct Hx as [<-|[<-|Hx]].
      * eapply Qle_trans; [apply Hstep | apply Hmax; now left].
      * eapply Qle_trans; [apply Hstep | apply Hmax; now left].
      * apply Hmax. now right.
Qed.

Lemma py_min_by_spec {A} (key : A -> Q) rest : forall first,
  In (py_min_by key first rest) (first :: rest) /\
  forall x, In x (first :: rest) -> key (py_min_by key first rest) <= key x.
Proof.
  unfold py_min_by. induction rest as [|y rest IH]; intro first; simpl.
  - split; [now left|]. intros x [<-|[]]. apply Qle_refl.
  - destruct (IH (if Qltb (key y) (key first) then y else first)) as [Hin Hmin].
    split.
    + destruct Hin as [Hin|Hin]; [|now right; right].
      rewrite <- Hin. destruct (Qltb (key y) (key first)); [right; now left | now left].
    + intros x Hx.
      assert (Hstep : key (if Qltb (key y) (key first) then y else first) <= key first
                      /\ key (if Qltb (key y) (key first) then y else first) <= key y).
      { destruct (Qltb (key y) (key first)) eqn:E.
        - apply Qltb_lt in E. split; [now apply Qlt_le_weak | apply Qle_refl].
        - apply Qltb_ge in E. split; [apply Qle_refl | exact E]. }
      destruct Hx as [<-|[<-|Hx]].
      * eapply Qle_trans; [apply Hmin; now left | apply Hstep].
      * eapply Qle_trans; [apply Hmin; now left | apply Hstep].
      * apply Hmin. now right.
Qed.

(** ** The Python monad *)

Import Python.

Lemma bind_Returned_inv {np : Numpy} {A B} (c : Py A) (k : A -> Py B) g b g' :
  bind c k g = Returned (b, g') ->
  exists a g1, c g = Returned (a, g1) /\ k a g1 = Returned (b, g').
Proof.
  unfold bind. destruct (c g) as [[a g1]|e]; [|discriminate].
  intro Hk. now exists a, g1.
Qed.

Lemma for_append_nil_range {np : Numpy} {B} (body : Z -> Py (option B)) start stop g :
  (stop <= start)%Z -> for_append body (py_range start stop) g = Returned ([], g).
Proof.
  intro Hle. unfold py_range. replace (Z.to_nat (stop - start)) with 0%nat by lia.
  reflexivity.
Qed.

(** ** Statistics aggregation *)

Lemma Analyze_aggregates first rest :
  Spec.aggregates (first :: rest) (Analyze.calculatePatternStatistics (first :: rest)).
Proof.
  split.
  - cbn [Analyze.calculatePatternStatistics avgConfidence]. unfold np_mean.
    now rewrite Qlen_map.
  - exists (Analyze.reduce_best first rest).
    destruct (py_max_by_spec (fun p => or0 (profitability p)) rest first) as [Hin Hmax].
    split; [exact Hin|]. split; [reflexivity|].
    intros p Hp. specialize (Hmax p Hp). cbv beta in Hmax.
    rewrite !or0_eq in Hmax. exact Hmax.
Qed.

Lemma Analyze_discounted patterns :
  Spec.discounted (Analyze.calculatePatternStatistics patterns).
Proof.
  destruct patterns as [|first rest]; repeat split; cbn; try reflexivity; ring.
Qed.

Lemma Notebook_calculate_statistics_full {np : Numpy} params tf first rest g :
  timeFrame params = Some tf ->
  exists s, Notebook.calculate_statistics params (first :: rest) g
            = Returned (Notebook.FullStats s, g)
            /\ Spec.aggregates (first :: rest) s /\ Spec.discounted s
            /\ totalPatterns s = length (first :: rest).
Proof.
  intro Htf. unfold Notebook.calculate_statistics. rewrite Htf.
  eexists. split; [reflexivity|]. split; [|split].
  - split; [reflexivity|].
    exists (py_max_by profitability first rest).
    destruct (py_max_by_spec profitability rest first) as [Hin Hmax].
    split; [exact Hin|]. split; [reflexivity | exact Hmax].
  - repeat split; cbn; reflexivity.
  - reflexivity.
Qed.

Lemma Kernel_calculate_statistics_full {np : Numpy} config tf first rest g :
  timeFrame config = Some tf ->
  exists s, Kernel.calculate_comprehensive_statistics config (first :: rest) g
            = Returned (s, g)
            /\ Spec.aggregates (first :: rest) s /\ Spec.discounted s
            /\ totalPatterns s = length (first :: rest).
Proof.
  intro Htf. unfold Kernel.calculate_comprehensive_statistics. rewrite Htf.
  eexists. split; [reflexivity|]. split; [|split].
  - split; [reflexivity|].
    exists (py_max_by profitability first rest).
    destruct (py_max_by_spec profitability rest first) as [Hin Hmax].
    split; [exact Hin|]. split; [reflexivity | exact Hmax].
  - repeat split; cbn; reflexivity.
  - reflexivity.
Qed.

(** *** The demo generator sorts by confidence *)

Lemma insert_by_confidence_In p sorted x :
  In x (Demo.insert_by_confidence p sorted) <-> x = p \/ In x sorted.
Proof.
  induction sorted as [|q tl IH]; simpl.
  - intuition.
  - destruct (Qltb (confidence p) (confidence q)); simpl; rewrite ?IH; intuition.
Qed.

Lemma sort_by_confidence_In ps x :
  In x (Demo.sort_by_confidence ps) <-> In x ps.
Proof.
  unfold Demo.sort_by_confidence. induction ps as [|p ps IH]; simpl.
  - tauto.
  - rewrite insert_by_confidence_In, IH. intuition.
Qed.

Lemma insert_by_confidence_sorted p sorted :
  StronglySorted (fun a b => confidence b <= confidence a) sorted ->
  StronglySorted (fun a b => confidence b <= confidence a)
                 (Demo.insert_by_confidence p sorted).
Proof.
  induction 1 as [|q tl Hs IH Hq]; simpl.
  - constructor; constructor.
  - destruct (Qltb (confidence p) (confidence q)) eqn:E.
    + apply Qltb_lt in E. constructor; [exact IH|].
      apply Forall_forall. intros x Hx. apply insert_by_confidence_In in Hx.
      destruct Hx as [->|Hx]; [now apply Qlt_le_weak|].
      rewrite Forall_forall in Hq. now apply Hq.
    + apply Qltb_ge in E. constructor; [now constructor|].
      constructor; [exact E|].
      apply Forall_forall. intros x Hx. rewrite Forall_forall in Hq.
      eapply Qle_trans; [apply Hq; exact Hx | exact E].
Qed.

Lemma sort_by_confidence_sorted ps :
  StronglySorted (fun a b => confidence b <= confidence a) (Demo.sort_by_confidence ps).
Proof.
  unfold Demo.sort_by_confidence. induction ps as [|p ps IH]; simpl.
  - constructor.
  - now apply insert_by_confidence_sorted.
Qed.

(** The record that [generateDemoResults] returns, read off its last
    statement. *)
Lemma generateDemoResults_shape jobId w :
  let r := fst (Demo.generateDemoResults jobId w) in
  exists unsorted,
    unsorted = fst (Demo.for_push Demo.demo_pattern 0
                      (Z.to_nat (Demo.Math_floor (Demo.randoms w 0 * 15) + 10))
                      (snd (Demo.Math_random w))) /\
    patterns r = Demo.sort_by_confidence unsorted /\
    avgConfidence (statistics r) = Qsum (map confidence (patterns r)) / Qlen (patterns r) /\
    bestPattern (statistics r) = Demo.id_or_empty (nth_error (patterns r) 0) /\
    totalPatterns (statistics r) = length (patterns r).
Proof.
  unfold Demo.generateDemoResults, Demo.bind, Demo.Math_random, Demo.ret.
  cbn [fst snd Demo.randoms Demo.clocks].
  match goal with
  | |- context [Demo.for_push Demo.demo_pattern 0 ?n ?w'] =>
      destruct (Demo.for_push Demo.demo_pattern 0 n w') as [unsorted w2]
  end.
  cbn. exists unsorted. repeat split.
Qed.

Lemma Demo_most_confident_first jobId w :
  let r := fst (Demo.generateDemoResults jobId w) in
  patterns r <> [] ->
  avgConfidence (statistics r) == np_mean (map confidence (patterns r)) /\
  exists first, nth_error (patterns r) 0 = Some first /\
                bestPattern (statistics r) = id first /\
                forall p, In p (patterns r) -> confidence p <= confidence first.
Proof.
  intros r Hne. destruct (generateDemoResults_shape jobId w) as [unsorted [_ [Hp [Ha [Hb _]]]]].
  fold r in Hp, Ha, Hb. split.
  - rewrite Ha. unfold np_mean. now rewrite Qlen_map.
  - pose proof (sort_by_confidence_sorted unsorted) as Hs. rewrite <- Hp in Hs.
    destruct (patterns r) as [|first tl]; [congruence|].
    exists first. split; [reflexivity|]. split; [rewrite Hb; reflexivity|].
    intros p [<-|Hp']; [apply Qle_refl|].
    inversion Hs as [|? ? _ Hall]; subst. rewrite Forall_forall in Hall. now apply Hall.
Qed.

(** C4 (amended): on a non-empty pattern list the three aggregators
    ([calculatePatternStatistics], [calculate_statistics],
    [calculate_comprehensive_statistics]) return statistics whose
    [avgConfidence] is the arithmetic mean of the patterns' confidences and
    whose [bestPattern] is the id of a pattern of maximal profitability; on
    the empty list they return, without raising, the all-zero structure of
    their source.  The demo generator also reports the mean confidence, but
    its [bestPattern] is the id of the first pattern after its sort by
    descending confidence. *)
Theorem C4_aggregation :
  (forall patterns, patterns <> [] ->
     Spec.aggregates patterns (Analyze.calculatePatternStatistics patterns)) /\
  Analyze.calculatePatternStatistics [] = Analyze.zero_statistics /\
  (forall (np : Numpy) params tf patterns g,
     patterns <> [] -> timeFrame params = Some tf ->
     exists s, Notebook.calculate_statistics params patterns g
               = Returned (Notebook.FullStats s, g) /\ Spec.aggregates patterns s) /\
  (forall (np : Numpy) params g,
     Notebook.calculate_statistics params [] g
     = Returned (Notebook.ShortStats 0 0 0 0 [], g)) /\
  (forall (np : Numpy) config tf patterns g,
     patterns <> [] -> timeFrame config = Some tf ->
     exists s, Kernel.calculate_comprehensive_statistics config patterns g
               = Returned (s, g) /\ Spec.aggregates patterns s) /\
  (forall (np : Numpy) config g,
     Kernel.calculate_comprehensive_statistics config [] g
     = Returned (Kernel.empty_statistics, g)) /\
  (forall jobId w,
     patterns (fst (Demo.generateDemoResults jobId w)) <> [] ->
     avgConfidence (statistics (fst (Demo.generateDemoResults jobId w)))
     == np_mean (map confidence (patterns (fst (Demo.generateDemoResults jobId w)))) /\
     exists first,
       nth_error (patterns (fst (Demo.generateDemoResults jobId w))) 0 = Some first /\
       bestPattern (statistics (fst (Demo.generateDemoResults jobId w))) = id first /\
       forall p, In p (patterns (fst (Demo.generateDemoResults jobId w))) ->
                 confidence p <= confidence first).
Proof.
  repeat apply conj.
  - intros [|first rest] Hne; [congruence|]. apply Analyze_aggregates.
  - reflexivity.
  - intros np params tf [|first rest] g Hne Htf; [congruence|].
    destruct (Notebook_calculate_statistics_full params tf first rest g Htf)
      as [s [Hs [Ha _]]]. now exists s.
  - reflexivity.
  - intros np config tf [|first rest] g Hne Htf; [congruence|].
    destruct (Kernel_calculate_statistics_full config tf first rest g Htf)
      as [s [Hs [Ha _]]]. now exists s.
  - reflexivity.
  - intros jobId w Hne. now apply Demo_most_confident_first.
Qed.

Lemma C4_witness :
  Spec.aggregates Ref.sample_patterns
                  (Analyze.calculatePatternStatistics Ref.sample_patterns).
Proof.
  apply (proj1 C4_aggregation Ref.sample_patterns). discriminate.
Defined.

(** C4, as stated, fails on the demo generator: in the ambient state
    [Ref.world] it names [pattern_002] as best, the most confident pattern,
    while [pattern_005] is more profitable. *)
Lemma C4_counterexample :
  ~ Spec.aggregates (patterns (fst (Demo.generateDemoResults "job" Ref.world)))
                    (statistics (fst (Demo.generateDemoResults "job" Ref.world))).
Proof.
  assert (Hkeys :
    map (fun p => (id p, Qred (profitability p)))
        (patterns (fst (Demo.generateDemoResults "job" Ref.world))) =
    [("pattern_002"%string, 177 # 4250); ("pattern_000"%string, -63 # 4250);
     ("pattern_005"%string, 297 # 4250); ("pattern_007"%string, -123 # 4250);
     ("pattern_003"%string, 147 # 4250); ("pattern_009"%string, -93 # 4250);
     ("pattern_006"%string, -33 # 4250); ("pattern_004"%string, -9 # 250);
     ("pattern_008"%string, 27 # 4250); ("pattern_001"%string, -63 # 4250)]).
  { vm_compute. reflexivity. }
  assert (Hname : bestPattern (statistics (fst (Demo.generateDemoResults "job" Ref.world)))
                  = "pattern_002"%string).
  { vm_compute. reflexivity. }
  intros [_ [best [Hin [Hid Hmax]]]].
  rewrite Hname in Hid. clear Hname.
  set (ps := patterns (fst (Demo.generateDemoResults "job" Ref.world))) in *.
  clearbody ps.
  assert (Hbest : In (id best, Qred (profitability best))
                     (map (fun p => (id p, Qred (profitability p))) ps)).
  { apply (in_map (fun p => (id p, Qred (profitability p)))). exact Hin. }
  assert (H5 : In ("pattern_005"%string, 297 # 4250)
                  (map (fun p => (id p, Qred (profitability p))) ps)).
  { rewrite Hkeys. right. right. left. reflexivity. }
  apply in_map_iff in H5. destruct H5 as [p5 [Hk5 Hin5]].
  specialize (Hmax p5 Hin5).
  rewrite <- (Qred_correct (profitability p5)), <- (Qred_correct (profitability best))
    in Hmax.
  injection Hk5 as _ Hp5. rewrite Hp5 in Hmax.
  rewrite Hkeys in Hbest. simpl in Hbest.
  repeat (destruct Hbest as [Hbest|Hbest];
          [injection Hbest as Hname' Hprofit; try congruence|]);
    [|destruct Hbest].
  rewrite <- Hprofit in Hmax. apply Hmax. reflexivity.
Qed.

(** C5 (amended): the statistics that [calculatePatternStatistics]
    returns for any list, and those the two Python aggregators return for
    a non-empty list (and [calculate_comprehensive_statistics] for the
    empty one), carry out-of-sample results equal to the in-sample
    averages times 0.85, 0.8 and 0.75.  [calculate_statistics] on the
    empty list returns a dictionary without out-of-sample results. *)
Theorem C5_out_of_sample_discount :
  (forall patterns, Spec.discounted (Analyze.calculatePatternStatistics patterns)) /\
  (forall (np : Numpy) params tf patterns g,
     patterns <> [] -> timeFrame params = Some tf ->
     exists s, Notebook.calculate_statistics params patterns g
               = Returned (Notebook.FullStats s, g) /\ Spec.discounted s) /\
  (forall (np : Numpy) config tf patterns g,
     patterns <> [] -> timeFrame config = Some tf ->
     exists s, Kernel.calculate_comprehensive_statistics config patterns g
               = Returned (s, g) /\ Spec.discounted s) /\
  Spec.discounted Kernel.empty_statistics.
Proof.
  repeat apply conj.
  - apply Analyze_discounted.
  - intros np params tf [|first rest] g Hne Htf; [congruence|].
    destruct (Notebook_calculate_statistics_full params tf first rest g Htf)
      as [s [Hs [_ [Hd _]]]]. now exists s.
  - intros np config tf [|first rest] g Hne Htf; [congruence|].
    destruct (Kernel_calculate_statistics_full config tf first rest g Htf)
      as [s [Hs [_ [Hd _]]]]. now exists s.
  - vm_compute. reflexivity.
  - vm_compute. reflexivity.
  - vm_compute. reflexivity.
Qed.

Lemma C5_witness :
  exists s, Notebook.calculate_statistics (np := Ref.numpy) Ref.params
              Ref.sample_patterns 0%nat
            = Returned (Notebook.FullStats s, 0%nat) /\ Spec.discounted s.
Proof.
  apply (proj1 (proj2 C5_out_of_sample_discount) Ref.numpy Ref.params
               {| value := "1h"; label := "1 Hour"; minutes := 60 |}).
  - discriminate.
  - reflexivity.
Defined.

(** C5, as stated, fails on the demo generator: in the ambient state
    [Ref.world] the out-of-sample win rate is 9/20, drawn on its own, and
    not 0.85 times the average win rate. *)
Lemma C5_counterexample :
  ~ Spec.discounted (statistics (fst (Demo.generateDemoResults "job" Ref.world))).
Proof.
  intros [Hw _]. vm_compute in Hw. discriminate Hw.
Qed.

(** ** Loops of the miners *)

Lemma for_each_total {np : Numpy} {A B} (body : A -> Py B) xs :
  (forall x g, exists b g', body x g = Returned (b, g')) ->
  forall g, exists bs g', for_each body xs g = Returned (bs, g')
                          /\ length bs = length xs.
Proof.
  intro Hbody. induction xs as [|x xs IH]; intro g; simpl.
  - exists [], g. now split.
  - destruct (Hbody x g) as [b [g1 Hb]]. destruct (IH g1) as [bs [g2 [Hbs Hlen]]].
    exists (b :: bs), g2. unfold bind. rewrite Hb, Hbs. split; [reflexivity|].
    simpl. now rewrite Hlen.
Qed.

Lemma for_append_total {np : Numpy} {A B} (body : A -> Py (option B)) xs :
  (forall x g, exists ob g', body x g = Returned (ob, g')) ->
  forall g, exists bs g', for_append body xs g = Returned (bs, g').
Proof.
  intro Hbody. induction xs as [|x xs IH]; intro g; simpl.
  - now exists [], g.
  - destruct (Hbody x g) as [ob [g1 Hb]]. destruct (IH g1) as [bs [g2 Hbs]].
    unfold bind. rewrite Hb, Hbs. eexists. eexists. reflexivity.
Qed.

Lemma for_append_In {np : Numpy} {A B} (body : A -> Py (option B)) xs :
  forall g bs g', for_append body xs g = Returned (bs, g') ->
  forall b, In b bs ->
  exists x g1 g2, In x xs /\ body x g1 = Returned (Some b, g2).
Proof.
  induction xs as [|x xs IH]; intros g bs g' Hrun b Hb; simpl in Hrun.
  - inversion Hrun; subst. destruct Hb.
  - apply bind_Returned_inv in Hrun. destruct Hrun as [ob [g1 [Hbody Hrun]]].
    apply bind_Returned_inv in Hrun. destruct Hrun as [bs' [g2 [Hrest Hret]]].
    inversion Hret; subst; clear Hret.
    destruct ob as [b0|].
    + destruct Hb as [<-|Hb].
      * exists x, g, g1. split; [now left | exact Hbody].
      * destruct (IH _ _ _ Hrest b Hb) as [x' [ga [gb [Hx' Hb']]]].
        exists x', ga, gb. split; [now right | exact Hb'].
    + destruct (IH _ _ _ Hrest b Hb) as [x' [ga [gb [Hx' Hb']]]].
      exists x', ga, gb. split; [now right | exact Hb'].
Qed.

(** Every element that a conditional-append loop keeps satisfies what the
    body guarantees of the elements it appends. *)
Lemma for_append_Forall {np : Numpy} {A B} (body : A -> Py (option B)) (P : B -> Prop) xs :
  (forall x g b g', body x g = Returned (Some b, g') -> P b) ->
  forall g bs g', for_append body xs g = Returned (bs, g') -> Forall P bs.
Proof.
  intros Hbody g bs g' Hrun. apply Forall_forall. intros b Hb.
  destruct (for_append_In body xs g bs g' Hrun b Hb) as [x [g1 [g2 [_ Hx]]]].
  eapply Hbody. exact Hx.
Qed.

Lemma members_length {W} (windows : list W) labels cluster_id :
  (length (members windows labels cluster_id) <= length windows)%nat.
Proof.
  unfold members. rewrite length_map.
  eapply Nat.le_trans; [apply filter_length_le|].
  rewrite length_combine. apply Nat.le_min_l.
Qed.

Lemma members_In {W} (windows : list W) labels cluster_id w :
  In w (members windows labels cluster_id) -> In w windows.
Proof.
  unfold members. intro Hw. apply in_map_iff in Hw.
  destruct Hw as [[w' l] [<- Hin]]. apply filter_In in Hin.
  destruct Hin as [Hin _]. now apply in_combine_l in Hin.
Qed.

(** A cluster of at least one window, taken among [windows], has a support
    in (0, 1]. *)
Lemma support_range {W} (cluster windows : list W) :
  (0 < length cluster)%nat -> (length cluster <= length windows)%nat ->
  0 < Qlen cluster / Qlen windows /\ Qlen cluster / Qlen windows <= 1.
Proof.
  intros Hpos Hle. unfold Qlen.
  assert (Hc : 0 < inject_Z (Z.of_nat (length cluster))).
  { change 0 with (inject_Z 0). rewrite <- Zlt_Qlt. lia. }
  assert (Hw : 0 < inject_Z (Z.of_nat (length windows))).
  { change 0 with (inject_Z 0). rewrite <- Zlt_Qlt. lia. }
  assert (Hcw : inject_Z (Z.of_nat (length cluster)) <= inject_Z (Z.of_nat (length windows))).
  { rewrite <- Zle_Qle. lia. }
  split.
  - apply Qlt_shift_div_l; [exact Hw|]. lra.
  - apply Qle_shift_div_r; [exact Hw|]. lra.
Qed.

(** ** [create_pattern] and [create_representative_pattern] *)

Lemma bootstrap_body_total {np : Numpy} (trends : list Q) :
  forall (x : nat) g, exists b g',
    (sample <- draw (np_random_choice trends (length trends)) ;;
     ret (np_mean sample)) g = Returned (b, g').
Proof.
  intros _ g. unfold bind, draw, ret.
  destruct (np_random_choice trends (length trends) g) as [sample g1].
  eexists. eexists. reflexivity.
Qed.

(** What [create_pattern] returns: it never raises, and its fields are
    these functions of the cluster. *)
Lemma Notebook_create_pattern_fields {np : Numpy} cluster_windows cluster_id s g :
  exists p g',
    Notebook.create_pattern cluster_windows cluster_id s g = Returned (p, g') /\
    id p = pattern_id cluster_id /\
    support p = s /\
    frequency p = length cluster_windows /\
    confidence p
    = Qmax 0.5 (1 / (1 + np_std (map Notebook.trend cluster_windows) * 1000)) /\
    (exists g1, Spec.bootstrap_significance 100 (map Notebook.trend cluster_windows) g
                = Returned (significance p, g1)) /\
    sharpeRatio p
    = Qmax 0 (profitability p
              / (np_mean (map Notebook.volatility cluster_windows) + 0.001)) /\
    winRate p = confidence p * 0.8 /\
    - 0.1 <= profitability p /\ profitability p <= 0.15 /\
    duration p = length (pricePoints p).
Proof.
  unfold Notebook.create_pattern, Spec.bootstrap_significance. cbv zeta.
  match goal with
  | |- context [for_each ?body ?xs] =>
      destruct (for_each_total body xs (bootstrap_body_total _) g)
        as [bm [g1 [Hbm _]]]
  end.
  unfold bind at 1. rewrite Hbm.
  unfold bind at 1, draw at 1.
  destruct (np_random_normal 0 0.02 g1) as [noise g2]. unfold ret at 1.
  eexists. eexists. split; [reflexivity|]. cbn [id support frequency confidence
    significance sharpeRatio winRate profitability duration pricePoints].
  repeat (split; [reflexivity|]).
  split.
  { exists g1. unfold bind at 1. rewrite Hbm. reflexivity. }
  repeat (split; [reflexivity|]).
  split; [apply Q.le_max_l|]. split; [|reflexivity].
  apply Q.max_lub; [discriminate|]. apply Q.le_min_l.
Qed.

Lemma Kernel_create_pattern_fields {np : Numpy} cluster_windows cluster_id s g :
  exists p g',
    Kernel.create_representative_pattern cluster_windows cluster_id s g
    = Returned (p, g') /\
    id p = pattern_id cluster_id /\
    support p = s /\
    frequency p = length cluster_windows /\
    confidence p
    = Spec.variance_confidence 1000
        (map Kernel.trend (map Kernel.features cluster_windows)) /\
    significance p
    = (let trends := map Kernel.trend (map Kernel.features cluster_windows) in
       let t_stat := np_mean trends / (np_std trends / np_sqrt (Qlen trends) + 1e-8) in
       Qmin 0.99 (Qmax 0.1 (Qabs t_stat / 10))) /\
    sharpeRatio p
    = Qmax 0 (profitability p
              / (np_mean (map Kernel.volatility (map Kernel.features cluster_windows))
                 + 0.001)) /\
    winRate p = confidence p * 0.8 /\
    - 0.08 <= profitability p /\ profitability p <= 0.12 /\
    duration p = length (pricePoints p).
Proof.
  unfold Kernel.create_representative_pattern, Kernel.estimate_pattern_profitability.
  cbv zeta. unfold bind, draw.
  match goal with
  | |- context [np_random_normal 0 0.01 g] =>
      destruct (np_random_normal 0 0.01 g) as [noise g1]
  end.
  unfold ret. eexists. eexists. split; [reflexivity|].
  cbn [id support frequency confidence significance sharpeRatio winRate
       profitability duration pricePoints].
  repeat (split; [reflexivity|]).
  split; [apply Q.le_max_l|]. split; [|reflexivity].
  apply Q.max_lub; [discriminate|]. apply Q.le_min_l.
Qed.

(** ** The retained clusters *)

Lemma Notebook_frequent_patterns_In {np : Numpy} windows labels n min_support g ps g' p :
  Notebook.frequent_patterns windows labels n min_support g = Returned (ps, g') ->
  In p ps ->
  exists cluster_id g1 g2,
    (cluster_id < n)%nat /\
    min_support <= Qlen (members windows labels cluster_id) / Qlen windows /\
    (3 <= length (members windows labels cluster_id))%nat /\
    Notebook.create_pattern (members windows labels cluster_id) cluster_id
      (Qlen (members windows labels cluster_id) / Qlen windows) g1
    = Returned (p, g2).
Proof.
  unfold Notebook.frequent_patterns. intros Hrun Hp.
  destruct (for_append_In _ _ _ _ _ Hrun p Hp) as [cid [g1 [g2 [Hcid Hbody]]]].
  apply in_seq in Hcid. cbv zeta in Hbody.
  destruct (Qle_bool min_support _ && (3 <=? _)%nat) eqn:Hcond;
    [|inversion Hbody].
  apply andb_true_iff in Hcond. destruct Hcond as [Hs Hn].
  apply Qle_bool_iff in Hs. apply Nat.leb_le in Hn.
  apply bind_Returned_inv in Hbody. destruct Hbody as [p' [g3 [Hcreate Hret]]].
  inversion Hret; subst; clear Hret.
  exists cid, g1, g2. repeat split; try assumption. lia.
Qed.

Lemma Kernel_frequent_patterns_In {np : Numpy} windows labels n min_support g ps g' p :
  Kernel.frequent_patterns windows labels n min_support g = Returned (ps, g') ->
  In p ps ->
  exists cluster_id g1 g2,
    (cluster_id < n)%nat /\
    min_support <= Qlen (members windows labels cluster_id) / Qlen windows /\
    (5 <= length (members windows labels cluster_id))%nat /\
    Kernel.create_representative_pattern (members windows labels cluster_id) cluster_id
      (Qlen (members windows labels cluster_id) / Qlen windows) g1
    = Returned (p, g2).
Proof.
  unfold Kernel.frequent_patterns. intros Hrun Hp. cbv zeta in Hrun.
  destruct (for_append_In _ _ _ _ _ Hrun p Hp) as [cid [g1 [g2 [Hcid Hbody]]]].
  apply in_seq in Hcid. cbv zeta in Hbody.
  destruct (Qle_bool min_support _ && (5 <=? _)%nat) eqn:Hcond;
    [|inversion Hbody].
  apply andb_true_iff in Hcond. destruct Hcond as [Hs Hn].
  apply Qle_bool_iff in Hs. apply Nat.leb_le in Hn.
  apply bind_Returned_inv in Hbody. destruct Hbody as [p' [g3 [Hcreate Hret]]].
  inversion Hret; subst; clear Hret.
  exists cid, g1, g2. repeat split; try assumption. lia.
Qed.

(** A pattern returned by [extract_patterns] was created from a cluster of
    the surviving windows that passed both thresholds. *)
Lemma Notebook_extract_patterns_In {np : Numpy} {sk : Sklearn} params data g ps g' p :
  Notebook.extract_patterns params data g = Returned (ps, g') ->
  In p ps ->
  exists windows g0 labels cluster_id g1 g2,
    Notebook.extract_windows params data g = Returned (windows, g0) /\
    (10 <= length windows)%nat /\
    minSupport params <= Qlen (members windows labels cluster_id) / Qlen windows /\
    (3 <= length (members windows labels cluster_id))%nat /\
    Notebook.create_pattern (members windows labels cluster_id) cluster_id
      (Qlen (members windows labels cluster_id) / Qlen windows) g1
    = Returned (p, g2).
Proof.
  unfold Notebook.extract_patterns. cbv zeta. intros Hrun Hp.
  apply bind_Returned_inv in Hrun. destruct Hrun as [windows [g0 [Hw Hrun]]].
  destruct (length windows <? 10)%nat eqn:Hlen.
  - inversion Hrun; subst. destruct Hp.
  - apply Nat.ltb_ge in Hlen.
    destruct (Notebook_frequent_patterns_In _ _ _ _ _ _ _ _ Hrun Hp)
      as [cid [g1 [g2 [_ [Hs [Hn Hc]]]]]].
    eexists windows, g0, _, cid, g1, g2. repeat split; eassumption.
Qed.

Lemma Kernel_extract_patterns_In {np : Numpy} {sk : Sklearn} config data g ps g' p :
  Kernel.extract_sliding_window_patterns config data g = Returned (ps, g') ->
  In p ps ->
  exists windows g0 labels cluster_id g1 g2,
    Kernel.extract_windows config data g = Returned (windows, g0) /\
    (10 <= length windows)%nat /\
    minSupport config <= Qlen (members windows labels cluster_id) / Qlen windows /\
    (5 <= length (members windows labels cluster_id))%nat /\
    Kernel.create_representative_pattern (members windows labels cluster_id) cluster_id
      (Qlen (members windows labels cluster_id) / Qlen windows) g1
    = Returned (p, g2).
Proof.
  unfold Kernel.extract_sliding_window_patterns. cbv zeta. intros Hrun Hp.
  apply bind_Returned_inv in Hrun. destruct Hrun as [windows [g0 [Hw Hrun]]].
  destruct (length windows <? 10)%nat eqn:Hlen.
  - inversion Hrun; subst. destruct Hp.
  - apply Nat.ltb_ge in Hlen. unfold Kernel.cluster_and_filter_patterns in Hrun.
    cbv zeta in Hrun.
    destruct (Kernel_frequent_patterns_In _ _ _ _ _ _ _ _ Hrun Hp)
      as [cid [g1 [g2 [_ [Hs [Hn Hc]]]]]].
    eexists windows, g0, _, cid, g1, g2. repeat split; eassumption.
Qed.

(** C1: every pattern that [extract_patterns] (minimum cluster size 3)
    or [extract_sliding_window_patterns] (minimum cluster size 5) returns
    comes from a cluster of the surviving windows of at least that size;
    its [frequency] is the cluster size, its [support] is the cluster size
    divided by the number of surviving windows, and
    [0 < support <= 1] with [support >= minSupport]. *)
Theorem C1_cluster_validity (np : Numpy) (sk : Sklearn) (params : PatternMiningParams) :
  (forall data g ps g' p,
     Notebook.extract_patterns params data g = Returned (ps, g') -> In p ps ->
     exists windows g0 labels cluster_id,
       Notebook.extract_windows params data g = Returned (windows, g0) /\
       frequency p = length (members windows labels cluster_id) /\
       (3 <= frequency p)%nat /\
       support p = Qlen (members windows labels cluster_id) / Qlen windows /\
       0 < support p /\ support p <= 1 /\ minSupport params <= support p) /\
  (forall data g ps g' p,
     Kernel.extract_sliding_window_patterns params data g = Returned (ps, g') ->
     In p ps ->
     exists windows g0 labels cluster_id,
       Kernel.extract_windows params data g = Returned (windows, g0) /\
       frequency p = length (members windows labels cluster_id) /\
       (5 <= frequency p)%nat /\
       support p = Qlen (members windows labels cluster_id) / Qlen windows /\
       0 < support p /\ support p <= 1 /\ minSupport params <= support p).
Proof.
  split; intros data g ps g' p Hrun Hp.
  - destruct (Notebook_extract_patterns_In _ _ _ _ _ _ Hrun Hp)
      as [windows [g0 [labels [cid [g1 [g2 [Hw [_ [Hs [Hn Hc]]]]]]]]]].
    destruct (Notebook_create_pattern_fields (members windows labels cid) cid
                (Qlen (members windows labels cid) / Qlen windows) g1)
      as [p' [g2' [Hc' [_ [Hsup [Hfreq _]]]]]].
    rewrite Hc in Hc'. inversion Hc'; subst p' g2'; clear Hc'.
    exists windows, g0, labels, cid.
    destruct (support_range (members windows labels cid) windows) as [Hpos Hle];
      [lia | apply members_length |].
    rewrite Hfreq, Hsup. repeat split; assumption.
  - destruct (Kernel_extract_patterns_In _ _ _ _ _ _ Hrun Hp)
      as [windows [g0 [labels [cid [g1 [g2 [Hw [_ [Hs [Hn Hc]]]]]]]]]].
    destruct (Kernel_create_pattern_fields (members windows labels cid) cid
                (Qlen (members windows labels cid) / Qlen windows) g1)
      as [p' [g2' [Hc' [_ [Hsup [Hfreq _]]]]]].
    rewrite Hc in Hc'. inversion Hc'; subst p' g2'; clear Hc'.
    exists windows, g0, labels, cid.
    destruct (support_range (members windows labels cid) windows) as [Hpos Hle];
      [lia | apply members_length |].
    rewrite Hfreq, Hsup. repeat split; assumption.
Qed.

Lemma C1_witness :
  exists p,
    In p (match Notebook.extract_patterns (np := Ref.numpy) (sk := Ref.sklearn)
                  Ref.params Ref.notebook_rows 0%nat with
          | Returned (ps, _) => ps
          | Raised _ => []
          end) /\
    (3 <= frequency p)%nat /\ 0 < support p /\ support p <= 1 /\
    minSupport Ref.params <= support p.
Proof.
  destruct (Notebook.extract_patterns (np := Ref.numpy) (sk := Ref.sklearn)
              Ref.params Ref.notebook_rows 0%nat) as [[ps g']|e] eqn:Hrun.
  - assert (Hlen : length ps = 3%nat).
    { pose proof (f_equal (fun o => match o with
                                    | Returned (ps, _) => length ps
                                    | Raised _ => 0%nat
                                    end) Hrun) as Hl.
      lazy in Hl. symmetry. exact Hl. }
    destruct ps as [|p ps']; [discriminate Hlen|].
    exists p. split; [now left|].
    destruct (proj1 (C1_cluster_validity Ref.numpy Ref.sklearn Ref.params)
                Ref.notebook_rows 0%nat (p :: ps') g' p Hrun (or_introl eq_refl))
      as [windows [g0 [labels [cid [_ [_ [Hn [_ [Hpos [Hle Hs]]]]]]]]]].
    repeat split; assumption.
  - pose proof (f_equal (fun o => match o with
                                  | Returned (ps, _) => length ps
                                  | Raised _ => 0%nat
                                  end) Hrun) as Hl.
    lazy in Hl. discriminate Hl.
Defined.

(** ** Significance *)

Lemma Qsum_unit_interval xs :
  Forall (fun x => 0 <= x /\ x <= 1) xs -> 0 <= Qsum xs /\ Qsum xs <= Qlen xs.
Proof.
  induction 1 as [|x xs [Hx0 Hx1] _ [IH0 IH1]].
  - unfold Qsum, Qlen. simpl. split; apply Qle_refl.
  - rewrite Qsum_cons. unfold Qlen in *. cbn [length].
    rewrite Nat2Z.inj_succ, <- Z.add_1_r, inject_Z_plus.
    change (inject_Z 1) with 1. split; lra.
Qed.

Lemma np_mean_bool_range bs : 0 <= np_mean_bool bs /\ np_mean_bool bs <= 1.
Proof.
  unfold np_mean_bool, np_mean.
  set (xs := map (fun b : bool => if b then 1 else 0) bs).
  assert (Hxs : Forall (fun x => 0 <= x /\ x <= 1) xs).
  { apply Forall_forall. intros x Hx. apply in_map_iff in Hx.
    destruct Hx as [[|] [<- _]]; split; discriminate. }
  destruct (Qsum_unit_interval xs Hxs) as [H0 H1].
  split.
  - apply Qdiv_nonneg; [exact H0 | apply Qlen_nonneg].
  - destruct xs as [|x xs'] eqn:E.
    + vm_compute. discriminate.
    + apply Qle_shift_div_r; [apply Qlen_pos; discriminate | lra].
Qed.

Lemma bootstrap_significance_range {np : Numpy} B trends g x g' :
  Spec.bootstrap_significance B trends g = Returned (x, g') ->
  0.1 <= x /\ x <= 1.
Proof.
  unfold Spec.bootstrap_significance. intro Hrun.
  apply bind_Returned_inv in Hrun. destruct Hrun as [bm [g1 [_ Hret]]].
  cbv zeta in Hret. inversion Hret; subst; clear Hret.
  split; [apply Q.le_max_l|].
  apply Q.max_lub; [discriminate|].
  match goal with
  | |- 1 - np_mean_bool ?bs <= 1 => destruct (np_mean_bool_range bs) as [H0 _]
  end.
  lra.
Qed.

(** C2 (amended): in [extract_patterns] the significance of a retained
    cluster is [max(0.1, 1 - p_value)] for the two-sided empirical
    p-value of exactly 100 resamples of the cluster's trends, taken with
    replacement, whatever [bootstrapSamples] is; in
    [extract_sliding_window_patterns] it is
    [min(0.99, max(0.1, |t| / 10))] for the t-statistic of the trends.  In
    both, [0.1 <= significance <= 1]. *)
Theorem C2_significance (np : Numpy) (sk : Sklearn) (params : PatternMiningParams) :
  (forall data g ps g' p,
     Notebook.extract_patterns params data g = Returned (ps, g') -> In p ps ->
     exists windows g0 labels cluster_id g1 g2,
       Notebook.extract_windows params data g = Returned (windows, g0) /\
       Spec.bootstrap_significance 100
         (map Notebook.trend (members windows labels cluster_id)) g1
       = Returned (significance p, g2) /\
       0.1 <= significance p /\ significance p <= 1) /\
  (forall data g ps g' p,
     Kernel.extract_sliding_window_patterns params data g = Returned (ps, g') ->
     In p ps ->
     exists windows g0 labels cluster_id,
       Kernel.extract_windows params data g = Returned (windows, g0) /\
       significance p
       = (let trends :=
            map Kernel.trend (map Kernel.features (members windows labels cluster_id)) in
          let t_stat := np_mean trends / (np_std trends / np_sqrt (Qlen trends) + 1e-8) in
          Qmin 0.99 (Qmax 0.1 (Qabs t_stat / 10))) /\
       0.1 <= significance p /\ significance p <= 0.99).
Proof.
  split; intros data g ps g' p Hrun Hp.
  - destruct (Notebook_extract_patterns_In _ _ _ _ _ _ Hrun Hp)
      as [windows [g0 [labels [cid [g1 [g2 [Hw [_ [_ [_ Hc]]]]]]]]]].
    destruct (Notebook_create_pattern_fields (members windows labels cid) cid
                (Qlen (members windows labels cid) / Qlen windows) g1)
      as [p' [g2' [Hc' [_ [_ [_ [_ [[g3 Hsig] _]]]]]]]].
    rewrite Hc in Hc'. inversion Hc'; subst p' g2'; clear Hc'.
    exists windows, g0, labels, cid, g1, g3.
    split; [exact Hw|]. split; [exact Hsig|].
    exact (bootstrap_significance_range _ _ _ _ _ Hsig).
  - destruct (Kernel_extract_patterns_In _ _ _ _ _ _ Hrun Hp)
      as [windows [g0 [labels [cid [g1 [g2 [Hw [_ [_ [_ Hc]]]]]]]]]].
    destruct (Kernel_create_pattern_fields (members windows labels cid) cid
                (Qlen (members windows labels cid) / Qlen windows) g1)
      as [p' [g2' [Hc' [_ [_ [_ [_ [Hsig _]]]]]]]].
    rewrite Hc in Hc'. inversion Hc'; subst p' g2'; clear Hc'.
    exists windows, g0, labels, cid.
    split; [exact Hw|]. split; [exact Hsig|].
    rewrite Hsig. cbv zeta. split.
    + apply Q.min_glb; [discriminate | apply Q.le_max_l].
    + apply Q.le_min_l.
Qed.

Lemma C2_witness :
  exists p,
    In p (match Kernel.extract_sliding_window_patterns (np := Ref.numpy)
                  (sk := Ref.sklearn) Ref.params Ref.kernel_rows 0%nat with
          | Returned (ps, _) => ps
          | Raised _ => []
          end) /\
    0.1 <= significance p /\ significance p <= 0.99.
Proof.
  destruct (Kernel.extract_sliding_window_patterns (np := Ref.numpy)
              (sk := Ref.sklearn) Ref.params Ref.kernel_rows 0%nat)
    as [[ps g']|e] eqn:Hrun.
  - assert (Hlen : length ps = 3%nat).
    { pose proof (f_equal (fun o => match o with
                                    | Returned (ps, _) => length ps
                                    | Raised _ => 0%nat
                                    end) Hrun) as Hl.
      lazy in Hl. symmetry. exact Hl. }
    destruct ps as [|p ps']; [discriminate Hlen|].
    exists p. split; [now left|].
    destruct (proj2 (C2_significance Ref.numpy Ref.sklearn Ref.params)
                Ref.kernel_rows 0%nat (p :: ps') g' p Hrun (or_introl eq_refl))
      as [windows [g0 [labels [cid [_ [_ [Hlo Hhi]]]]]]].
    split; assumption.
  - pose proof (f_equal (fun o => match o with
                                  | Returned (ps, _) => length ps
                                  | Raised _ => 0%nat
                                  end) Hrun) as Hl.
    lazy in Hl. discriminate Hl.
Defined.

(** C2, as stated, fails in both miners.  With [bootstrapSamples = 1000],
    [create_pattern] gives the first cluster of the reference windows the
    significance 0.12 of 100 resamples, where 1000 resamples from the same
    generator state give 0.114; and [create_representative_pattern] gives
    a cluster of rising windows (every trend 1) the significance 0.99,
    where the bootstrap gives 0.1. *)
Lemma C2_counterexample :
  (exists p g',
     Notebook.create_pattern (np := Ref.numpy) Ref.notebook_cluster 0 (1 # 3) 0%nat
     = Returned (p, g') /\
     ~ exists g2,
         Spec.bootstrap_significance (np := Ref.numpy)
           (Z.to_nat (bootstrapSamples Ref.params))
           (map Notebook.trend Ref.notebook_cluster) 0%nat
         = Returned (significance p, g2)) /\
  (exists p g',
     Kernel.create_representative_pattern (np := Ref.numpy) Ref.rising_cluster 0
       (1 # 3) 0%nat
     = Returned (p, g') /\
     ~ exists g2,
         Spec.bootstrap_significance (np := Ref.numpy)
           (Z.to_nat (bootstrapSamples Ref.params))
           (map Kernel.trend (map Kernel.features Ref.rising_cluster)) 0%nat
         = Returned (significance p, g2)).
Proof.
  assert (Hn100 : Spec.bootstrap_significance (np := Ref.numpy) 100
                    (map Notebook.trend Ref.notebook_cluster) 0%nat
                  = Returned (0.12, 100%nat)).
  { vm_compute. reflexivity. }
  assert (Hn1000 : Spec.bootstrap_significance (np := Ref.numpy)
                     (Z.to_nat (bootstrapSamples Ref.params))
                     (map Notebook.trend Ref.notebook_cluster) 0%nat
                   = Returned (0.114, 1000%nat)).
  { vm_compute. reflexivity. }
  assert (Hk : (let trends := map Kernel.trend (map Kernel.features Ref.rising_cluster) in
                let t_stat := np_mean trends
                              / (np_std (np := Ref.numpy) trends
                                 / np_sqrt (Numpy := Ref.numpy) (Qlen trends) + 1e-8) in
                Qmin 0.99 (Qmax 0.1 (Qabs t_stat / 10))) = 0.99).
  { vm_compute. reflexivity. }
  assert (Hk1000 : Spec.bootstrap_significance (np := Ref.numpy)
                     (Z.to_nat (bootstrapSamples Ref.params))
                     (map Kernel.trend (map Kernel.features Ref.rising_cluster)) 0%nat
                   = Returned (0.1, 1000%nat)).
  { vm_compute. reflexivity. }
  split.
  - destruct (Notebook_create_pattern_fields (np := Ref.numpy) Ref.notebook_cluster 0
                (1 # 3) 0%nat)
      as [p [g' [Hc [_ [_ [_ [_ [[g1 Hsig] _]]]]]]]].
    exists p, g'. split; [exact Hc|]. intros [g2 Hspec].
    rewrite Hn100 in Hsig. rewrite Hn1000 in Hspec.
    injection Hsig as Hs _. injection Hspec as Hs' _.
    rewrite <- Hs in Hs'. discriminate Hs'.
  - destruct (Kernel_create_pattern_fields (np := Ref.numpy) Ref.rising_cluster 0
                (1 # 3) 0%nat)
      as [p [g' [Hc [_ [_ [_ [_ [Hsig _]]]]]]]].
    exists p, g'. split; [exact Hc|]. intros [g2 Hspec].
    rewrite Hk in Hsig. rewrite Hk1000 in Hspec.
    injection Hspec as Hs' _. rewrite Hsig in Hs'. discriminate Hs'.
Qed.

(** ** Confidence *)

Lemma inverse_clamp_inv c x :
  1 # 2 < c -> c == Qmax 0.5 (1 / x) -> x == / c.
Proof.
  intros Hc Heq.
  destruct (Q.max_spec 0.5 (1 / x)) as [[_ Hm]|[_ Hm]]; rewrite Hm in Heq.
  - assert (Hinv : / x == c).
    { rewrite Heq. unfold Qdiv. ring. }
    rewrite <- Hinv. symmetry. apply Qinv_involutive.
  - exfalso. rewrite Heq in Hc. revert Hc. apply Qle_not_lt. discriminate.
Qed.

(** C9 (amended): a retained cluster's confidence is
    [max(0.5, 1 / (1 + d * 1000))], where [d] is the standard deviation of
    the cluster's trends in [extract_patterns] and their variance in
    [extract_sliding_window_patterns]; in both it lies in [0.5, 1]. *)
Theorem C9_confidence (np : Numpy) (sk : Sklearn) (params : PatternMiningParams) :
  (forall data g ps g' p,
     Notebook.extract_patterns params data g = Returned (ps, g') -> In p ps ->
     exists windows g0 labels cluster_id,
       Notebook.extract_windows params data g = Returned (windows, g0) /\
       confidence p
       = Qmax 0.5 (1 / (1 + np_std (map Notebook.trend
                                        (members windows labels cluster_id)) * 1000)) /\
       0.5 <= confidence p /\ confidence p <= 1) /\
  (forall data g ps g' p,
     Kernel.extract_sliding_window_patterns params data g = Returned (ps, g') ->
     In p ps ->
     exists windows g0 labels cluster_id,
       Kernel.extract_windows params data g = Returned (windows, g0) /\
       confidence p
       = Spec.variance_confidence 1000
           (map Kernel.trend (map Kernel.features (members windows labels cluster_id))) /\
       0.5 <= confidence p /\ confidence p <= 1).
Proof.
  split; intros data g ps g' p Hrun Hp.
  - destruct (Notebook_extract_patterns_In _ _ _ _ _ _ Hrun Hp)
      as [windows [g0 [labels [cid [g1 [g2 [Hw [_ [_ [_ Hc]]]]]]]]]].
    destruct (Notebook_create_pattern_fields (members windows labels cid) cid
                (Qlen (members windows labels cid) / Qlen windows) g1)
      as [p' [g2' [Hc' [_ [_ [_ [Hconf _]]]]]]].
    rewrite Hc in Hc'. inversion Hc'; subst p' g2'; clear Hc'.
    exists windows, g0, labels, cid.
    split; [exact Hw|]. split; [exact Hconf|]. rewrite Hconf.
    apply inverse_clamp_range; [discriminate | apply np_std_nonneg | discriminate].
  - destruct (Kernel_extract_patterns_In _ _ _ _ _ _ Hrun Hp)
      as [windows [g0 [labels [cid [g1 [g2 [Hw [_ [_ [_ Hc]]]]]]]]]].
    destruct (Kernel_create_pattern_fields (members windows labels cid) cid
                (Qlen (members windows labels cid) / Qlen windows) g1)
      as [p' [g2' [Hc' [_ [_ [_ [Hconf _]]]]]]].
    rewrite Hc in Hc'. inversion Hc'; subst p' g2'; clear Hc'.
    exists windows, g0, labels, cid.
    split; [exact Hw|]. split; [exact Hconf|]. rewrite Hconf.
    unfold Spec.variance_confidence.
    apply inverse_clamp_range; [discriminate | apply np_var_nonneg | discriminate].
Qed.

Lemma C9_witness :
  exists p,
    In p (match Notebook.extract_patterns (np := Ref.numpy) (sk := Ref.sklearn)
                  Ref.params Ref.notebook_rows 0%nat with
          | Returned (ps, _) => ps
          | Raised _ => []
          end) /\
    0.5 <= confidence p /\ confidence p <= 1.
Proof.
  destruct (Notebook.extract_patterns (np := Ref.numpy) (sk := Ref.sklearn)
              Ref.params Ref.notebook_rows 0%nat) as [[ps g']|e] eqn:Hrun.
  - assert (Hlen : length ps = 3%nat).
    { pose proof (f_equal (fun o => match o with
                                    | Returned (ps, _) => length ps
                                    | Raised _ => 0%nat
                                    end) Hrun) as Hl.
      lazy in Hl. symmetry. exact Hl. }
    destruct ps as [|p ps']; [discriminate Hlen|].
    exists p. split; [now left|].
    destruct (proj1 (C9_confidence Ref.numpy Ref.sklearn Ref.params)
                Ref.notebook_rows 0%nat (p :: ps') g' p Hrun (or_introl eq_refl))
      as [windows [g0 [labels [cid [_ [_ [Hlo Hhi]]]]]]].
    split; assumption.
  - pose proof (f_equal (fun o => match o with
                                  | Returned (ps, _) => length ps
                                  | Raised _ => 0%nat
                                  end) Hrun) as Hl.
    lazy in Hl. discriminate Hl.
Defined.

(** C9, as stated, fails in [create_pattern], which uses the standard
    deviation: for the clusters [Ref.tight_cluster] and
    [Ref.loose_cluster] it returns the confidences 10/11 and 5/6, and no
    scale makes both equal to [max(0.5, 1 / (1 + variance * scale))]. *)
Lemma C9_counterexample :
  ~ exists scale,
      (forall p g',
         Notebook.create_pattern (np := Ref.numpy) Ref.tight_cluster 0 (1 # 3) 0%nat
         = Returned (p, g') ->
         confidence p
         == Spec.variance_confidence scale (map Notebook.trend Ref.tight_cluster)) /\
      (forall p g',
         Notebook.create_pattern (np := Ref.numpy) Ref.loose_cluster 1 (1 # 3) 0%nat
         = Returned (p, g') ->
         confidence p
         == Spec.variance_confidence scale (map Notebook.trend Ref.loose_cluster)).
Proof.
  assert (Hta : Qmax 0.5 (1 / (1 + np_std (np := Ref.numpy)
                                      (map Notebook.trend Ref.tight_cluster) * 1000))
                == 10 # 11) by (vm_compute; reflexivity).
  assert (Htb : Qmax 0.5 (1 / (1 + np_std (np := Ref.numpy)
                                      (map Notebook.trend Ref.loose_cluster) * 1000))
                == 5 # 6) by (vm_compute; reflexivity).
  assert (Hva : np_var (map Notebook.trend Ref.tight_cluster) == 1 # 100000000)
    by (vm_compute; reflexivity).
  assert (Hvb : np_var (map Notebook.trend Ref.loose_cluster) == 4 # 100000000)
    by (vm_compute; reflexivity).
  intros [scale [Ha Hb]].
  destruct (Notebook_create_pattern_fields (np := Ref.numpy) Ref.tight_cluster 0
              (1 # 3) 0%nat) as [pa [ga [Hca [_ [_ [_ [Hconfa _]]]]]]].
  destruct (Notebook_create_pattern_fields (np := Ref.numpy) Ref.loose_cluster 1
              (1 # 3) 0%nat) as [pb [gb [Hcb [_ [_ [_ [Hconfb _]]]]]]].
  specialize (Ha pa ga Hca). specialize (Hb pb gb Hcb).
  rewrite Hconfa, Hta in Ha. rewrite Hconfb, Htb in Hb.
  unfold Spec.variance_confidence in Ha, Hb.
  rewrite Hva in Ha. rewrite Hvb in Hb.
  apply inverse_clamp_inv in Ha; [|reflexivity].
  apply inverse_clamp_inv in Hb; [|reflexivity].
  change (/ (10 # 11)) with (11 # 10) in Ha.
  change (/ (5 # 6)) with (6 # 5) in Hb.
  lra.
Qed.

(** ** The window loops *)

(** What a window that [extract_patterns] keeps looks like. *)
Lemma Notebook_window_at_Some {np : Numpy} data window_size i g w g' :
  Notebook.window_at data window_size i g = Returned (Some w, g') ->
  g' = g /\
  exists w0 tl,
    map Notebook.close (py_slice data i (i + window_size)) = w0 :: tl /\
    Notebook.normalized w = map (fun x => (x - w0) / w0) (w0 :: tl) /\
    Notebook.volatility w = np_std (Notebook.normalized w) /\
    0.0001 < Notebook.volatility w.
Proof.
  unfold Notebook.window_at. cbv zeta.
  destruct (map Notebook.close (py_slice data i (i + window_size))) as [|w0 tl];
    [intro Hr; inversion Hr|].
  destruct (Qltb 0.0001 _) eqn:Hv; intro Hr; inversion Hr; subst; clear Hr.
  split; [reflexivity|]. exists w0, tl. cbn [Notebook.normalized Notebook.volatility].
  repeat split. now apply Qltb_lt.
Qed.

Lemma Notebook_window_at_total {np : Numpy} data window_size i g :
  (exists ow, Notebook.window_at data window_size i g = Returned (ow, g)) \/
  (py_slice data i (i + window_size) = []
   /\ Notebook.window_at data window_size i g = Raised IndexError).
Proof.
  unfold Notebook.window_at. cbv zeta.
  destruct (py_slice data i (i + window_size)) as [|r tl]; cbn [map].
  - right. now split.
  - left. destruct (Qltb 0.0001 _); eexists; reflexivity.
Qed.

Lemma Kernel_features_of {np : Numpy} window_data g f g' :
  Kernel.calculate_pattern_features window_data g = Returned (f, g') ->
  g' = g /\ window_data <> [] /\
  Kernel.normalized_prices f
  = MinMaxScaler_fit_transform (map Kernel.close window_data) /\
  Kernel.pattern_strength f = Spec.patternStrength (Kernel.normalized_prices f) /\
  Kernel.volatility f
  = np_std (map (fun dc : Q * Q => fst dc / snd dc)
                (combine (np_diff (map Kernel.close window_data))
                         (removelast (map Kernel.close window_data)))).
Proof.
  unfold Kernel.calculate_pattern_features. cbv zeta.
  destruct window_data as [|r tl]; cbn [map]; [intro Hr; inversion Hr|].
  intro Hr. inversion Hr; subst; clear Hr.
  split; [reflexivity|]. split; [discriminate|].
  cbn [Kernel.normalized_prices Kernel.pattern_strength Kernel.volatility].
  repeat split.
Qed.

Lemma Kernel_window_at_Some {np : Numpy} data window_size i g w g' :
  Kernel.window_at data window_size i g = Returned (Some w, g') ->
  g' = g /\
  Kernel.calculate_pattern_features (py_slice data i (i + window_size)) g
  = Returned (Kernel.features w, g) /\
  0.05 < Kernel.pattern_strength (Kernel.features w).
Proof.
  unfold Kernel.window_at. cbv zeta. intro Hr.
  apply bind_Returned_inv in Hr. destruct Hr as [f [g1 [Hf Hr]]].
  destruct (Kernel_features_of _ _ _ _ Hf) as [-> _].
  destruct (Qltb 0.05 (Kernel.pattern_strength f)) eqn:Hs;
    inversion Hr; subst; clear Hr.
  split; [reflexivity|]. split; [exact Hf|]. now apply Qltb_lt.
Qed.

Lemma Notebook_windows_volatility {np : Numpy} params data g windows g' :
  Notebook.extract_windows params data g = Returned (windows, g') ->
  Forall (fun w => 0.0001 < Notebook.volatility w) windows.
Proof.
  unfold Notebook.extract_windows. cbv zeta.
  apply for_append_Forall. intros i g1 w g2 Hw.
  destruct (Notebook_window_at_Some _ _ _ _ _ _ Hw) as [_ [w0 [tl [_ [_ [_ Hv]]]]]].
  exact Hv.
Qed.

Lemma Kernel_windows_volatility {np : Numpy} config data g windows g' :
  Kernel.extract_windows config data g = Returned (windows, g') ->
  Forall (fun w => 0 <= Kernel.volatility (Kernel.features w)
                   /\ 0.05 < Kernel.pattern_strength (Kernel.features w)) windows.
Proof.
  unfold Kernel.extract_windows. cbv zeta.
  apply for_append_Forall. intros i g1 w g2 Hw.
  destruct (Kernel_window_at_Some _ _ _ _ _ _ Hw) as [_ [Hf Hs]].
  destruct (Kernel_features_of _ _ _ _ Hf) as [_ [_ [_ [_ Hv]]]].
  split; [rewrite Hv; apply np_std_nonneg | exact Hs].
Qed.

Lemma np_mean_map_nonneg {W} (f : W -> Q) (cluster windows : list W) :
  (forall w, In w cluster -> In w windows) ->
  Forall (fun w => 0 <= f w) windows ->
  0 <= np_mean (map f cluster).
Proof.
  intros Hsub Hall. apply np_mean_nonneg. apply Forall_forall.
  intros x Hx. apply in_map_iff in Hx. destruct Hx as [w [<- Hw]].
  rewrite Forall_forall in Hall. apply Hall. now apply Hsub.
Qed.

(** The clamp [max(0, profit / denominator)] with a positive denominator. *)
Lemma sharpe_clamp profit denominator :
  0 < denominator ->
  0 <= Qmax 0 (profit / denominator) /\
  (profit < 0 -> Qmax 0 (profit / denominator) == 0).
Proof.
  intro Hd. split; [apply Q.le_max_l|].
  intro Hneg. apply Q.max_l. apply Qle_shift_div_r; [exact Hd|]. lra.
Qed.

(** The labels that each miner clusters its windows with. *)
Lemma Notebook_extract_patterns_cluster {np : Numpy} {sk : Sklearn}
      params data g ps g' p :
  Notebook.extract_patterns params data g = Returned (ps, g') ->
  In p ps ->
  exists windows g0 cluster_id g1 g2,
    Notebook.extract_windows params data g = Returned (windows, g0) /\
    let labels :=
      KMeans_fit_predict (Nat.min 10 (Nat.max 3 (length windows / 20))) 42 10
        (StandardScaler_fit_transform
           (map (fun w => [Notebook.trend w; Notebook.volatility w; Notebook.momentum w])
                windows)) in
    Notebook.create_pattern (members windows labels cluster_id) cluster_id
      (Qlen (members windows labels cluster_id) / Qlen windows) g1
    = Returned (p, g2).
Proof.
  unfold Notebook.extract_patterns. cbv zeta. intros Hrun Hp.
  apply bind_Returned_inv in Hrun. destruct Hrun as [windows [g0 [Hw Hrun]]].
  destruct (length windows <? 10)%nat eqn:Hlen.
  - inversion Hrun; subst. destruct Hp.
  - destruct (Notebook_frequent_patterns_In _ _ _ _ _ _ _ _ Hrun Hp)
      as [cid [g1 [g2 [_ [_ [_ Hc]]]]]].
    exists windows, g0, cid, g1, g2. split; assumption.
Qed.

Lemma Kernel_extract_patterns_cluster {np : Numpy} {sk : Sklearn}
      config data g ps g' p :
  Kernel.extract_sliding_window_patterns config data g = Returned (ps, g') ->
  In p ps ->
  exists windows g0 n_clusters cluster_id g1 g2,
    Kernel.extract_windows config data g = Returned (windows, g0) /\
    let labels :=
      KMeans_fit_predict n_clusters 42 10
        (StandardScaler_fit_transform
           (map (fun window =>
                   let f := Kernel.features window in
                   [Kernel.trend f; Kernel.volatility f; Kernel.momentum f;
                    Kernel.price_range f; Kernel.skewness f; Kernel.kurtosis f])
                windows)) in
    Kernel.create_representative_pattern (members windows labels cluster_id) cluster_id
      (Qlen (members windows labels cluster_id) / Qlen windows) g1
    = Returned (p, g2).
Proof.
  unfold Kernel.extract_sliding_window_patterns. cbv zeta. intros Hrun Hp.
  apply bind_Returned_inv in Hrun. destruct Hrun as [windows [g0 [Hw Hrun]]].
  destruct (length windows <? 10)%nat eqn:Hlen.
  - inversion Hrun; subst. destruct Hp.
  - unfold Kernel.cluster_and_filter_patterns in Hrun. cbv zeta in Hrun.
    destruct (Kernel_frequent_patterns_In _ _ _ _ _ _ _ _ Hrun Hp)
      as [cid [g1 [g2 [_ [_ [_ Hc]]]]]].
    eexists windows, g0, _, cid, g1, g2. split; [assumption|]. exact Hc.
Qed.

(** ** The draws of the demo generator *)

Lemma price_walk_draws patternType count :
  forall currentPrice w k,
    Demo.randoms (snd (Demo.price_walk patternType currentPrice count w)) k
    = Demo.randoms w (count + k).
Proof.
  induction count as [|count IH]; intros currentPrice w k; [reflexivity|].
  cbn [Demo.price_walk]. unfold Demo.bind at 1. unfold Demo.Math_random at 1.
  cbv zeta. unfold Demo.bind at 1.
  match goal with
  | |- context [Demo.price_walk ?t ?c count ?w'] =>
      specialize (IH c w' k); destruct (Demo.price_walk t c count w') as [rest w2]
  end.
  cbn [snd Demo.ret] in *. rewrite IH. reflexivity.
Qed.

(** One pattern of the demo generator takes 30 draws; the 25th gives its
    profitability and the 29th its Sharpe ratio. *)
Lemma demo_pattern_draws i w :
  profitability (fst (Demo.demo_pattern i w)) = (Demo.randoms w 24 - 0.3) * 0.12 /\
  sharpeRatio (fst (Demo.demo_pattern i w))
  = Qmax 0 ((Demo.randoms w 28 - 0.15) * 2.5) /\
  forall k, Demo.randoms (snd (Demo.demo_pattern i w)) k = Demo.randoms w (32 + k).
Proof.
  unfold Demo.demo_pattern, Demo.bind, Demo.Math_random, Demo.Date_now, Demo.ret.
  cbn [fst snd Demo.randoms Demo.clocks].
  match goal with
  | |- context [Demo.price_walk ?t ?c ?n ?w'] =>
      pose proof (price_walk_draws t n c w') as Hdraws;
      destruct (Demo.price_walk t c n w') as [points w2]
  end.
  cbn [fst snd Demo.randoms Demo.clocks sharpeRatio profitability] in *.
  rewrite !Hdraws. repeat split.
  intro k. rewrite Hdraws. reflexivity.
Qed.

(** A loop whose body takes [off] draws, and reads two fields off the
    draws at [nf] and [ng], reads them off draws that lie as far apart in
    every round. *)
Lemma for_push_draws {A} (body : nat -> Demo.JS A) (f g : A -> Q) (cf cg : Q -> Q)
      (off nf ng : nat) :
  (forall i w,
     f (fst (body i w)) = cf (Demo.randoms w nf) /\
     g (fst (body i w)) = cg (Demo.randoms w ng) /\
     forall k, Demo.randoms (snd (body i w)) k = Demo.randoms w (off + k)) ->
  forall count i w a,
    In a (fst (Demo.for_push body i count w)) ->
    exists m, f a = cf (Demo.randoms w (m + nf)) /\ g a = cg (Demo.randoms w (m + ng)).
Proof.
  intro Hbody. induction count as [|count IH]; intros i w a Hin; [destruct Hin|].
  simpl in Hin. unfold Demo.bind in Hin.
  destruct (Hbody i w) as [Hf [Hg Hdraws]].
  destruct (body i w) as [a0 w1]. specialize (IH (S i) w1 a).
  destruct (Demo.for_push body (S i) count w1) as [rest w2].
  cbn [fst snd Demo.ret] in *. destruct Hin as [<-|Hin].
  - exists 0%nat. split; assumption.
  - destruct (IH Hin) as [m [Hfa Hga]]. exists (off + m)%nat.
    rewrite Hfa, Hga, !Hdraws, !Nat.add_assoc. split; reflexivity.
Qed.

(** C10 (amended): every pattern of either miner comes from a cluster of
    the surviving windows, chosen by the labels that KMeans gives them,
    and has the Sharpe ratio [max(0, profitability / (v + 0.001))] for the
    mean [v] of that cluster's volatilities, which is not negative: the
    ratio is non-negative, and 0 when the profitability is negative.  The
    demo generator clamps a draw of its own,
    [max(0, (Math.random() - 0.15) * 2.5)], four draws after the one that
    gives the profitability: its Sharpe ratios are non-negative too but do
    not follow the profitability. *)
Theorem C10_sharpe_ratio (np : Numpy) (sk : Sklearn) (params : PatternMiningParams) :
  (forall data g ps g' p,
     Notebook.extract_patterns params data g = Returned (ps, g') -> In p ps ->
     exists windows g0 cluster_id,
       Notebook.extract_windows params data g = Returned (windows, g0) /\
       let labels :=
         KMeans_fit_predict (Nat.min 10 (Nat.max 3 (length windows / 20))) 42 10
           (StandardScaler_fit_transform
              (map (fun w => [Notebook.trend w; Notebook.volatility w;
                              Notebook.momentum w])
                   windows)) in
       let cluster := members windows labels cluster_id in
       let v := np_mean (map Notebook.volatility cluster) in
       frequency p = length cluster /\
       0 <= v /\
       sharpeRatio p = Qmax 0 (profitability p / (v + 0.001)) /\
       0 <= sharpeRatio p /\
       (profitability p < 0 -> sharpeRatio p == 0)) /\
  (forall data g ps g' p,
     Kernel.extract_sliding_window_patterns params data g = Returned (ps, g') ->
     In p ps ->
     exists windows g0 n_clusters cluster_id,
       Kernel.extract_windows params data g = Returned (windows, g0) /\
       let labels :=
         KMeans_fit_predict n_clusters 42 10
           (StandardScaler_fit_transform
              (map (fun window =>
                      let f := Kernel.features window in
                      [Kernel.trend f; Kernel.volatility f; Kernel.momentum f;
                       Kernel.price_range f; Kernel.skewness f; Kernel.kurtosis f])
                   windows)) in
       let cluster := members windows labels cluster_id in
       let v := np_mean (map Kernel.volatility (map Kernel.features cluster)) in
       frequency p = length cluster /\
       0 <= v /\
       sharpeRatio p = Qmax 0 (profitability p / (v + 0.001)) /\
       0 <= sharpeRatio p /\
       (profitability p < 0 -> sharpeRatio p == 0)) /\
  (forall jobId w p,
     In p (patterns (fst (Demo.generateDemoResults jobId w))) ->
     exists n,
       profitability p = (Demo.randoms w n - 0.3) * 0.12 /\
       sharpeRatio p = Qmax 0 ((Demo.randoms w (4 + n) - 0.15) * 2.5) /\
       0 <= sharpeRatio p).
Proof.
  repeat apply conj.
  - intros data g ps g' p Hrun Hp.
    destruct (Notebook_extract_patterns_cluster _ _ _ _ _ _ Hrun Hp)
      as [windows [g0 [cid [g1 [g2 [Hw Hc]]]]]].
    exists windows, g0, cid. split; [exact Hw|]. cbv zeta in Hc |- *.
    set (labels := KMeans_fit_predict _ 42 10 _) in *.
    destruct (Notebook_create_pattern_fields (members windows labels cid) cid
                (Qlen (members windows labels cid) / Qlen windows) g1)
      as [p' [g2' [Hc' [_ [_ [Hfreq [_ [_ [Hsh _]]]]]]]]].
    rewrite Hc in Hc'. inversion Hc'; subst p' g2'; clear Hc'.
    set (v := np_mean (map Notebook.volatility (members windows labels cid))) in *.
    assert (Hv : 0 <= v).
    { apply np_mean_map_nonneg with (windows := windows).
      - intros w. apply members_In.
      - eapply Forall_impl; [|exact (Notebook_windows_volatility _ _ _ _ _ Hw)].
        intros w Hlt. cbv beta in Hlt. apply Qlt_le_weak.
        eapply Qlt_trans; [|exact Hlt]. reflexivity. }
    split; [exact Hfreq|]. split; [exact Hv|]. split; [exact Hsh|]. rewrite Hsh.
    apply sharpe_clamp. lra.
  - intros data g ps g' p Hrun Hp.
    destruct (Kernel_extract_patterns_cluster _ _ _ _ _ _ Hrun Hp)
      as [windows [g0 [n_clusters [cid [g1 [g2 [Hw Hc]]]]]]].
    exists windows, g0, n_clusters, cid. split; [exact Hw|]. cbv zeta in Hc |- *.
    set (labels := KMeans_fit_predict _ 42 10 _) in *.
    destruct (Kernel_create_pattern_fields (members windows labels cid) cid
                (Qlen (members windows labels cid) / Qlen windows) g1)
      as [p' [g2' [Hc' [_ [_ [Hfreq [_ [_ [Hsh _]]]]]]]]].
    rewrite Hc in Hc'. inversion Hc'; subst p' g2'; clear Hc'.
    set (v := np_mean (map Kernel.volatility
                           (map Kernel.features (members windows labels cid)))) in *.
    assert (Hv : 0 <= v).
    { unfold v. rewrite map_map.
      apply np_mean_map_nonneg with (windows := windows).
      - intros w. apply members_In.
      - eapply Forall_impl; [|exact (Kernel_windows_volatility _ _ _ _ _ Hw)].
        intros w [Hge _]. exact Hge. }
    split; [exact Hfreq|]. split; [exact Hv|]. split; [exact Hsh|]. rewrite Hsh.
    apply sharpe_clamp. lra.
  - intros jobId w p Hp.
    destruct (generateDemoResults_shape jobId w) as [unsorted [Hu [Hps _]]].
    rewrite Hps in Hp. apply (proj1 (sort_by_confidence_In _ _)) in Hp.
    subst unsorted.
    destruct (for_push_draws Demo.demo_pattern profitability sharpeRatio
                (fun r => (r - 0.3) * 0.12) (fun r => Qmax 0 ((r - 0.15) * 2.5))
                32 24 28 demo_pattern_draws _ _ _ _ Hp) as [m [Hprofit Hsharpe]].
    exists (S (m + 24)). cbn [Demo.Math_random snd Demo.randoms] in Hprofit, Hsharpe.
    replace (4 + S (m + 24))%nat with (S (m + 28)) by lia.
    split; [exact Hprofit|]. split; [exact Hsharpe|].
    rewrite Hsharpe. apply Q.le_max_l.
Qed.

Lemma C10_witness :
  exists p,
    In p (match Notebook.extract_patterns (np := Ref.numpy) (sk := Ref.sklearn)
                  Ref.params Ref.notebook_rows 0%nat with
          | Returned (ps, _) => ps
          | Raised _ => []
          end) /\
    0 <= sharpeRatio p /\ (profitability p < 0 -> sharpeRatio p == 0).
Proof.
  destruct (Notebook.extract_patterns (np := Ref.numpy) (sk := Ref.sklearn)
              Ref.params Ref.notebook_rows 0%nat) as [[ps g']|e] eqn:Hrun.
  - assert (Hlen : length ps = 3%nat).
    { pose proof (f_equal (fun o => match o with
                                    | Returned (ps, _) => length ps
                                    | Raised _ => 0%nat
                                    end) Hrun) as Hl.
      lazy in Hl. symmetry. exact Hl. }
    destruct ps as [|p ps']; [discriminate Hlen|].
    exists p. split; [now left|].
    destruct (proj1 (C10_sharpe_ratio Ref.numpy Ref.sklearn Ref.params)
                Ref.notebook_rows 0%nat (p :: ps') g' p Hrun (or_introl eq_refl))
      as [windows [g0 [cid [_ [_ [_ [_ [Hpos Hzero]]]]]]]].
    split; assumption.
  - pose proof (f_equal (fun o => match o with
                                  | Returned (ps, _) => length ps
                                  | Raised _ => 0%nat
                                  end) Hrun) as Hl.
    lazy in Hl. discriminate Hl.
Defined.

(** C10, as stated, fails on the demo generator: in the ambient state
    [Ref.world] it returns a pattern of profitability -63/4250 with the
    Sharpe ratio 149/136. *)
Lemma C10_counterexample :
  exists p,
    In p (patterns (fst (Demo.generateDemoResults "job" Ref.world))) /\
    profitability p < 0 /\ ~ sharpeRatio p == 0.
Proof.
  assert (Hkeys :
    In (-63 # 4250, 149 # 136)
       (map (fun p => (Qred (profitability p), Qred (sharpeRatio p)))
            (patterns (fst (Demo.generateDemoResults "job" Ref.world))))).
  { vm_compute. right. left. reflexivity. }
  set (ps := patterns (fst (Demo.generateDemoResults "job" Ref.world))) in *.
  clearbody ps.
  apply in_map_iff in Hkeys. destruct Hkeys as [p [Hk Hin]].
  exists p. split; [exact Hin|].
  injection Hk as Hprofit Hsharpe.
  rewrite <- (Qred_correct (profitability p)), <- (Qred_correct (sharpeRatio p)).
  rewrite Hprofit, Hsharpe. split; [reflexivity | discriminate].
Qed.

(** ** Reproducibility *)

Lemma Notebook_extract_patterns_seed {np : Numpy} (sk sk' : Sklearn) params data g :
  (forall n n_init X,
     KMeans_fit_predict (Sklearn := sk) n 42 n_init X
     = KMeans_fit_predict (Sklearn := sk') n 42 n_init X) ->
  Notebook.extract_patterns (sk := sk) params data g
  = Notebook.extract_patterns (sk := sk') params data g.
Proof.
  intro Hk. unfold Notebook.extract_patterns. cbv zeta. unfold bind.
  destruct (Notebook.extract_windows params data g) as [[windows g0]|e];
    [|reflexivity].
  destruct (length windows <? 10)%nat; [reflexivity|].
  rewrite Hk. reflexivity.
Qed.

Lemma Kernel_cluster_seed {np : Numpy} (sk sk' : Sklearn) windows min_support g :
  (forall n n_init X,
     KMeans_fit_predict (Sklearn := sk) n 42 n_init X
     = KMeans_fit_predict (Sklearn := sk') n 42 n_init X) ->
  (forall X labels,
     silhouette_score (Sklearn := sk) X labels
     = silhouette_score (Sklearn := sk') X labels) ->
  Kernel.cluster_and_filter_patterns (sk := sk) windows min_support g
  = Kernel.cluster_and_filter_patterns (sk := sk') windows min_support g.
Proof.
  intros Hk Hs. unfold Kernel.cluster_and_filter_patterns. cbv zeta.
  set (X := StandardScaler_fit_transform _).
  set (r := seq 3 _).
  assert (Hscores :
    map (fun n_clusters =>
           if (1 <? Kernel.distinct_labels (KMeans_fit_predict (Sklearn := sk) n_clusters 42 10 X))%nat
           then silhouette_score (Sklearn := sk) X
                  (KMeans_fit_predict (Sklearn := sk) n_clusters 42 10 X)
           else - (1)) r
    = map (fun n_clusters =>
           if (1 <? Kernel.distinct_labels (KMeans_fit_predict (Sklearn := sk') n_clusters 42 10 X))%nat
           then silhouette_score (Sklearn := sk') X
                  (KMeans_fit_predict (Sklearn := sk') n_clusters 42 10 X)
           else - (1)) r).
  { apply map_ext. intro n. rewrite Hk, Hs. reflexivity. }
  rewrite Hscores, Hk. reflexivity.
Qed.

Lemma Kernel_extract_patterns_seed {np : Numpy} (sk sk' : Sklearn) config data g :
  (forall n n_init X,
     KMeans_fit_predict (Sklearn := sk) n 42 n_init X
     = KMeans_fit_predict (Sklearn := sk') n 42 n_init X) ->
  (forall X labels,
     silhouette_score (Sklearn := sk) X labels
     = silhouette_score (Sklearn := sk') X labels) ->
  Kernel.extract_sliding_window_patterns (sk := sk) config data g
  = Kernel.extract_sliding_window_patterns (sk := sk') config data g.
Proof.
  intros Hk Hs. unfold Kernel.extract_sliding_window_patterns. cbv zeta. unfold bind.
  destruct (Kernel.extract_windows config data g) as [[windows g0]|e];
    [|reflexivity].
  destruct (length windows <? 10)%nat; [reflexivity|].
  now apply Kernel_cluster_seed.
Qed.

Lemma Kernel_generate_forex_data_reseeds {np : Numpy} config g g' :
  Kernel.generate_forex_data config g = Kernel.generate_forex_data config g'.
Proof.
  unfold Kernel.generate_forex_data. cbv zeta. unfold bind at 1. unfold lookup.
  destruct (currencyPair config) as [cp|]; [|reflexivity].
  unfold ret at 1. unfold bind at 1. unfold Kernel.np_random_seed_. reflexivity.
Qed.




(** ** Insufficient data *)

Lemma Notebook_extract_windows_short {np : Numpy} params data g :
  (Z.of_nat (length data) <= windowSize params)%Z ->
  Notebook.extract_windows params data g = Returned ([], g).
Proof.
  intro Hle. unfold Notebook.extract_windows. cbv zeta.
  apply for_append_nil_range. lia.
Qed.

Lemma Kernel_extract_windows_short {np : Numpy} config data g :
  (Z.of_nat (length data) <= windowSize config)%Z ->
  Kernel.extract_windows config data g = Returned ([], g).
Proof.
  intro Hle. unfold Kernel.extract_windows. cbv zeta.
  apply for_append_nil_range. lia.
Qed.

Lemma Notebook_extract_patterns_few {np : Numpy} {sk : Sklearn} params data g windows g' :
  Notebook.extract_windows params data g = Returned (windows, g') ->
  (length windows < 10)%nat ->
  Notebook.extract_patterns params data g = Returned ([], g').
Proof.
  intros Hw Hlen. unfold Notebook.extract_patterns. cbv zeta.
  unfold bind at 1. rewrite Hw.
  apply Nat.ltb_lt in Hlen. rewrite Hlen. reflexivity.
Qed.

Lemma Kernel_extract_patterns_few {np : Numpy} {sk : Sklearn} config data g windows g' :
  Kernel.extract_windows config data g = Returned (windows, g') ->
  (length windows < 10)%nat ->
  Kernel.extract_sliding_window_patterns config data g = Returned ([], g').
Proof.
  intros Hw Hlen. unfold Kernel.extract_sliding_window_patterns. cbv zeta.
  unfold bind at 1. rewrite Hw.
  apply Nat.ltb_lt in Hlen. rewrite Hlen. reflexivity.
Qed.

(** C6: when the series is no longer than [windowSize], or fewer than 10
    windows survive, either miner returns the empty pattern list, and its
    run returns, without raising, that list with the zeroed statistics of
    its source ([totalPatterns] 0). *)
Theorem C6_insufficient_data (np : Numpy) (sk : Sklearn) (params : PatternMiningParams) :
  (forall data g,
     (Z.of_nat (length data) <= windowSize params)%Z ->
     Notebook.extract_patterns params data g = Returned ([], g)) /\
  (forall data g windows g',
     Notebook.extract_windows params data g = Returned (windows, g') ->
     (length windows < 10)%nat ->
     Notebook.extract_patterns params data g = Returned ([], g')) /\
  (forall g data g1,
     Notebook.generate_forex_data params g = Returned (data, g1) ->
     Notebook.extract_patterns params data g1 = Returned ([], g1) ->
     exists stats,
       Notebook.run_analysis params g
       = Returned ({| patterns := []; statistics := stats;
                      metadata := {| dataPointsAnalyzed := length data;
                                     patternsFound := 0;
                                     executionTime := 0;
                                     algorithmVersion := "1.0.0";
                                     parameters := Some params |} |}, g1) /\
       stats = Notebook.ShortStats 0 0 0 0 []) /\
  (forall data g,
     (Z.of_nat (length data) <= windowSize params)%Z ->
     Kernel.extract_sliding_window_patterns params data g = Returned ([], g)) /\
  (forall data g windows g',
     Kernel.extract_windows params data g = Returned (windows, g') ->
     (length windows < 10)%nat ->
     Kernel.extract_sliding_window_patterns params data g = Returned ([], g')) /\
  (forall g data g1,
     Kernel.generate_forex_data params g = Returned (data, g1) ->
     Kernel.extract_sliding_window_patterns params data g1 = Returned ([], g1) ->
     exists stats,
       Kernel.run_complete_analysis params g
       = Returned ({| patterns := []; statistics := stats;
                      metadata := {| dataPointsAnalyzed := length data;
                                     patternsFound := 0;
                                     executionTime := 0;
                                     algorithmVersion := "1.0.0";
                                     parameters := Some params |} |}, g1) /\
       stats = Kernel.empty_statistics /\ totalPatterns stats = 0%nat).
Proof.
  repeat apply conj.
  - intros data g Hle.
    eapply Notebook_extract_patterns_few;
      [now apply Notebook_extract_windows_short | simpl; lia].
  - intros data g windows g'. apply Notebook_extract_patterns_few.
  - intros g data g1 Hgen Hext. eexists. split; [|reflexivity].
    unfold Notebook.run_analysis. unfold bind at 1. rewrite Hgen.
    unfold bind at 1. rewrite Hext. reflexivity.
  - intros data g Hle.
    eapply Kernel_extract_patterns_few;
      [now apply Kernel_extract_windows_short | simpl; lia].
  - intros data g windows g'. apply Kernel_extract_patterns_few.
  - intros g data g1 Hgen Hext. eexists. split; [|split; reflexivity].
    unfold Kernel.run_complete_analysis. unfold bind at 1. rewrite Hgen.
    unfold bind at 1. rewrite Hext. reflexivity.
Qed.

Lemma C6_witness :
  Notebook.extract_patterns (np := Ref.numpy) (sk := Ref.sklearn) Ref.params
    (firstn 3 Ref.notebook_rows) 0%nat
  = Returned ([], 0%nat).
Proof.
  apply (proj1 (C6_insufficient_data Ref.numpy Ref.sklearn Ref.params)).
  vm_compute. discriminate.
Defined.

(** ** The noise filter *)




(** ** The submission endpoint *)

(** [submitPatternMiningJob] always returns a job id; it pushes at most
    one kernel: exactly one when the currency pair is present and [btoa]
    accepts the credentials, none otherwise. *)
Lemma submitPatternMiningJob_pushes fetch_push username apiKey params s :
  Submit.pushed (snd (Submit.submitPatternMiningJob fetch_push username apiKey params s))
  = match currencyPair params with
    | None => Submit.pushed s
    | Some cp =>
        Submit.pushed s ++
        if Submit.btoa_defined (username ++ ":" ++ apiKey)%string then
          [{| Submit.auth_username := username;
              Submit.auth_apiKey := apiKey;
              Submit.title :=
                ("Forex Pattern Mining " ++ symbol cp ++ " "
                 ++ string_of_nat (Submit.clock s 0))%string;
              Submit.slug :=
                ("forex-pattern-mining-" ++ string_of_nat (Submit.clock s 1))%string;
              Submit.code_params := params |}]
        else []
    end.
Proof.
  unfold Submit.submitPatternMiningJob.
  destruct (currencyPair params) as [cp|]; [|reflexivity].
  unfold Submit.bind at 1. unfold Submit.Date_now at 1.
  destruct (Submit.btoa_defined (username ++ ":" ++ apiKey)%string).
  - unfold Submit.bind, Submit.Date_now, Submit.fetch.
    cbn [fst snd Submit.clock Submit.pushed].
    destruct (fetch_push _) as [| |  | [ref|]]; try reflexivity.
    destruct (String.eqb ref ""); reflexivity.
  - cbn. rewrite app_nil_r. reflexivity.
Qed.

(** The answer to a request that carries both required fields, sent with
    the credentials [user] and [key]. *)
Lemma POST_accepted fetch_push request params cp tf user key s :
  Submit.body request = inr params ->
  currencyPair params = Some cp -> timeFrame params = Some tf ->
  (user, key)
  = match Submit.authorization request with
    | Submit.Bearer u k =>
        (Submit.or_string u "netszy",
         Submit.or_string k "60a515ec7742c89c180861c1ec823493")%string
    | _ => ("netszy", "60a515ec7742c89c180861c1ec823493")%string
    end ->
  exists jobId s',
    Submit.POST fetch_push request s
    = ({| Submit.http_status := 200;
          Submit.json :=
            {| Submit.success := true;
               Submit.data :=
                 Some {| Job.jobId := jobId;
                         Job.estimatedTime := Submit.getEstimatedExecutionTime params;
                         Job.status := "submitted" |};
               Submit.error := None;
               Submit.timestamp := Submit.clock s' 0 |} |},
       {| Submit.clock := fun n => Submit.clock s' (S n);
          Submit.pushed := Submit.pushed s' |}) /\
    Submit.submitPatternMiningJob fetch_push user key params s = (jobId, s').
Proof.
  intros Hbody Hcp Htf Hcred. unfold Submit.POST. rewrite Hbody, Hcp, Htf.
  rewrite <- Hcred.
  unfold Submit.bind.
  destruct (Submit.submitPatternMiningJob fetch_push user key params s)
    as [jobId s1].
  exists jobId, s1. split; reflexivity.
Qed.




(** * Further properties of the modelled code *)

(** ** [calculatePatternStatistics] *)

(** X1: on a non-empty list, [worstPattern] is the id of a pattern of
    minimal profitability. *)
Theorem Analyze_worst_pattern patterns :
  patterns <> [] ->
  exists worst,
    In worst patterns /\
    worstPattern (Analyze.calculatePatternStatistics patterns) = id worst /\
    forall p, In p patterns -> profitability worst <= profitability p.
Proof.
  destruct patterns as [|first rest]; [congruence|]. intros _.
  exists (Analyze.reduce_worst first rest).
  destruct (py_min_by_spec (fun p => or0 (profitability p)) rest first) as [Hin Hmin].
  split; [exact Hin|]. split; [reflexivity|].
  intros p Hp. specialize (Hmin p Hp). cbv beta in Hmin.
  rewrite !or0_eq in Hmin. exact Hmin.
Qed.

Lemma Analyze_worst_pattern_witness :
  exists worst,
    In worst Ref.sample_patterns /\
    worstPattern (Analyze.calculatePatternStatistics Ref.sample_patterns) = id worst /\
    forall p, In p Ref.sample_patterns -> profitability worst <= profitability p.
Proof.
  apply (Analyze_worst_pattern Ref.sample_patterns). discriminate.
Defined.

Lemma filter_Qlen_le {A} (f : A -> bool) (xs : list A) :
  0 <= Qlen (filter f xs) /\ Qlen (filter f xs) <= Qlen xs.
Proof.
  split; [apply Qlen_nonneg|]. unfold Qlen. rewrite <- Zle_Qle.
  apply inj_le. apply filter_length_le.
Qed.

Lemma fraction_range a b : 0 <= a -> a <= b -> 0 <= a / b /\ a / b <= 1.
Proof.
  intros Ha Hab. split.
  - apply Qdiv_nonneg; lra.
  - destruct (Qlt_le_dec 0 b) as [Hb|Hb].
    + apply Qle_shift_div_r; [exact Hb | lra].
    + assert (Hb0 : b == 0) by lra. rewrite Hb0. unfold Qdiv.
      setoid_replace (/ 0) with 0 by reflexivity. lra.
Qed.

(** X2: the cross-validation score of [calculatePatternStatistics] is the
    fraction of patterns of positive profitability and, like the
    bootstrap confidence clamped from it, lies in [0, 1]. *)
Theorem Analyze_scores_in_unit_interval patterns :
  crossValidationScore (Analyze.calculatePatternStatistics patterns)
  == Qlen (filter (fun p => Qltb 0 (profitability p)) patterns) / Qlen patterns /\
  0 <= crossValidationScore (Analyze.calculatePatternStatistics patterns) <= 1 /\
  0 <= bootstrapConfidence (Analyze.calculatePatternStatistics patterns) <= 1.
Proof.
  destruct patterns as [|first rest].
  - cbn. repeat split; discriminate.
  - set (ps := first :: rest).
    assert (Hcv : crossValidationScore (Analyze.calculatePatternStatistics ps)
                  = Qlen (filter (fun p => Qltb 0 (or0 (profitability p))) ps) / Qlen ps)
      by reflexivity.
    assert (Hbc : bootstrapConfidence (Analyze.calculatePatternStatistics ps)
                  = Qmax 0 (Qmin 1 (avgConfidence (Analyze.calculatePatternStatistics ps)
                                    * crossValidationScore
                                        (Analyze.calculatePatternStatistics ps))))
      by reflexivity.
    rewrite Hbc, Hcv. clear Hbc Hcv.
    assert (Hf : filter (fun p => Qltb 0 (or0 (profitability p))) ps
                 = filter (fun p => Qltb 0 (profitability p)) ps).
    { apply filter_ext. intro p. unfold Qltb.
      now rewrite (Qleb_comp _ _ (or0_eq (profitability p)) 0 0 (Qeq_refl 0)). }
    rewrite Hf. split; [reflexivity|]. split.
    + apply fraction_range; apply filter_Qlen_le.
    + split; [apply Q.le_max_l|].
      apply Q.max_lub; [discriminate | apply Q.le_min_l].
Qed.

Lemma PatternType_eqb_eq a b : PatternType_eqb a b = true <-> a = b.
Proof. destruct a, b; simpl; split; congruence. Qed.

Lemma freq_incr_sum t freq :
  list_sum (map snd (freq_incr t freq)) = S (list_sum (map snd freq)).
Proof.
  induction freq as [|[k n] tl IH]; simpl.
  - reflexivity.
  - destruct (PatternType_eqb k t); simpl; [reflexivity|]. rewrite IH. lia.
Qed.

Lemma freq_incr_keys t freq k :
  In k (map fst (freq_incr t freq)) <-> k = t \/ In k (map fst freq).
Proof.
  induction freq as [|[k' n] tl IH]; simpl.
  - intuition.
  - destruct (PatternType_eqb k' t) eqn:E; simpl.
    + apply PatternType_eqb_eq in E. subst. intuition.
    + rewrite IH. intuition.
Qed.

Lemma freq_incr_NoDup t freq :
  NoDup (map fst freq) -> NoDup (map fst (freq_incr t freq)).
Proof.
  induction freq as [|[k n] tl IH]; simpl; intro Hnd.
  - constructor; [intros [] | constructor].
  - inversion Hnd as [|? ? Hk Htl]; subst.
    destruct (PatternType_eqb k t) eqn:E; simpl.
    + now constructor.
    + constructor; [|now apply IH].
      rewrite freq_incr_keys. intros [->|Hin]; [|contradiction].
      assert (PatternType_eqb t t = true) by now apply PatternType_eqb_eq.
      congruence.
Qed.

Lemma pattern_frequency_fold patterns : forall freq,
  let result := fold_left (fun freq p => freq_incr (type p) freq) patterns freq in
  list_sum (map snd result) = (length patterns + list_sum (map snd freq))%nat /\
  (NoDup (map fst freq) -> NoDup (map fst result)) /\
  (forall k, In k (map fst result) <-> In k (map type patterns) \/ In k (map fst freq)).
Proof.
  induction patterns as [|p ps IH]; intro freq; simpl.
  - repeat split; intuition.
  - destruct (IH (freq_incr (type p) freq)) as [Hsum [Hnd Hkeys]].
    repeat split.
    + rewrite Hsum, freq_incr_sum. lia.
    + intro H. apply Hnd. now apply freq_incr_NoDup.
    + rewrite Hkeys, freq_incr_keys. intuition.
    + rewrite Hkeys, freq_incr_keys. intuition.
Qed.

Lemma distinct_types_spec ts :
  NoDup (distinct_types ts) /\ forall t, In t (distinct_types ts) <-> In t ts.
Proof.
  induction ts as [|t tl [Hnd Hin]]; simpl.
  - split; [constructor | tauto].
  - destruct (existsb (PatternType_eqb t) (distinct_types tl)) eqn:E.
    + split; [exact Hnd|]. intro k. rewrite Hin.
      apply existsb_exists in E. destruct E as [x [Hx Heq]].
      apply PatternType_eqb_eq in Heq. subst x. apply Hin in Hx.
      split; [now right | intros [<-|H]; assumption].
    + split.
      * constructor; [|exact Hnd]. intro Ht.
        assert (existsb (PatternType_eqb t) (distinct_types tl) = true).
        { apply existsb_exists. exists t. split; [exact Ht|].
          now apply PatternType_eqb_eq. }
        congruence.
      * intro k. simpl. rewrite Hin. tauto.
Qed.

Lemma NoDup_types_at_most_three (ts : list PatternType) :
  NoDup ts -> (length ts <= 3)%nat.
Proof.
  intro Hnd.
  apply (NoDup_incl_length Hnd (l' := [bullish; bearish; neutral])).
  intros t _. destruct t; simpl; tauto.
Qed.

(** X3: the [patternFrequency] histogram has one entry per pattern type
    that occurs, its counts add up to [totalPatterns], and
    [uniquePatterns] is its number of entries, at most 3. *)
Theorem Analyze_pattern_frequency patterns :
  list_sum (map snd (patternFrequency (Analyze.calculatePatternStatistics patterns)))
  = totalPatterns (Analyze.calculatePatternStatistics patterns) /\
  NoDup (map fst (patternFrequency (Analyze.calculatePatternStatistics patterns))) /\
  (forall t, In t (map fst (patternFrequency (Analyze.calculatePatternStatistics patterns)))
             <-> In t (map type patterns)) /\
  length (patternFrequency (Analyze.calculatePatternStatistics patterns))
  = uniquePatterns (Analyze.calculatePatternStatistics patterns) /\
  (uniquePatterns (Analyze.calculatePatternStatistics patterns) <= 3)%nat.
Proof.
  destruct patterns as [|first rest].
  - cbn. repeat split; try constructor; try tauto; lia.
  - set (ps := first :: rest).
    change (patternFrequency (Analyze.calculatePatternStatistics ps))
      with (pattern_frequency ps).
    change (totalPatterns (Analyze.calculatePatternStatistics ps)) with (length ps).
    change (uniquePatterns (Analyze.calculatePatternStatistics ps))
      with (length (distinct_types (map type ps))).
    destruct (pattern_frequency_fold ps []) as [Hsum [Hnd Hkeys]].
    fold (pattern_frequency ps) in Hsum, Hnd, Hkeys.
    destruct (distinct_types_spec (map type ps)) as [Hdn Hdin].
    assert (Hk : forall t, In t (map fst (pattern_frequency ps)) <-> In t (map type ps)).
    { intro t. rewrite Hkeys. simpl. tauto. }
    assert (Hnd' : NoDup (map fst (pattern_frequency ps))) by (apply Hnd; constructor).
    split; [rewrite Hsum; simpl; lia|]. split; [exact Hnd'|]. split; [exact Hk|].
    split.
    + rewrite <- (length_map fst). apply Nat.le_antisymm.
      * apply NoDup_incl_length; [exact Hnd'|]. intros t Ht. apply Hdin. now apply Hk.
      * apply NoDup_incl_length; [exact Hdn|]. intros t Ht. apply Hk. now apply Hdin.
    + now apply NoDup_types_at_most_three.
Qed.

(** ** [generateDemoResults] *)

(** X4: the demo patterns come out sorted by descending confidence, and
    the statistics and metadata count them. *)
Theorem Demo_sorted_by_confidence jobId w :
  StronglySorted (fun a b => confidence b <= confidence a)
                 (patterns (fst (Demo.generateDemoResults jobId w))) /\
  totalPatterns (statistics (fst (Demo.generateDemoResults jobId w)))
  = length (patterns (fst (Demo.generateDemoResults jobId w))) /\
  patternsFound (metadata (fst (Demo.generateDemoResults jobId w)))
  = length (patterns (fst (Demo.generateDemoResults jobId w))).
Proof.
  destruct (generateDemoResults_shape jobId w) as [unsorted [_ [Hp [_ [_ Ht]]]]].
  split; [rewrite Hp; apply sort_by_confidence_sorted|]. split; [exact Ht|].
  clear. unfold Demo.generateDemoResults, Demo.bind, Demo.Math_random, Demo.ret.
  cbn [fst snd Demo.randoms Demo.clocks].
  match goal with
  | |- context [Demo.for_push Demo.demo_pattern 0 ?n ?w'] =>
      destruct (Demo.for_push Demo.demo_pattern 0 n w') as [unsorted w2]
  end.
  reflexivity.
Qed.

Lemma Math_random_unit_draws w :
  Ambient.unit_draws w ->
  (0 <= fst (Demo.Math_random w) /\ fst (Demo.Math_random w) < 1) /\
  Ambient.unit_draws (snd (Demo.Math_random w)).
Proof.
  intro Hw. split; [apply Hw|]. intro n. apply (Hw (S n)).
Qed.

Lemma price_walk_unit_draws t : forall count c w,
  Ambient.unit_draws w ->
  length (fst (Demo.price_walk t c count w)) = count /\
  Ambient.unit_draws (snd (Demo.price_walk t c count w)) /\
  Demo.clocks (snd (Demo.price_walk t c count w)) = Demo.clocks w.
Proof.
  induction count as [|count IH]; intros c w Hw; simpl.
  - repeat split; apply Hw.
  - unfold Demo.bind, Demo.Math_random, Demo.ret. cbn [fst snd].
    match goal with
    | |- context [Demo.price_walk t ?c' count ?w'] =>
        specialize (IH c' w'); destruct (Demo.price_walk t c' count w') as [rest w2]
    end.
    cbn [fst snd] in *.
    destruct IH as [Hlen [Hok Hclk]]; [intro n; apply (Hw (S n))|].
    repeat split; try apply Hok; [simpl; now rewrite Hlen | exact Hclk].
Qed.

Lemma Qfloor_range x k :
  0 <= x -> x < inject_Z k -> (0 <= Qfloor x < k)%Z.
Proof.
  intros H0 Hk. split.
  - change 0%Z with (Qfloor 0). now apply Qfloor_resp_le.
  - rewrite Zlt_Qlt. eapply Qle_lt_trans; [apply Qfloor_le | exact Hk].
Qed.

Lemma demo_pattern_ranges i w :
  Ambient.unit_draws w ->
  Ambient.demo_ranges (fst (Demo.demo_pattern i w)) /\
  id (fst (Demo.demo_pattern i w)) = pattern_id i /\
  Ambient.unit_draws (snd (Demo.demo_pattern i w)).
Proof.
  intro Hw. unfold Demo.demo_pattern, Demo.bind, Demo.Math_random, Demo.Date_now, Demo.ret.
  cbn [fst snd Demo.randoms Demo.clocks].
  match goal with
  | |- context [Demo.price_walk ?t ?c ?n ?w'] =>
      destruct (price_walk_unit_draws t n c w') as [Hlen [Hok _]];
      [intro k; apply (Hw (S (S (S (S k)))))|];
      destruct (Demo.price_walk t c n w') as [points w2]
  end.
  cbn [fst snd Demo.randoms Demo.clocks] in *.
  pose proof (Hw 1%nat) as [Hc0 Hc1]. pose proof (Hw 2%nat) as [Hs0 Hs1].
  pose proof (Hw 3%nat) as [Hg0 Hg1].
  pose proof (Hok 0%nat) as [Hp0 Hp1]. pose proof (Hok 1%nat) as [Hwin0 Hwin1].
  pose proof (Hok 3%nat) as [Hd0 Hd1]. pose proof (Hok 4%nat) as [Hsh0 Hsh1].
  pose proof (Hok 5%nat) as [Hf0 Hf1].
  split; [|split; [reflexivity | intro k; apply (Hok (S (S (S (S (S (S (S (S k)))))))))]].
  unfold Ambient.demo_ranges.
  cbn [confidence support significance profitability winRate maxDrawdown sharpeRatio
       frequency pricePoints duration].
  repeat apply conj; try lra; try exact Hlen; try reflexivity.
  - apply Q.le_max_l.
  - apply Q.max_lub; lra.
  - unfold Demo.Math_floor.
    destruct (Qfloor_range (Demo.randoms w2 5 * 40) 40) as [Hlo Hhi];
      [lra | change (inject_Z 40) with 40; lra |]. lia.
  - unfold Demo.Math_floor.
    destruct (Qfloor_range (Demo.randoms w2 5 * 40) 40) as [Hlo Hhi];
      [lra | change (inject_Z 40) with 40; lra |]. lia.
Qed.

Lemma for_push_unit_draws {A} (body : nat -> Demo.JS A) (P : A -> Prop) :
  (forall i w, Ambient.unit_draws w ->
               P (fst (body i w)) /\ Ambient.unit_draws (snd (body i w))) ->
  forall count i w, Ambient.unit_draws w ->
    Forall P (fst (Demo.for_push body i count w)) /\
    length (fst (Demo.for_push body i count w)) = count /\
    Ambient.unit_draws (snd (Demo.for_push body i count w)).
Proof.
  intro Hbody. induction count as [|count IH]; intros i w Hw; simpl.
  - repeat split; [constructor | apply Hw | apply Hw].
  - unfold Demo.bind. destruct (Hbody i w Hw) as [HP Hw1].
    destruct (body i w) as [a w1]. cbn [fst snd] in *.
    destruct (IH (S i) w1 Hw1) as [Hall [Hlen Hw2]].
    destruct (Demo.for_push body (S i) count w1) as [rest w2]. cbn [fst snd] in *.
    repeat split; try apply Hw2; [now constructor | simpl; now rewrite Hlen].
Qed.

Lemma insert_by_confidence_length p sorted :
  length (Demo.insert_by_confidence p sorted) = S (length sorted).
Proof.
  induction sorted as [|q tl IH]; simpl; [reflexivity|].
  destruct (Qltb (confidence p) (confidence q)); simpl; [now rewrite IH | reflexivity].
Qed.

Lemma sort_by_confidence_length ps :
  length (Demo.sort_by_confidence ps) = length ps.
Proof.
  unfold Demo.sort_by_confidence. induction ps as [|p ps IH]; simpl; [reflexivity|].
  now rewrite insert_by_confidence_length, IH.
Qed.

(** X5: when [Math.random()] returns values in [0, 1), the demo generator
    returns between 10 and 24 patterns. *)
Theorem Demo_pattern_count jobId w :
  Ambient.unit_draws w ->
  (10 <= length (patterns (fst (Demo.generateDemoResults jobId w))) <= 24)%nat.
Proof.
  intro Hw.
  destruct (generateDemoResults_shape jobId w) as [unsorted [Hu [Hp _]]].
  rewrite Hp, sort_by_confidence_length, Hu.
  destruct (Math_random_unit_draws w Hw) as [_ Hw1].
  destruct (for_push_unit_draws Demo.demo_pattern (fun _ => True)
              (fun i w' Hw' => conj I (proj2 (proj2 (demo_pattern_ranges i w' Hw'))))
              (Z.to_nat (Demo.Math_floor (Demo.randoms w 0 * 15) + 10)) 0%nat
              (snd (Demo.Math_random w)) Hw1) as [_ [Hlen _]].
  rewrite Hlen. unfold Demo.Math_floor. destruct (Hw 0%nat) as [H0 H1].
  destruct (Qfloor_range (Demo.randoms w 0 * 15) 15) as [Hlo Hhi];
    [lra | change (inject_Z 15) with 15; lra |]. lia.
Qed.

Lemma Ref_world_unit_draws : Ambient.unit_draws Ref.world.
Proof.
  intro n. cbn [Ref.world Demo.randoms].
  assert (Hm : ((n * n + 3 * n) mod 17 < 17)%nat) by (apply Nat.mod_upper_bound; lia).
  set (k := ((n * n + 3 * n) mod 17)%nat) in *.
  assert (H0 : 0 <= inject_Z (Z.of_nat k)).
  { change 0 with (inject_Z 0). rewrite <- Zle_Qle. lia. }
  assert (H1 : inject_Z (Z.of_nat k) < 17).
  { change 17 with (inject_Z 17). rewrite <- Zlt_Qlt. lia. }
  split.
  - apply Qle_shift_div_l; [reflexivity | lra].
  - apply Qlt_shift_div_r; [reflexivity | lra].
Qed.

Lemma Demo_pattern_count_witness :
  (10 <= length (patterns (fst (Demo.generateDemoResults "job" Ref.world))) <= 24)%nat.
Proof.
  apply (Demo_pattern_count "job" Ref.world). exact Ref_world_unit_draws.
Defined.

(** X6: when [Math.random()] returns values in [0, 1), every demo pattern
    has its metrics within the bounds the source comments give, ends
    included: confidence from 0.6 to 0.95, support from 0.02 to 0.17,
    significance from 0.2 to 1, profitability from -0.036 to 0.084, win
    rate from 0.51 to 0.9575, maximal drawdown from 0 to 0.04, Sharpe ratio
    from 0 to 2.125 and frequency from 10 to 49; it has twenty price points
    and duration 20. *)
Theorem Demo_pattern_ranges jobId w :
  Ambient.unit_draws w ->
  Forall Ambient.demo_ranges (patterns (fst (Demo.generateDemoResults jobId w))).
Proof.
  intro Hw.
  destruct (generateDemoResults_shape jobId w) as [unsorted [Hu [Hp _]]].
  rewrite Hp. apply Forall_forall. intros p Hin.
  apply (proj1 (sort_by_confidence_In _ _)) in Hin. subst unsorted.
  destruct (Math_random_unit_draws w Hw) as [_ Hw1].
  destruct (for_push_unit_draws Demo.demo_pattern Ambient.demo_ranges
              (fun i w' Hw' => conj (proj1 (demo_pattern_ranges i w' Hw'))
                                    (proj2 (proj2 (demo_pattern_ranges i w' Hw'))))
              (Z.to_nat (Demo.Math_floor (Demo.randoms w 0 * 15) + 10)) 0%nat
              (snd (Demo.Math_random w)) Hw1) as [Hall _].
  rewrite Forall_forall in Hall. now apply Hall.
Qed.

Lemma Demo_pattern_ranges_witness :
  Forall Ambient.demo_ranges (patterns (fst (Demo.generateDemoResults "job" Ref.world))).
Proof.
  apply (Demo_pattern_ranges "job" Ref.world). exact Ref_world_unit_draws.
Defined.

(** ** Python lists and loops *)

Lemma py_range_In start stop i :
  In i (py_range start stop) <-> (start <= i < stop)%Z.
Proof.
  unfold py_range. rewrite in_map_iff. split.
  - intros [k [<- Hk]]. apply in_seq in Hk. lia.
  - intros Hi. exists (Z.to_nat (i - start)). split; [lia|].
    apply in_seq. lia.
Qed.

Lemma py_range_length start stop :
  length (py_range start stop) = Z.to_nat (stop - start).
Proof. unfold py_range. now rewrite length_map, length_seq. Qed.

(** [xs[i:i+w]] for a window that fits has [w] elements. *)
Lemma py_slice_window_length {A} (xs : list A) i w :
  (0 <= i)%Z -> (0 <= w)%Z -> (i + w <= Z.of_nat (length xs))%Z ->
  length (py_slice xs i (i + w)) = Z.to_nat w.
Proof.
  intros Hi Hw Hfit. unfold py_slice, slice_index. cbv zeta.
  destruct (i <? 0)%Z eqn:Ei; [apply Z.ltb_lt in Ei; lia|].
  destruct (i + w <? 0)%Z eqn:Eiw; [apply Z.ltb_lt in Eiw; lia|].
  rewrite length_firstn, length_skipn. lia.
Qed.

(** [xs[i:0]] is empty for [i >= 0]. *)
Lemma py_slice_to_zero {A} (xs : list A) i :
  (0 <= i)%Z -> py_slice xs i 0 = [].
Proof.
  intro Hi. unfold py_slice, slice_index. cbv zeta.
  destruct (i <? 0)%Z eqn:Ei; [apply Z.ltb_lt in Ei; lia|].
  cbn [Z.ltb Z.compare]. 
  replace (Z.to_nat (Z.min 0 (Z.of_nat (length xs)) - Z.min i (Z.of_nat (length xs))))
    with 0%nat by lia.
  reflexivity.
Qed.

Lemma py_slice_nil {A} start stop : py_slice (@nil A) start stop = [].
Proof.
  unfold py_slice. cbv zeta. rewrite skipn_nil. apply firstn_nil.
Qed.

Lemma for_append_length {np : Numpy} {A B} (body : A -> Py (option B)) xs :
  forall g bs g', for_append body xs g = Returned (bs, g') ->
                  (length bs <= length xs)%nat.
Proof.
  induction xs as [|x xs IH]; intros g bs g' Hrun; simpl in Hrun.
  - inversion Hrun. simpl. lia.
  - apply bind_Returned_inv in Hrun. destruct Hrun as [ob [g1 [_ Hrun]]].
    apply bind_Returned_inv in Hrun. destruct Hrun as [bs' [g2 [Hrest Hret]]].
    inversion Hret; subst; clear Hret. specialize (IH _ _ _ Hrest).
    destruct ob; simpl; lia.
Qed.

(** A loop whose body neither raises nor touches the generator on the
    elements at hand returns in the state it started in. *)
Lemma for_append_pure {np : Numpy} {A B} (body : A -> Py (option B)) xs :
  (forall x, In x xs -> forall g, exists ob, body x g = Returned (ob, g)) ->
  forall g, exists bs, for_append body xs g = Returned (bs, g).
Proof.
  induction xs as [|x xs IH]; intros Hbody g; simpl.
  - now exists [].
  - destruct (Hbody x (or_introl eq_refl) g) as [ob Hb].
    destruct (IH (fun y Hy => Hbody y (or_intror Hy)) g) as [bs Hbs].
    unfold bind. rewrite Hb, Hbs. eexists. reflexivity.
Qed.

(** A loop whose body can only raise [e] raises [e] as soon as one
    element does. *)
Lemma for_append_raises {np : Numpy} {A B} (body : A -> Py (option B)) e xs :
  (forall x g, (exists ob g', body x g = Returned (ob, g')) \/ body x g = Raised e) ->
  (exists x, In x xs /\ forall g, body x g = Raised e) ->
  forall g, for_append body xs g = Raised e.
Proof.
  intros Hbody. induction xs as [|x xs IH]; intros [y [Hy Hraise]] g; [destruct Hy|].
  simpl. unfold bind.
  destruct (Hbody x g) as [[ob [g1 Hb]]|Hb]; rewrite Hb; [|reflexivity].
  destruct Hy as [->|Hy]; [rewrite Hraise in Hb; discriminate|].
  rewrite (IH (ex_intro _ y (conj Hy Hraise)) g1). reflexivity.
Qed.

Lemma for_append_NoDup {np : Numpy} {A B C} (body : A -> Py (option B))
  (f : B -> C) (h : A -> C) xs :
  (forall x g b g', body x g = Returned (Some b, g') -> f b = h x) ->
  NoDup (map h xs) ->
  forall g bs g', for_append body xs g = Returned (bs, g') -> NoDup (map f bs).
Proof.
  intros Hbody. induction xs as [|x xs IH]; intros Hnd g bs g' Hrun; simpl in Hrun.
  - inversion Hrun. constructor.
  - inversion Hnd as [|? ? Hx Hxs]; subst.
    apply bind_Returned_inv in Hrun. destruct Hrun as [ob [g1 [Hb Hrun]]].
    apply bind_Returned_inv in Hrun. destruct Hrun as [bs' [g2 [Hrest Hret]]].
    inversion Hret; subst; clear Hret.
    specialize (IH Hxs _ _ _ Hrest).
    destruct ob as [b|]; [|exact IH].
    simpl. constructor; [|exact IH].
    intro Hin. apply in_map_iff in Hin. destruct Hin as [b' [Hfb Hb']].
    destruct (for_append_In _ _ _ _ _ Hrest b' Hb') as [x' [ga [gb [Hx' Hbody']]]].
    apply Hx. rewrite <- (Hbody _ _ _ _ Hb), <- Hfb, (Hbody _ _ _ _ Hbody').
    now apply in_map.
Qed.

Lemma for_fold_invariant {np : Numpy} {A S} (body : S -> A -> Py S)
  (Inv : nat -> S -> Prop) xs :
  (forall k s a g, Inv k s -> exists s' g', body s a g = Returned (s', g')
                                            /\ Inv (Datatypes.S k) s') ->
  forall k acc g, Inv k acc ->
    exists s g', for_fold body xs acc g = Returned (s, g')
                 /\ Inv (k + length xs)%nat s.
Proof.
  intro Hbody. induction xs as [|x xs IH]; intros k acc g Hinv; simpl.
  - exists acc, g. split; [reflexivity|]. now rewrite Nat.add_0_r.
  - destruct (Hbody k acc x g Hinv) as [s' [g1 [Hb Hinv']]].
    destruct (IH (Datatypes.S k) s' g1 Hinv') as [s [g2 [Hrun Hfin]]].
    exists s, g2. unfold bind. rewrite Hb. split; [exact Hrun|].
    now rewrite Nat.add_succ_r.
Qed.

Lemma enumerate_length {A} (xs : list A) : length (enumerate xs) = length xs.
Proof.
  unfold enumerate. rewrite length_combine, length_map, length_seq. lia.
Qed.

Lemma mean_axis0_length r0 rows :
  length (mean_axis0 (r0 :: rows)) = length r0.
Proof. unfold mean_axis0. now rewrite length_map, length_seq. Qed.

(** ** The data generators of the miners *)

Lemma Notebook_generate_rows {np : Numpy} params cp g :
  currencyPair params = Some cp ->
  exists data g',
    Notebook.generate_forex_data params g = Returned (data, g') /\
    length data = Z.to_nat (Z.max 1 (dataPoints params)).
Proof.
  intro Hcp. unfold Notebook.generate_forex_data. cbv zeta. rewrite Hcp.
  unfold bind at 1. unfold lookup, ret at 1.
  match goal with
  | |- context [for_fold ?body ?xs ?acc] =>
      assert (Hstep : forall (k : nat) s a g0, length s = S k ->
                exists s' g', body s a g0 = Returned (s', g')
                              /\ length s' = S (S k));
      [ intros k s a g0 Hs; unfold bind, draw, ret;
        destruct (np_random_normal 0 0.0008 g0) as [change g1];
        eexists; eexists; split; [reflexivity|];
        rewrite length_app; simpl; lia
      | destruct (for_fold_invariant body (fun k s => length s = S k) xs
                    Hstep 0%nat acc g eq_refl) as [prices [g1 [Hprices Hlen]]] ]
  end.
  unfold bind at 1. rewrite Hprices.
  match goal with
  | |- context [for_each ?body ?xs] =>
      assert (Hrow : forall x g0, exists b g', body x g0 = Returned (b, g'));
      [ intros [i close] g0; unfold bind, draw, ret;
        destruct (np_random_normal 0 0.0001 g0) as [h g2];
        destruct (np_random_normal 0 0.0001 g2) as [l g3];
        eexists; eexists; reflexivity
      | destruct (for_each_total body xs Hrow g1) as [rows [g2 [Hrows Hrl]]] ]
  end.
  exists rows, g2. split; [exact Hrows|].
  rewrite Hrl, enumerate_length, Hlen, py_range_length. lia.
Qed.

Lemma Kernel_generate_rows {np : Numpy} config cp g :
  currencyPair config = Some cp ->
  exists data g',
    Kernel.generate_forex_data config g = Returned (data, g') /\
    length data = Z.to_nat (Z.max 1 (dataPoints config)).
Proof.
  intro Hcp. unfold Kernel.generate_forex_data. cbv zeta. rewrite Hcp.
  unfold bind at 1. unfold lookup, ret at 1.
  unfold bind at 1. unfold Kernel.np_random_seed_ at 1.
  match goal with
  | |- context [for_fold ?body ?xs ?acc] =>
      assert (Hstep : forall (k : nat) s a g0, length s = S k ->
                exists s' g', body s a g0 = Returned (s', g')
                              /\ length s' = S (S k));
      [ intros k s a g0 Hs; unfold bind, draw, ret;
        destruct (np_random_normal 0 0.0008 g0) as [random_walk g1];
        destruct (50 <? a)%Z;
        [ destruct (np_random_random g1) as [r g2];
          destruct (Qltb 0.985 r);
          [ destruct (np_random_choice [bullish; bearish] 1 g2) as [pt g3];
            destruct (np_random_uniform 0.0005 0.0015 g3) as [ps g4] | ] | ];
        (eexists; eexists; split; [reflexivity|];
         rewrite length_app; simpl; lia)
      | destruct (for_fold_invariant body (fun k s => length s = S k) xs
                    Hstep 0%nat acc (np_random_seed 42) eq_refl)
          as [prices [g1 [Hprices Hlen]]] ]
  end.
  unfold bind at 1. rewrite Hprices.
  match goal with
  | |- context [for_each ?body ?xs] =>
      assert (Hrow : forall x g0, exists b g', body x g0 = Returned (b, g'));
      [ intros [i close] g0; unfold bind, draw, ret;
        destruct (np_random_normal 0 0.0001 g0) as [n g2];
        destruct (np_random_randint 1000 10000 g2) as [volume g3];
        eexists; eexists; reflexivity
      | destruct (for_each_total body xs Hrow g1) as [rows [g2 [Hrows Hrl]]] ]
  end.
  exists rows, g2. split; [exact Hrows|].
  rewrite Hrl, enumerate_length, Hlen, py_range_length. lia.
Qed.



(** ** The window loops of the miners *)

Lemma Kernel_window_at_total {np : Numpy} data window_size i g :
  (exists ow, Kernel.window_at data window_size i g = Returned (ow, g)) \/
  (py_slice data i (i + window_size) = []
   /\ Kernel.window_at data window_size i g = Raised ValueError).
Proof.
  unfold Kernel.window_at, Kernel.calculate_pattern_features. cbv zeta.
  destruct (py_slice data i (i + window_size)) as [|r rs] eqn:Hs.
  - right. split; reflexivity.
  - left. simpl map. unfold bind, ret.
    match goal with |- context [if ?b then _ else _] => destruct b end;
      eexists; reflexivity.
Qed.

Lemma py_slice_nonempty_data {A} (xs : list A) start stop :
  py_slice xs start stop <> [] -> xs <> [].
Proof. intros Hs Hxs. apply Hs. subst xs. apply py_slice_nil. Qed.

Lemma window_slice_length {A} (data : list A) w i :
  (1 <= w)%Z -> In i (py_range 0 (Z.of_nat (length data) - w)) ->
  length (py_slice data i (i + w)) = Z.to_nat w.
Proof.
  intros Hw Hin. apply py_range_In in Hin.
  apply py_slice_window_length; lia.
Qed.

Lemma negative_window_index {A} (data : list A) w :
  (w <= 0)%Z -> data <> [] ->
  In (- w)%Z (py_range 0 (Z.of_nat (length data) - w))
  /\ py_slice data (- w) (- w + w) = [].
Proof.
  intros Hw Hd. split.
  - apply py_range_In. destruct data; [congruence|]. simpl length. lia.
  - replace (- w + w)%Z with 0%Z by lia. apply py_slice_to_zero. lia.
Qed.

Lemma Notebook_extract_windows_raises {np : Numpy} params data g :
  (windowSize params <= 0)%Z -> data <> [] ->
  Notebook.extract_windows params data g = Raised IndexError.
Proof.
  intros Hw Hd. unfold Notebook.extract_windows. cbv zeta.
  apply for_append_raises.
  - intros x g0. destruct (Notebook_window_at_total data (windowSize params) x g0)
      as [[ow Hr]|[_ Hr]].
    + left. exists ow, g0. exact Hr.
    + right. exact Hr.
  - destruct (negative_window_index data (windowSize params) Hw Hd) as [Hin Hs].
    exists (- windowSize params)%Z. split; [exact Hin|].
    intro g0. destruct (Notebook_window_at_total data (windowSize params)
                          (- windowSize params) g0) as [[ow Hr]|[_ Hr]]; [|exact Hr].
    unfold Notebook.window_at in Hr. cbv zeta in Hr. rewrite Hs in Hr.
    simpl in Hr. discriminate Hr.
Qed.

Lemma Kernel_extract_windows_raises {np : Numpy} config data g :
  (windowSize config <= 0)%Z -> data <> [] ->
  Kernel.extract_windows config data g = Raised ValueError.
Proof.
  intros Hw Hd. unfold Kernel.extract_windows. cbv zeta.
  apply for_append_raises.
  - intros x g0. destruct (Kernel_window_at_total data (windowSize config) x g0)
      as [[ow Hr]|[_ Hr]].
    + left. exists ow, g0. exact Hr.
    + right. exact Hr.
  - destruct (negative_window_index data (windowSize config) Hw Hd) as [Hin Hs].
    exists (- windowSize config)%Z. split; [exact Hin|].
    intro g0. unfold Kernel.window_at, Kernel.calculate_pattern_features.
    cbv zeta. rewrite Hs. reflexivity.
Qed.

Lemma Notebook_extract_windows_pure {np : Numpy} params data g :
  (1 <= windowSize params)%Z ->
  exists windows, Notebook.extract_windows params data g = Returned (windows, g).
Proof.
  intro Hw. unfold Notebook.extract_windows. cbv zeta.
  apply for_append_pure. intros i Hin g0.
  destruct (Notebook_window_at_total data (windowSize params) i g0)
    as [Hr|[Hs _]]; [exact Hr|].
  pose proof (window_slice_length data _ i Hw Hin) as Hl.
  rewrite Hs in Hl. simpl in Hl. lia.
Qed.

Lemma Kernel_extract_windows_pure {np : Numpy} config data g :
  (1 <= windowSize config)%Z ->
  exists windows, Kernel.extract_windows config data g = Returned (windows, g).
Proof.
  intro Hw. unfold Kernel.extract_windows. cbv zeta.
  apply for_append_pure. intros i Hin g0.
  destruct (Kernel_window_at_total data (windowSize config) i g0)
    as [Hr|[Hs _]]; [exact Hr|].
  pose proof (window_slice_length data _ i Hw Hin) as Hl.
  rewrite Hs in Hl. simpl in Hl. lia.
Qed.

Lemma Notebook_windows_shape {np : Numpy} params data g windows g' :
  Notebook.extract_windows params data g = Returned (windows, g') ->
  Forall (fun w => Z.of_nat (length (Notebook.normalized w)) = windowSize params)
         windows.
Proof.
  intro Hrun. apply Forall_forall. intros w Hin.
  pose proof Hrun as Hrun'. unfold Notebook.extract_windows in Hrun'.
  cbv zeta in Hrun'.
  destruct (for_append_In _ _ _ _ _ Hrun' w Hin) as [i [g1 [g2 [Hi Hb]]]].
  apply Notebook_window_at_Some in Hb.
  destruct Hb as [_ [w0 [tl [Hs [Hn _]]]]].
  assert (Hne : py_slice data i (i + windowSize params) <> []).
  { intro He. rewrite He in Hs. discriminate Hs. }
  destruct (Z.le_gt_cases 1 (windowSize params)) as [Hw|Hw].
  - rewrite Hn, length_map, <- Hs, length_map.
    rewrite (window_slice_length data _ i Hw Hi). lia.
  - rewrite (Notebook_extract_windows_raises params data g) in Hrun;
      [discriminate Hrun | lia | exact (py_slice_nonempty_data _ _ _ Hne)].
Qed.

Lemma MinMaxScaler_length xs :
  length (MinMaxScaler_fit_transform xs) = length xs.
Proof. unfold MinMaxScaler_fit_transform. cbv zeta. apply length_map. Qed.

Lemma Kernel_windows_shape {np : Numpy} config data g windows g' :
  Kernel.extract_windows config data g = Returned (windows, g') ->
  Forall (fun w => Z.of_nat (length (Kernel.normalized_prices (Kernel.features w)))
                   = windowSize config) windows.
Proof.
  intro Hrun. apply Forall_forall. intros w Hin.
  pose proof Hrun as Hrun'. unfold Kernel.extract_windows in Hrun'.
  cbv zeta in Hrun'.
  destruct (for_append_In _ _ _ _ _ Hrun' w Hin) as [i [g1 [g2 [Hi Hb]]]].
  apply Kernel_window_at_Some in Hb. destruct Hb as [_ [Hf _]].
  apply Kernel_features_of in Hf. destruct Hf as [_ [Hne [Hn _]]].
  destruct (Z.le_gt_cases 1 (windowSize config)) as [Hw|Hw].
  - rewrite Hn, MinMaxScaler_length, length_map.
    rewrite (window_slice_length data _ i Hw Hi). lia.
  - rewrite (Kernel_extract_windows_raises config data g) in Hrun;
      [discriminate Hrun | lia | exact (py_slice_nonempty_data _ _ _ Hne)].
Qed.

Lemma extract_windows_count {np : Numpy} {A B} (body : Z -> Py (option B))
  (data : list A) w g windows g' :
  for_append body (py_range 0 (Z.of_nat (length data) - w)) g
  = Returned (windows, g') ->
  (Z.of_nat (length windows) <= Z.max 0 (Z.of_nat (length data) - w))%Z.
Proof.
  intro Hrun. apply for_append_length in Hrun.
  rewrite py_range_length in Hrun. lia.
Qed.

(** X8: with [windowSize >= 1] the window loop of either miner returns,
    leaves the random state alone, yields at most [len(data) - windowSize]
    windows, and every window holds exactly [windowSize] normalised prices. *)
Theorem extract_windows_shape (np : Numpy) (params : PatternMiningParams)
  (notebook_data : list Notebook.Row) (kernel_data : list Kernel.Row)
  (g : RandomState) :
  (1 <= windowSize params)%Z ->
  (exists windows,
     Notebook.extract_windows params notebook_data g = Returned (windows, g) /\
     (Z.of_nat (length windows)
      <= Z.max 0 (Z.of_nat (length notebook_data) - windowSize params))%Z /\
     Forall (fun w => Z.of_nat (length (Notebook.normalized w)) = windowSize params)
            windows) /\
  (exists windows,
     Kernel.extract_windows params kernel_data g = Returned (windows, g) /\
     (Z.of_nat (length windows)
      <= Z.max 0 (Z.of_nat (length kernel_data) - windowSize params))%Z /\
     Forall (fun w => Z.of_nat (length (Kernel.normalized_prices (Kernel.features w)))
                      = windowSize params) windows).
Proof.
  intro Hw. split.
  - destruct (Notebook_extract_windows_pure params notebook_data g Hw) as [ws Hr].
    exists ws. split; [exact Hr|]. split.
    + exact (extract_windows_count _ notebook_data _ _ _ _ Hr).
    + exact (Notebook_windows_shape _ _ _ _ _ Hr).
  - destruct (Kernel_extract_windows_pure params kernel_data g Hw) as [ws Hr].
    exists ws. split; [exact Hr|]. split.
    + exact (extract_windows_count _ kernel_data _ _ _ _ Hr).
    + exact (Kernel_windows_shape _ _ _ _ _ Hr).
Qed.

Lemma extract_windows_shape_witness :
  exists windows,
    Notebook.extract_windows (np := Ref.numpy) Ref.params Ref.notebook_rows 0%nat
    = Returned (windows, 0%nat) /\
    (Z.of_nat (length windows) <= 15)%Z.
Proof.
  destruct (proj1 (extract_windows_shape Ref.numpy Ref.params Ref.notebook_rows
                     Ref.kernel_rows 0%nat ltac:(simpl; lia)))
    as [ws [Hr [Hl _]]].
  exists ws. split; [exact Hr|exact Hl].
Defined.

(** X9: with [windowSize <= 0] and at least one row the window loop does
    not return: the first miner raises [IndexError] on an empty window, the
    second [ValueError] from the scaler. *)
Theorem extract_windows_rejects_empty_window (np : Numpy)
  (params : PatternMiningParams)
  (notebook_data : list Notebook.Row) (kernel_data : list Kernel.Row)
  (g : RandomState) :
  (windowSize params <= 0)%Z ->
  (notebook_data <> [] ->
   Notebook.extract_windows params notebook_data g = Raised IndexError) /\
  (kernel_data <> [] ->
   Kernel.extract_windows params kernel_data g = Raised ValueError).
Proof.
  intro Hw. split; intro Hd.
  - now apply Notebook_extract_windows_raises.
  - now apply Kernel_extract_windows_raises.
Qed.

Lemma extract_windows_rejects_empty_window_witness :
  Notebook.extract_windows (np := Ref.numpy) Ref.invalid_params Ref.notebook_rows 0%nat
  = Raised IndexError.
Proof.
  apply (proj1 (extract_windows_rejects_empty_window Ref.numpy Ref.invalid_params
                  Ref.notebook_rows Ref.kernel_rows 0%nat ltac:(simpl; lia))).
  discriminate.
Defined.

(** ** The patterns the miners return *)

Lemma Notebook_create_pattern_shape {np : Numpy} cluster_windows cluster_id s g :
  exists p g',
    Notebook.create_pattern cluster_windows cluster_id s g = Returned (p, g') /\
    pricePoints p = mean_axis0 (map Notebook.normalized cluster_windows) /\
    avgReturn p = profitability p /\
    maxDrawdown p = Qabs (np_mean (map Notebook.trend cluster_windows)) * 0.5 /\
    occurrences p = [].
Proof.
  unfold Notebook.create_pattern. cbv zeta.
  match goal with
  | |- context [for_each ?body ?xs] =>
      destruct (for_each_total body xs (bootstrap_body_total _) g)
        as [bm [g1 [Hbm _]]]
  end.
  unfold bind at 1. rewrite Hbm.
  unfold bind at 1, draw at 1.
  destruct (np_random_normal 0 0.02 g1) as [noise g2]. unfold ret at 1.
  eexists. eexists. split; [reflexivity|].
  cbn [pricePoints avgReturn profitability maxDrawdown occurrences].
  repeat split; reflexivity.
Qed.

Lemma Kernel_create_pattern_shape {np : Numpy} cluster_windows cluster_id s g :
  exists p g',
    Kernel.create_representative_pattern cluster_windows cluster_id s g
    = Returned (p, g') /\
    pricePoints p
    = mean_axis0 (map Kernel.normalized_prices (map Kernel.features cluster_windows)) /\
    avgReturn p = profitability p /\
    maxDrawdown p
    = np_mean (map Kernel.volatility (map Kernel.features cluster_windows)) * 2 /\
    occurrences p = [].
Proof.
  unfold Kernel.create_representative_pattern, Kernel.estimate_pattern_profitability.
  cbv zeta. unfold bind, draw.
  match goal with
  | |- context [np_random_normal 0 0.01 g] =>
      destruct (np_random_normal 0 0.01 g) as [noise g1]
  end.
  unfold ret. eexists. eexists. split; [reflexivity|].
  cbn [pricePoints avgReturn profitability maxDrawdown occurrences].
  repeat split; reflexivity.
Qed.

Lemma mean_axis0_cluster {W} (f : W -> list Q) (cluster windows : list W) (n : Z) :
  cluster <> [] ->
  (forall w, In w cluster -> In w windows) ->
  Forall (fun w => Z.of_nat (length (f w)) = n) windows ->
  Z.of_nat (length (mean_axis0 (map f cluster))) = n.
Proof.
  intros Hne Hsub Hall. destruct cluster as [|c0 rest]; [congruence|].
  simpl map. rewrite mean_axis0_length.
  exact (proj1 (Forall_forall _ _) Hall c0 (Hsub c0 (or_introl eq_refl))).
Qed.

Lemma length_nonempty {A} (xs : list A) k : (S k <= length xs)%nat -> xs <> [].
Proof. intros Hl He. subst xs. simpl in Hl. lia. Qed.

(** X10: every pattern either miner returns carries exactly [windowSize]
    price points, and its [duration] is that number. *)
Theorem mined_pattern_shape (np : Numpy) (sk : Sklearn) (params : PatternMiningParams) :
  (forall data g ps g' p,
     Notebook.extract_patterns params data g = Returned (ps, g') -> In p ps ->
     Z.of_nat (length (pricePoints p)) = windowSize params /\
     Z.of_nat (duration p) = windowSize params) /\
  (forall data g ps g' p,
     Kernel.extract_sliding_window_patterns params data g = Returned (ps, g') ->
     In p ps ->
     Z.of_nat (length (pricePoints p)) = windowSize params /\
     Z.of_nat (duration p) = windowSize params).
Proof.
  split; intros data g ps g' p Hrun Hp.
  - destruct (Notebook_extract_patterns_In _ _ _ _ _ _ Hrun Hp)
      as [windows [g0 [labels [cid [g1 [g2 [Hw [_ [_ [Hn Hc]]]]]]]]]].
    destruct (Notebook_create_pattern_fields (members windows labels cid) cid
                (Qlen (members windows labels cid) / Qlen windows) g1)
      as [p' [g2' [Hc' [_ [_ [_ [_ [_ [_ [_ [_ [_ Hd]]]]]]]]]]]].
    rewrite Hc in Hc'. inversion Hc'; subst p' g2'; clear Hc'.
    destruct (Notebook_create_pattern_shape (members windows labels cid) cid
                (Qlen (members windows labels cid) / Qlen windows) g1)
      as [p' [g2' [Hc' [Hpp _]]]].
    rewrite Hc in Hc'. inversion Hc'; subst p' g2'; clear Hc'.
    assert (Hlen : Z.of_nat (length (pricePoints p)) = windowSize params).
    { rewrite Hpp. apply (mean_axis0_cluster _ _ windows).
      - exact (length_nonempty _ 2 Hn).
      - apply members_In.
      - exact (Notebook_windows_shape _ _ _ _ _ Hw). }
    split; [exact Hlen|]. rewrite Hd. exact Hlen.
  - destruct (Kernel_extract_patterns_In _ _ _ _ _ _ Hrun Hp)
      as [windows [g0 [labels [cid [g1 [g2 [Hw [_ [_ [Hn Hc]]]]]]]]]].
    destruct (Kernel_create_pattern_fields (members windows labels cid) cid
                (Qlen (members windows labels cid) / Qlen windows) g1)
      as [p' [g2' [Hc' [_ [_ [_ [_ [_ [_ [_ [_ [_ Hd]]]]]]]]]]]].
    rewrite Hc in Hc'. inversion Hc'; subst p' g2'; clear Hc'.
    destruct (Kernel_create_pattern_shape (members windows labels cid) cid
                (Qlen (members windows labels cid) / Qlen windows) g1)
      as [p' [g2' [Hc' [Hpp _]]]].
    rewrite Hc in Hc'. inversion Hc'; subst p' g2'; clear Hc'.
    assert (Hlen : Z.of_nat (length (pricePoints p)) = windowSize params).
    { rewrite Hpp, map_map.
      apply (mean_axis0_cluster
               (fun w => Kernel.normalized_prices (Kernel.features w)) _ windows).
      - exact (length_nonempty _ 4 Hn).
      - apply members_In.
      - exact (Kernel_windows_shape _ _ _ _ _ Hw). }
    split; [exact Hlen|]. rewrite Hd. exact Hlen.
Qed.

Lemma pattern_ids_NoDup n : (n <= 15)%nat -> NoDup (map pattern_id (seq 0 n)).
Proof.
  intro Hn.
  assert (H15 : NoDup (map pattern_id (seq 0 15))).
  { assert (He : nodup string_dec (map pattern_id (seq 0 15))
                 = map pattern_id (seq 0 15)) by (vm_compute; reflexivity).
    rewrite <- He. apply NoDup_nodup. }
  replace 15%nat with (n + (15 - n))%nat in H15 by lia.
  rewrite seq_app, map_app in H15.
  exact (NoDup_app_remove_r _ _ H15).
Qed.

Lemma Notebook_frequent_patterns_ids {np : Numpy} windows labels n min_support g ps g' :
  Notebook.frequent_patterns windows labels n min_support g = Returned (ps, g') ->
  (length ps <= n)%nat /\ ((n <= 15)%nat -> NoDup (map id ps)).
Proof.
  unfold Notebook.frequent_patterns. intro Hrun. split.
  - apply for_append_length in Hrun. now rewrite length_seq in Hrun.
  - intro Hn. refine (for_append_NoDup _ id pattern_id _ _ (pattern_ids_NoDup n Hn)
                        _ _ _ Hrun).
    intros cid g1 b g2. cbv zeta.
    destruct (Qle_bool _ _ && _)%bool.
    + intro Hb. apply bind_Returned_inv in Hb. destruct Hb as [p [g3 [Hc Hr]]].
      inversion Hr; subst b g3; clear Hr.
      destruct (Notebook_create_pattern_fields (members windows labels cid) cid
                  (Qlen (members windows labels cid) / Qlen windows) g1)
        as [p' [g2' [Hc' [Hid _]]]].
      rewrite Hc in Hc'. inversion Hc'; subst p' g2'. exact Hid.
    + intro Hb. inversion Hb.
Qed.

Lemma Kernel_frequent_patterns_ids {np : Numpy} windows labels n min_support g ps g' :
  Kernel.frequent_patterns windows labels n min_support g = Returned (ps, g') ->
  (length ps <= n)%nat /\ ((n <= 15)%nat -> NoDup (map id ps)).
Proof.
  unfold Kernel.frequent_patterns. cbv zeta. intro Hrun. split.
  - apply for_append_length in Hrun. now rewrite length_seq in Hrun.
  - intro Hn. refine (for_append_NoDup _ id pattern_id _ _ (pattern_ids_NoDup n Hn)
                        _ _ _ Hrun).
    intros cid g1 b g2.
    destruct (Qle_bool _ _ && _)%bool.
    + intro Hb. apply bind_Returned_inv in Hb. destruct Hb as [p [g3 [Hc Hr]]].
      inversion Hr; subst b g3; clear Hr.
      destruct (Kernel_create_pattern_fields (members windows labels cid) cid
                  (Qlen (members windows labels cid) / Qlen windows) g1)
        as [p' [g2' [Hc' [Hid _]]]].
      rewrite Hc in Hc'. inversion Hc'; subst p' g2'. exact Hid.
    + intro Hb. inversion Hb.
Qed.

Lemma optimal_clusters_bound (idx m : nat) :
  (3 <= m <= 15)%nat -> (nth idx (seq 3 (m + 1 - 3)) 0 <= 15)%nat.
Proof.
  intro Hm. destruct (nth_in_or_default idx (seq 3 (m + 1 - 3)) 0%nat) as [Hin|He].
  - apply in_seq in Hin. lia.
  - rewrite He. lia.
Qed.

(** X11: the first miner returns at most 10 patterns, the second at most
    15, and in either result no two patterns share an [id]. *)
Theorem mined_patterns_distinct (np : Numpy) (sk : Sklearn)
  (params : PatternMiningParams) :
  (forall data g ps g',
     Notebook.extract_patterns params data g = Returned (ps, g') ->
     (length ps <= 10)%nat /\ NoDup (map id ps)) /\
  (forall data g ps g',
     Kernel.extract_sliding_window_patterns params data g = Returned (ps, g') ->
     (length ps <= 15)%nat /\ NoDup (map id ps)).
Proof.
  split; intros data g ps g' Hrun.
  - unfold Notebook.extract_patterns in Hrun. cbv zeta in Hrun.
    apply bind_Returned_inv in Hrun. destruct Hrun as [windows [g0 [_ Hrun]]].
    destruct (length windows <? 10)%nat.
    + inversion Hrun; subst. split; [simpl; lia | constructor].
    + apply Notebook_frequent_patterns_ids in Hrun. destruct Hrun as [Hl Hd].
      split; [lia | apply Hd; lia].
  - unfold Kernel.extract_sliding_window_patterns in Hrun. cbv zeta in Hrun.
    apply bind_Returned_inv in Hrun. destruct Hrun as [windows [g0 [_ Hrun]]].
    destruct (length windows <? 10)%nat.
    + inversion Hrun; subst. split; [simpl; lia | constructor].
    + unfold Kernel.cluster_and_filter_patterns in Hrun. cbv zeta in Hrun.
      apply Kernel_frequent_patterns_ids in Hrun. destruct Hrun as [Hl Hd].
      match type of Hl with
      | (_ <= nth ?idx (seq 3 (?m + 1 - 3)) 0)%nat =>
          assert (Hb : (nth idx (seq 3 (m + 1 - 3)) 0 <= 15)%nat)
      end.
      { apply optimal_clusters_bound.
        destruct (Nat.min 15 (length windows / 20) <? 3)%nat eqn:Hm.
        - lia.
        - apply Nat.ltb_ge in Hm. lia. }
      split; [lia | apply Hd; exact Hb].
Qed.

(** X12: for every pattern either miner returns, the profitability stays
    within the clamp of its miner ([-0.1, 0.15] resp. [-0.08, 0.12]),
    [avgReturn] repeats it, [winRate] is 0.8 times the confidence and so
    lies in [0.4, 0.8], [maxDrawdown] is not negative, and no occurrence is
    listed. *)
Theorem mined_pattern_metrics (np : Numpy) (sk : Sklearn)
  (params : PatternMiningParams) :
  (forall data g ps g' p,
     Notebook.extract_patterns params data g = Returned (ps, g') -> In p ps ->
     - 0.1 <= profitability p /\ profitability p <= 0.15 /\
     avgReturn p = profitability p /\
     winRate p = confidence p * 0.8 /\ 0.4 <= winRate p /\ winRate p <= 0.8 /\
     0 <= maxDrawdown p /\ occurrences p = []) /\
  (forall data g ps g' p,
     Kernel.extract_sliding_window_patterns params data g = Returned (ps, g') ->
     In p ps ->
     - 0.08 <= profitability p /\ profitability p <= 0.12 /\
     avgReturn p = profitability p /\
     winRate p = confidence p * 0.8 /\ 0.4 <= winRate p /\ winRate p <= 0.8 /\
     0 <= maxDrawdown p /\ occurrences p = []).
Proof.
  split; intros data g ps g' p Hrun Hp.
  - destruct (Notebook_extract_patterns_In _ _ _ _ _ _ Hrun Hp)
      as [windows [g0 [labels [cid [g1 [g2 [Hw [_ [_ [Hn Hc]]]]]]]]]].
    destruct (Notebook_create_pattern_fields (members windows labels cid) cid
                (Qlen (members windows labels cid) / Qlen windows) g1)
      as [p' [g2' [Hc' [_ [_ [_ [Hconf [_ [_ [Hwin [Hlo [Hhi _]]]]]]]]]]]].
    rewrite Hc in Hc'. inversion Hc'; subst p' g2'; clear Hc'.
    destruct (Notebook_create_pattern_shape (members windows labels cid) cid
                (Qlen (members windows labels cid) / Qlen windows) g1)
      as [p' [g2' [Hc' [_ [Havg [Hdd Hocc]]]]]].
    rewrite Hc in Hc'. inversion Hc'; subst p' g2'; clear Hc'.
    assert (Hrange : 0.5 <= confidence p /\ confidence p <= 1).
    { rewrite Hconf.
      apply inverse_clamp_range; [discriminate | apply np_std_nonneg | discriminate]. }
    repeat split; try assumption.
    + rewrite Hwin. lra.
    + rewrite Hwin. lra.
    + rewrite Hdd.
      pose proof (Qabs_nonneg (np_mean (map Notebook.trend (members windows labels cid)))).
      lra.
  - destruct (Kernel_extract_patterns_In _ _ _ _ _ _ Hrun Hp)
      as [windows [g0 [labels [cid [g1 [g2 [Hw [_ [_ [Hn Hc]]]]]]]]]].
    destruct (Kernel_create_pattern_fields (members windows labels cid) cid
                (Qlen (members windows labels cid) / Qlen windows) g1)
      as [p' [g2' [Hc' [_ [_ [_ [Hconf [_ [_ [Hwin [Hlo [Hhi _]]]]]]]]]]]].
    rewrite Hc in Hc'. inversion Hc'; subst p' g2'; clear Hc'.
    destruct (Kernel_create_pattern_shape (members windows labels cid) cid
                (Qlen (members windows labels cid) / Qlen windows) g1)
      as [p' [g2' [Hc' [_ [Havg [Hdd Hocc]]]]]].
    rewrite Hc in Hc'. inversion Hc'; subst p' g2'; clear Hc'.
    assert (Hrange : 0.5 <= confidence p /\ confidence p <= 1).
    { rewrite Hconf. unfold Spec.variance_confidence.
      apply inverse_clamp_range; [discriminate | apply np_var_nonneg | discriminate]. }
    assert (Hvol : 0 <= np_mean (map Kernel.volatility
                                     (map Kernel.features (members windows labels cid)))).
    { rewrite map_map.
      apply (np_mean_map_nonneg (fun w => Kernel.volatility (Kernel.features w))
               _ windows); [apply members_In|].
      eapply Forall_impl; [|exact (Kernel_windows_volatility _ _ _ _ _ Hw)].
      intros w [Hv _]. exact Hv. }
    repeat split; try assumption.
    + rewrite Hwin. lra.
    + rewrite Hwin. lra.
    + rewrite Hdd. lra.
Qed.

(** ** Submitting a job *)

Lemma Qmax_of_le x y : y <= x -> Qmax x y == x.
Proof. intro H. apply Q.max_l. exact H. Qed.

(** X13: the estimated execution time is never below 120 seconds, and for
    parameters that are not negative it is
    [120 + 15 * dataPoints / 1000 + 3 * windowSize + 5 * bootstrapSamples / 100]. *)
Theorem getEstimatedExecutionTime_value (params : PatternMiningParams) :
  120 <= Submit.getEstimatedExecutionTime params /\
  ((0 <= dataPoints params)%Z -> (0 <= windowSize params)%Z ->
   (0 <= bootstrapSamples params)%Z ->
   Submit.getEstimatedExecutionTime params
   == 120 + inject_Z (dataPoints params) * (15 # 1000)
      + inject_Z (windowSize params) * 3
      + inject_Z (bootstrapSamples params) * (5 # 100)).
Proof.
  unfold Submit.getEstimatedExecutionTime. cbv zeta.
  split; [apply Q.le_max_r|]. intros Hd Hw Hb.
  assert (Hd' : 0 <= inject_Z (dataPoints params))
    by (change 0 with (inject_Z 0); now rewrite <- Zle_Qle).
  assert (Hw' : 0 <= inject_Z (windowSize params))
    by (change 0 with (inject_Z 0); now rewrite <- Zle_Qle).
  assert (Hb' : 0 <= inject_Z (bootstrapSamples params))
    by (change 0 with (inject_Z 0); now rewrite <- Zle_Qle).
  rewrite Qmax_of_le.
  - field.
  - set (d := inject_Z (dataPoints params)) in *.
    set (w := inject_Z (windowSize params)) in *.
    set (b := inject_Z (bootstrapSamples params)) in *.
    assert (Hd1 : d / 1000 == d * (1 # 1000)) by field.
    assert (Hb1 : b / 100 == b * (1 # 100)) by field.
    rewrite Hd1, Hb1. lra.
Qed.

Lemma getEstimatedExecutionTime_value_witness :
  Submit.getEstimatedExecutionTime Ref.params == 17927 # 100.
Proof.
  rewrite (proj2 (getEstimatedExecutionTime_value Ref.params)
                 ltac:(simpl; lia) ltac:(simpl; lia) ltac:(simpl; lia)).
  reflexivity.
Defined.

(** X14: when [btoa] accepts the credentials, [submitPatternMiningJob]
    hands back Kaggle's [ref] if the push is answered with a non-empty
    one; after every other answer (a thrown fetch, a status that is not ok,
    a body that is not JSON, a missing or empty [ref]) the job id is
    [<username>/forex-pattern-<time>] with the third clock reading of the
    call.  When the credentials hold a character above U+00FF, [btoa]
    throws before the request is built, and the job id is that fallback
    with the second clock reading. *)
Theorem submitPatternMiningJob_jobId
  (fetch_push : Submit.PushRequest -> Submit.FetchOutcome)
  (username apiKey : string) (params : PatternMiningParams) (cp : CurrencyPair)
  (s : Submit.State) :
  currencyPair params = Some cp ->
  let request :=
    {| Submit.auth_username := username;
       Submit.auth_apiKey := apiKey;
       Submit.title :=
         ("Forex Pattern Mining " ++ symbol cp ++ " "
          ++ string_of_nat (Submit.clock s 0))%string;
       Submit.slug :=
         ("forex-pattern-mining-" ++ string_of_nat (Submit.clock s 1))%string;
       Submit.code_params := params |} in
  let jobId := fst (Submit.submitPatternMiningJob fetch_push username apiKey params s) in
  (Submit.btoa_defined (username ++ ":" ++ apiKey)%string = true ->
   (forall ref, fetch_push request = Submit.FetchOk (Some ref) -> ref <> ""%string ->
                jobId = ref) /\
   ((forall ref, fetch_push request = Submit.FetchOk (Some ref) -> ref = ""%string) ->
    jobId = (username ++ "/forex-pattern-" ++ string_of_nat (Submit.clock s 2))%string)) /\
  (Submit.btoa_defined (username ++ ":" ++ apiKey)%string = false ->
   jobId = (username ++ "/forex-pattern-" ++ string_of_nat (Submit.clock s 1))%string).
Proof.
  intros Hcp request jobId. subst jobId.
  unfold Submit.submitPatternMiningJob. rewrite Hcp.
  unfold Submit.bind at 1. unfold Submit.Date_now at 1.
  split; intro Hbtoa; rewrite Hbtoa.
  - unfold Submit.bind, Submit.Date_now, Submit.fetch.
    cbn [fst snd Submit.clock Submit.pushed]. fold request.
    split.
    + intros ref Hf Hne. rewrite Hf.
      destruct (String.eqb ref "") eqn:He; [|reflexivity].
      apply String.eqb_eq in He. contradiction.
    + intro Hall. destruct (fetch_push request) as [| | | [ref|]]; try reflexivity.
      rewrite (Hall ref eq_refl). reflexivity.
  - reflexivity.
Qed.

Lemma submitPatternMiningJob_jobId_witness :
  fst (Submit.submitPatternMiningJob Ref.kaggle_down "netszy" "key" Ref.params Ref.state)
  = "netszy/forex-pattern-1002"%string /\
  fst (Submit.submitPatternMiningJob Ref.kaggle_down "netszy" Sample.euro_sign
                                     Ref.params Ref.state)
  = "netszy/forex-pattern-1001"%string.
Proof.
  split.
  - apply (proj1 (submitPatternMiningJob_jobId Ref.kaggle_down "netszy" "key" Ref.params
                    {| base := "EUR"; quote := "USD"; symbol := "EURUSD" |}
                    Ref.state eq_refl) eq_refl).
    intros ref Hf. vm_compute in Hf. discriminate Hf.
  - exact (proj2 (submitPatternMiningJob_jobId Ref.kaggle_down "netszy"
                    Sample.euro_sign Ref.params
                    {| base := "EUR"; quote := "USD"; symbol := "EURUSD" |}
                    Ref.state eq_refl) eq_refl).
Defined.



(** ** The technical indicators *)

Lemma slice_length xs start stop :
  (stop <= length xs)%nat ->
  length (Indicators.slice xs start stop) = (stop - start)%nat.
Proof. intro H. unfold Indicators.slice. rewrite length_firstn, length_skipn. lia. Qed.

Lemma Indicators_for_push_spec {A} (body : nat -> option A) (P : nat -> A -> Prop)
  indices :
  (forall i, In i indices -> exists a, body i = Some a /\ P i a) ->
  exists out, Indicators.for_push body indices = Some out /\ Forall2 P indices out.
Proof.
  induction indices as [|i rest IH]; intro Hbody.
  - exists []. split; [reflexivity | constructor].
  - destruct (Hbody i (or_introl eq_refl)) as [a [Ha HP]].
    destruct IH as [out [Hout Hall]].
    { intros j Hj. apply Hbody. now right. }
    exists (a :: out). simpl. rewrite Ha, Hout. split; [reflexivity|].
    now constructor.
Qed.

Lemma Forall2_nth_both {A B} (R : A -> B -> Prop) xs ys :
  Forall2 R xs ys ->
  length xs = length ys /\
  forall k dx dy, (k < length xs)%nat -> R (nth k xs dx) (nth k ys dy).
Proof.
  induction 1 as [|x y xs ys Hxy _ [IHl IHn]].
  - split; [reflexivity|]. intros k dx dy Hk. simpl in Hk. lia.
  - split; [simpl; now rewrite IHl|].
    intros [|k] dx dy Hk; simpl; [exact Hxy|]. apply IHn. simpl in Hk. lia.
Qed.

Lemma indices_from_In first n i :
  In i (Indicators.indices_from first n) <-> (first <= i < n)%nat.
Proof. unfold Indicators.indices_from. rewrite in_seq. lia. Qed.

Lemma period_pos (period : positive) :
  (1 <= Pos.to_nat period)%nat /\ 1 <= inject_Z (Zpos period) /\
  inject_Z (Zpos period) = inject_Z (Z.of_nat (Pos.to_nat period)).
Proof.
  split; [lia|]. split.
  - change 1 with (inject_Z 1). rewrite <- Zle_Qle. lia.
  - now rewrite positive_nat_Z.
Qed.

(** The window the loops of [calculateSMA] and [calculateBollingerBands]
    read at index [i] holds exactly [period] prices. *)
Lemma window_reduce prices (period : positive) i :
  In i (Indicators.indices_from (Pos.to_nat period - 1) (length prices)) ->
  exists sum,
    Indicators.reduce_add
      (Indicators.slice prices (i + 1 - Pos.to_nat period) (i + 1)) = Some sum /\
    Qlen (Indicators.slice prices (i + 1 - Pos.to_nat period) (i + 1))
    = inject_Z (Zpos period).
Proof.
  intro Hi. apply indices_from_In in Hi.
  destruct (period_pos period) as [Hp [_ Hq]].
  assert (Hlen : length (Indicators.slice prices (i + 1 - Pos.to_nat period) (i + 1))
                 = Pos.to_nat period).
  { rewrite slice_length by lia. lia. }
  assert (HQ : Qlen (Indicators.slice prices (i + 1 - Pos.to_nat period) (i + 1))
               = inject_Z (Zpos period)).
  { unfold Qlen. now rewrite Hlen, Hq. }
  destruct (Indicators.reduce_add
              (Indicators.slice prices (i + 1 - Pos.to_nat period) (i + 1)))
    as [sum|] eqn:Hsum.
  - exists sum. split; [reflexivity | exact HQ].
  - destruct (Indicators.slice prices (i + 1 - Pos.to_nat period) (i + 1));
      [simpl in Hlen; lia | discriminate Hsum].
Qed.

Lemma calculateSMA_windows prices period :
  exists sma,
    Indicators.calculateSMA prices period = Some sma /\
    Forall2 (fun i v =>
               exists sum,
                 Indicators.reduce_add
                   (Indicators.slice prices (i + 1 - Pos.to_nat period) (i + 1))
                 = Some sum /\
                 v = sum / inject_Z (Zpos period))
            (Indicators.indices_from (Pos.to_nat period - 1) (length prices)) sma.
Proof.
  unfold Indicators.calculateSMA. cbv zeta.
  apply Indicators_for_push_spec.
  intros i Hi. destruct (window_reduce prices period i Hi) as [sum [Hs _]].
  rewrite Hs. exists (sum / inject_Z (Zpos period)). split; [reflexivity|].
  exists sum. split; reflexivity.
Qed.

Lemma calculateSMA_spec prices period :
  exists sma,
    Indicators.calculateSMA prices period = Some sma /\
    length sma = (length prices + 1 - Pos.to_nat period)%nat.
Proof.
  destruct (calculateSMA_windows prices period) as [sma [Hrun Hall]].
  exists sma. split; [exact Hrun|].
  destruct (Forall2_nth_both _ _ _ Hall) as [Hl _]. rewrite <- Hl.
  unfold Indicators.indices_from. rewrite length_seq.
  destruct (period_pos period) as [Hp _]. lia.
Qed.

(** X17: for a positive integer period [calculateSMA] does not throw; it
    returns [len(prices) - period + 1] averages (none when there are fewer
    prices than the period), and the average at index [k] is the sum of
    the [period] prices from index [k] on, added from left to right and
    divided by the period. *)
Theorem calculateSMA_windowed (prices : list Q) (period : positive) :
  exists sma,
    Indicators.calculateSMA prices period = Some sma /\
    length sma = (length prices + 1 - Pos.to_nat period)%nat /\
    forall k, (k < length sma)%nat ->
      exists first rest,
        Indicators.slice prices k (k + Pos.to_nat period) = first :: rest /\
        length (first :: rest) = Pos.to_nat period /\
        nth k sma 0 = fold_left Qplus rest first / inject_Z (Zpos period).
Proof.
  destruct (calculateSMA_windows prices period) as [sma [Hrun Hall]].
  destruct (period_pos period) as [Hp _].
  destruct (Forall2_nth_both _ _ _ Hall) as [Hl Hn].
  unfold Indicators.indices_from in Hl, Hn. rewrite length_seq in Hl, Hn.
  exists sma. split; [exact Hrun|]. split; [lia|].
  intros k Hk.
  destruct (Hn k 0%nat 0 ltac:(lia)) as [sum [Hsum Hv]].
  rewrite seq_nth in Hsum by lia.
  replace (Pos.to_nat period - 1 + k + 1 - Pos.to_nat period)%nat with k in Hsum by lia.
  replace (Pos.to_nat period - 1 + k + 1)%nat with (k + Pos.to_nat period)%nat
    in Hsum by lia.
  assert (Hlen : length (Indicators.slice prices k (k + Pos.to_nat period))
                 = Pos.to_nat period).
  { rewrite slice_length by lia. lia. }
  destruct (Indicators.slice prices k (k + Pos.to_nat period)) as [|first rest];
    [discriminate Hsum|].
  simpl in Hsum. inversion Hsum; subst sum.
  exists first, rest. split; [reflexivity|]. split; [exact Hlen | exact Hv].
Qed.

Lemma ema_from_length m :
  forall prices prev, length (Indicators.ema_from m prev prices) = length prices.
Proof.
  induction prices as [|price rest IH]; intro prev; simpl;
    [reflexivity | now rewrite IH].
Qed.

Lemma calculateEMA_length prices period :
  length (Indicators.calculateEMA prices period) = length prices.
Proof.
  unfold Indicators.calculateEMA. cbv zeta. destruct prices as [|first rest];
    [reflexivity|].
  simpl. now rewrite ema_from_length.
Qed.

Lemma ema_from_step m :
  forall rest prev k,
    (k < length rest)%nat ->
    nth k (Indicators.ema_from m prev rest) 0
    = nth k rest 0 * m + nth k (prev :: Indicators.ema_from m prev rest) 0 * (1 - m).
Proof.
  induction rest as [|price rest IH]; intros prev k Hk; [simpl in Hk; lia|].
  destruct k as [|k]; [reflexivity|].
  cbn [Indicators.ema_from]. cbv zeta.
  change (nth (S k) (?x :: ?l) 0) with (nth k l 0).
  apply IH. simpl in Hk. lia.
Qed.

(** X18: [calculateEMA] returns one value per price; it starts at the
    first price, and every later value is
    [prices[i] * multiplier + ema[i - 1] * (1 - multiplier)] for the
    multiplier [2 / (period + 1)]. *)
Theorem calculateEMA_recurrence (prices : list Q) (period : positive) :
  length (Indicators.calculateEMA prices period) = length prices /\
  hd_error (Indicators.calculateEMA prices period) = hd_error prices /\
  forall i, (S i < length prices)%nat ->
    nth (S i) (Indicators.calculateEMA prices period) 0
    = nth (S i) prices 0 * (2 / (inject_Z (Zpos period) + 1))
      + nth i (Indicators.calculateEMA prices period) 0
        * (1 - 2 / (inject_Z (Zpos period) + 1)).
Proof.
  split; [|split].
  - unfold Indicators.calculateEMA. cbv zeta. destruct prices as [|first rest];
      [reflexivity|].
    simpl. now rewrite ema_from_length.
  - destruct prices; reflexivity.
  - intros i Hi. unfold Indicators.calculateEMA. cbv zeta.
    destruct prices as [|first rest]; [simpl in Hi; lia|].
    change (nth (S i) (first :: ?l) 0) with (nth i l 0).
    apply ema_from_step. simpl in Hi. lia.
Qed.

Lemma rsi_value_range avgGain avgLoss :
  0 <= avgGain -> 0 <= avgLoss ->
  0 <= 100 - 100 / (1 + avgGain / (if Qeq_bool avgLoss 0 then 1 else avgLoss)) /\
  100 - 100 / (1 + avgGain / (if Qeq_bool avgLoss 0 then 1 else avgLoss)) < 100.
Proof.
  intros Hg Hl.
  set (d := if Qeq_bool avgLoss 0 then 1 else avgLoss).
  assert (Hd : 0 < d).
  { unfold d. destruct (Qeq_bool avgLoss 0) eqn:He; [lra|].
    apply Qeq_bool_neq in He. destruct (Qlt_le_dec 0 avgLoss) as [Hlt|Hle];
      [exact Hlt|]. exfalso. apply He. lra. }
  assert (Hrs : 0 <= avgGain / d).
  { apply Qle_shift_div_l; [exact Hd | lra]. }
  set (rs := avgGain / d) in *.
  assert (H1 : 0 < 100 / (1 + rs)) by (apply Qlt_shift_div_l; lra).
  assert (H2 : 100 / (1 + rs) <= 100) by (apply Qle_shift_div_r; [lra | nra]).
  split; lra.
Qed.

Lemma smoothed_nonneg avg period x :
  1 <= period -> 0 <= avg -> 0 <= x -> 0 <= (avg * (period - 1) + x) / period.
Proof.
  intros Hp Ha Hx. apply Qle_shift_div_l; [lra | nra].
Qed.

Lemma rsi_from_spec prices period :
  1 <= period ->
  forall indices avgGain avgLoss,
    0 <= avgGain -> 0 <= avgLoss ->
    length (Indicators.rsi_from prices period avgGain avgLoss indices)
    = length indices /\
    Forall (fun v => 0 <= v /\ v < 100)
           (Indicators.rsi_from prices period avgGain avgLoss indices).
Proof.
  intro Hp. induction indices as [|i rest IH]; intros avgGain avgLoss Hg Hl.
  - split; [reflexivity | constructor].
  - simpl.
    set (change := nth i prices 0 - nth (i - 1) prices 0).
    assert (Hgain : 0 <= (if Qltb 0 change then change else 0)).
    { destruct (Qltb 0 change) eqn:Hc; [|lra]. apply Qltb_lt in Hc. lra. }
    assert (Hloss : 0 <= (if Qltb change 0 then - change else 0)).
    { destruct (Qltb change 0) eqn:Hc; [|lra]. apply Qltb_lt in Hc. lra. }
    pose proof (smoothed_nonneg avgGain period _ Hp Hg Hgain) as Hg'.
    pose proof (smoothed_nonneg avgLoss period _ Hp Hl Hloss) as Hl'.
    destruct (IH _ _ Hg' Hl') as [IHl IHr].
    split; [now rewrite IHl|].
    constructor; [exact (rsi_value_range _ _ Hg' Hl') | exact IHr].
Qed.

Lemma rsi_totals_nonneg prices indices :
  forall totals : Q * Q,
    0 <= fst totals -> 0 <= snd totals ->
    0 <= fst (fold_left (fun (totals : Q * Q) i =>
                let (gains, losses) := totals in
                let change := nth i prices 0 - nth (i - 1) prices 0 in
                if Qltb 0 change then (gains + change, losses)
                else (gains, losses - change)) indices totals) /\
    0 <= snd (fold_left (fun (totals : Q * Q) i =>
                let (gains, losses) := totals in
                let change := nth i prices 0 - nth (i - 1) prices 0 in
                if Qltb 0 change then (gains + change, losses)
                else (gains, losses - change)) indices totals).
Proof.
  induction indices as [|i rest IH]; intros [gains losses] Hg Hl.
  - split; assumption.
  - simpl fold_left. apply IH.
    + destruct (Qltb 0 (nth i prices 0 - nth (i - 1) prices 0)) eqn:Hc;
        cbn [fst]; [apply Qltb_lt in Hc; simpl in Hg; lra | exact Hg].
    + destruct (Qltb 0 (nth i prices 0 - nth (i - 1) prices 0)) eqn:Hc;
        cbn [snd]; [exact Hl | apply Qltb_ge in Hc; simpl in Hl; lra].
Qed.

Lemma rsi_from_length prices period indices :
  forall avgGain avgLoss,
    length (Indicators.rsi_from prices period avgGain avgLoss indices)
    = length indices.
Proof.
  induction indices as [|i rest IH]; intros avgGain avgLoss; simpl;
    [reflexivity | now rewrite IH].
Qed.

Lemma calculateRSI_length (prices : list Q) (period : positive) :
  length (Indicators.calculateRSI prices period)
  = (length prices - Pos.to_nat period)%nat.
Proof.
  unfold Indicators.calculateRSI. cbv zeta.
  destruct (length prices <? Pos.to_nat period + 1)%nat eqn:Hn.
  - apply Nat.ltb_lt in Hn. simpl. lia.
  - rewrite rsi_from_length. unfold Indicators.indices_from. apply length_seq.
Qed.

(** X19: [calculateRSI] returns [len(prices) - period] values, none when
    there are not more prices than the period, and every value lies
    between 0 and 100, both included. *)
Theorem calculateRSI_range (prices : list Q) (period : positive) :
  length (Indicators.calculateRSI prices period)
  = (length prices - Pos.to_nat period)%nat /\
  Forall (fun v => 0 <= v /\ v <= 100) (Indicators.calculateRSI prices period).
Proof.
  unfold Indicators.calculateRSI. cbv zeta.
  destruct (length prices <? Pos.to_nat period + 1)%nat eqn:Hn.
  - apply Nat.ltb_lt in Hn. split; [simpl; lia | constructor].
  - destruct (period_pos period) as [_ [Hq _]].
    match goal with
    | |- context [fold_left ?f ?xs ?a] =>
        destruct (rsi_totals_nonneg prices xs a (Qle_refl 0) (Qle_refl 0))
          as [Hg Hl];
        set (totals := fold_left f xs a) in *
    end.
    assert (Hg' : 0 <= fst totals / inject_Z (Zpos period))
      by (apply Qle_shift_div_l; lra).
    assert (Hl' : 0 <= snd totals / inject_Z (Zpos period))
      by (apply Qle_shift_div_l; lra).
    destruct (rsi_from_spec prices _ Hq
                (Indicators.indices_from (Pos.to_nat period) (length prices))
                _ _ Hg' Hl') as [Hlen Hall].
    split.
    + rewrite Hlen. unfold Indicators.indices_from. apply length_seq.
    + eapply Forall_impl; [|exact Hall].
      intros v [Hv0 Hv1]. split; [exact Hv0 | apply Qlt_le_weak; exact Hv1].
Qed.

Lemma calculateMACD_lines prices fastPeriod slowPeriod :
  Indicators.macd (Indicators.calculateMACD prices fastPeriod slowPeriod)
  = map (fun i => nth i (Indicators.calculateEMA prices fastPeriod) 0
                  - nth i (Indicators.calculateEMA prices slowPeriod) 0)
        (seq 0 (length prices)) /\
  Indicators.histogram (Indicators.calculateMACD prices fastPeriod slowPeriod)
  = map (fun i =>
           nth i (Indicators.macd
                    (Indicators.calculateMACD prices fastPeriod slowPeriod)) 0
           - nth i (Indicators.signal
                      (Indicators.calculateMACD prices fastPeriod slowPeriod)) 0)
        (seq 0 (length prices)).
Proof.
  unfold Indicators.calculateMACD. cbv zeta.
  cbn [Indicators.macd Indicators.signal Indicators.histogram].
  unfold Indicators.indices_from.
  rewrite !calculateEMA_length.
  rewrite Nat.max_id, Nat.min_id, Nat.sub_diag, Nat.sub_0_r.
  split; [reflexivity|].
  rewrite !length_map, !length_seq, Nat.min_id, Nat.sub_0_r. reflexivity.
Qed.

Lemma nth_map_seq (f : nat -> Q) n k :
  (k < n)%nat -> nth k (map f (seq 0 n)) 0 = f k.
Proof.
  intro Hk. rewrite (nth_indep _ 0 (f 0%nat)) by (now rewrite length_map, length_seq).
  rewrite map_nth, seq_nth by exact Hk. reflexivity.
Qed.

(** X20: [calculateMACD] keeps the series aligned with the prices: the
    MACD line, the signal line and the histogram have one entry per price,
    the MACD line is the fast EMA minus the slow EMA, and the histogram is
    the MACD line minus the signal line. *)
Theorem calculateMACD_aligned (prices : list Q) (fastPeriod slowPeriod : positive) :
  let r := Indicators.calculateMACD prices fastPeriod slowPeriod in
  length (Indicators.macd r) = length prices /\
  length (Indicators.signal r) = length prices /\
  length (Indicators.histogram r) = length prices /\
  Indicators.signal r = Indicators.calculateEMA (Indicators.macd r) 9 /\
  forall k, (k < length prices)%nat ->
    nth k (Indicators.macd r) 0
    = nth k (Indicators.calculateEMA prices fastPeriod) 0
      - nth k (Indicators.calculateEMA prices slowPeriod) 0 /\
    nth k (Indicators.histogram r) 0
    = nth k (Indicators.macd r) 0 - nth k (Indicators.signal r) 0.
Proof.
  intro r. destruct (calculateMACD_lines prices fastPeriod slowPeriod) as [Hm Hh].
  fold r in Hm, Hh.
  assert (Hs : Indicators.signal r = Indicators.calculateEMA (Indicators.macd r) 9)
    by reflexivity.
  assert (Hlm : length (Indicators.macd r) = length prices)
    by (now rewrite Hm, length_map, length_seq).
  split; [exact Hlm|]. split; [now rewrite Hs, calculateEMA_length|].
  split; [now rewrite Hh, length_map, length_seq|]. split; [exact Hs|].
  intros k Hk. split.
  - rewrite Hm. now rewrite nth_map_seq.
  - rewrite Hh. now rewrite nth_map_seq.
Qed.

Lemma calculateBollingerBands_spec {m : Indicators.JSMath} prices period stdDev :
  exists bands sma,
    Indicators.calculateBollingerBands prices period stdDev = Some bands /\
    Indicators.calculateSMA prices period = Some sma /\
    Indicators.middle bands = sma /\
    length (Indicators.upper bands) = length sma /\
    length (Indicators.lower bands) = length sma /\
    forall k, (k < length sma)%nat ->
      exists deviation,
        0 <= deviation /\
        nth k (Indicators.upper bands) 0 = nth k sma 0 + stdDev * deviation /\
        nth k (Indicators.lower bands) 0 = nth k sma 0 - stdDev * deviation.
Proof.
  destruct (calculateSMA_spec prices period) as [sma [Hsma Hlen]].
  unfold Indicators.calculateBollingerBands. cbv zeta. rewrite Hsma.
  destruct (period_pos period) as [Hp _].
  match goal with
  | |- context [Indicators.for_push ?body ?xs] =>
      destruct (Indicators_for_push_spec body
                  (fun i (ul : Q * Q) =>
                     exists deviation,
                       0 <= deviation /\
                       fst ul = nth (i + 1 - Pos.to_nat period) sma 0
                                + stdDev * deviation /\
                       snd ul = nth (i + 1 - Pos.to_nat period) sma 0
                                - stdDev * deviation) xs)
        as [bands [Hrun Hall]]
  end.
  { intros i Hi. destruct (window_reduce prices period i Hi) as [sum [Hs _]].
    rewrite Hs. eexists. split; [reflexivity|].
    eexists. split; [apply Indicators.Math_sqrt_nonneg|]. split; reflexivity. }
  rewrite Hrun. eexists. exists sma. split; [reflexivity|].
  cbn [Indicators.upper Indicators.middle Indicators.lower].
  destruct (Forall2_nth_both _ _ _ Hall) as [Hl Hn].
  unfold Indicators.indices_from in Hl, Hn. rewrite length_seq in Hl, Hn.
  assert (Hbl : length bands = length sma) by lia.
  split; [reflexivity|]. split; [reflexivity|].
  split; [now rewrite length_map|]. split; [now rewrite length_map|].
  intros k Hk.
  destruct (Hn k 0%nat (0, 0) ltac:(lia)) as [deviation [Hd [Hu Hlo]]].
  rewrite seq_nth in Hu, Hlo by lia.
  replace (Pos.to_nat period - 1 + k + 1 - Pos.to_nat period)%nat with k
    in Hu, Hlo by lia.
  exists deviation. split; [exact Hd|]. split.
  - change 0 with (fst (0, 0)) at 1. rewrite map_nth. exact Hu.
  - change 0 with (snd (0, 0)) at 1. rewrite map_nth. exact Hlo.
Qed.

(** X21: for a positive integer period [calculateBollingerBands] does not
    throw; its middle band is the SMA, the three bands have the same
    length, and with a multiplier that is not negative
    [lower <= middle <= upper] holds at every index. *)
Theorem calculateBollingerBands_ordered (m : Indicators.JSMath) (prices : list Q)
  (period : positive) (stdDev : Q) :
  exists bands,
    Indicators.calculateBollingerBands prices period stdDev = Some bands /\
    Indicators.calculateSMA prices period = Some (Indicators.middle bands) /\
    length (Indicators.upper bands) = length (Indicators.middle bands) /\
    length (Indicators.lower bands) = length (Indicators.middle bands) /\
    forall k, (k < length (Indicators.middle bands))%nat ->
      0 <= stdDev ->
      nth k (Indicators.lower bands) 0 <= nth k (Indicators.middle bands) 0 /\
      nth k (Indicators.middle bands) 0 <= nth k (Indicators.upper bands) 0.
Proof.
  destruct (calculateBollingerBands_spec prices period stdDev)
    as [bands [sma [Hrun [Hsma [Hmid [Hu [Hl Hk]]]]]]].
  exists bands. rewrite Hmid. split; [exact Hrun|]. split; [exact Hsma|].
  split; [exact Hu|]. split; [exact Hl|].
  intros k Hlt Hs. destruct (Hk k Hlt) as [deviation [Hd [Hup Hlo]]].
  rewrite Hup, Hlo. split; nra.
Qed.

(** ** The filters of the analysis endpoint *)

Lemma or0_Qeq x : or0 x == x.
Proof.
  unfold or0. destruct (Qeq_bool x 0) eqn:He; [|reflexivity].
  apply Qeq_bool_eq in He. now rewrite He.
Qed.

Lemma Filters_insert_In compare p sorted x :
  In x (Filters.insert compare p sorted) <-> x = p \/ In x sorted.
Proof.
  induction sorted as [|q tl IH]; simpl.
  - intuition.
  - destruct (Qltb 0 (compare p q)); simpl; rewrite ?IH; intuition.
Qed.

Lemma Filters_sort_In compare ps x :
  In x (Filters.sort compare ps) <-> In x ps.
Proof.
  unfold Filters.sort. induction ps as [|p ps IH]; simpl.
  - tauto.
  - rewrite Filters_insert_In, IH. intuition.
Qed.

Lemma Filters_insert_length compare p sorted :
  length (Filters.insert compare p sorted) = S (length sorted).
Proof.
  induction sorted as [|q tl IH]; simpl; [reflexivity|].
  destruct (Qltb 0 (compare p q)); simpl; [now rewrite IH | reflexivity].
Qed.

Lemma Filters_sort_length compare ps :
  length (Filters.sort compare ps) = length ps.
Proof.
  unfold Filters.sort. induction ps as [|p ps IH]; simpl; [reflexivity|].
  now rewrite Filters_insert_length, IH.
Qed.

Lemma comparator_order filters p q :
  (Qltb 0 (Filters.comparator filters p q) = true -> Filters.in_order filters q p) /\
  (Qltb 0 (Filters.comparator filters p q) = false -> Filters.in_order filters p q).
Proof.
  unfold Filters.comparator, Filters.in_order. cbv zeta.
  destruct (Filters.sortOrder filters); split; intro H;
    (apply Qltb_lt in H || apply Qltb_ge in H); lra.
Qed.

Lemma in_order_trans filters a b c :
  Filters.in_order filters a b -> Filters.in_order filters b c ->
  Filters.in_order filters a c.
Proof.
  unfold Filters.in_order. destruct (Filters.sortOrder filters); intros H1 H2; lra.
Qed.

Lemma Filters_insert_sorted filters p sorted :
  StronglySorted (Filters.in_order filters) sorted ->
  StronglySorted (Filters.in_order filters)
                 (Filters.insert (Filters.comparator filters) p sorted).
Proof.
  induction 1 as [|q tl Hs IH Hq]; simpl.
  - constructor; constructor.
  - destruct (Qltb 0 (Filters.comparator filters p q)) eqn:E.
    + apply comparator_order in E. constructor; [exact IH|].
      apply Forall_forall. intros x Hx. apply Filters_insert_In in Hx.
      destruct Hx as [->|Hx]; [exact E|].
      rewrite Forall_forall in Hq. now apply Hq.
    + apply comparator_order in E. constructor; [now constructor|].
      constructor; [exact E|].
      apply Forall_forall. intros x Hx. rewrite Forall_forall in Hq.
      eapply in_order_trans; [exact E | apply Hq; exact Hx].
Qed.

Lemma Filters_sort_sorted filters ps :
  StronglySorted (Filters.in_order filters)
                 (Filters.sort (Filters.comparator filters) ps).
Proof.
  unfold Filters.sort. induction ps as [|p ps IH]; simpl.
  - constructor.
  - now apply Filters_insert_sorted.
Qed.

Lemma Qle_bool_le x y : Qle_bool x y = true <-> x <= y.
Proof. apply Qle_bool_iff. Qed.

(** X23: [applyPatternFilters] returns exactly the patterns of the input
    that have the requested type (any type for [all]), reach the minimal
    confidence and support and, when [minProfitability] is above -1, the
    minimal profitability; the result is ordered by the chosen field,
    ascending for [asc] and descending otherwise, and is never longer than
    the input. *)
Theorem applyPatternFilters_spec (patterns : list DiscoveredPattern)
  (filters : Filters.FilterOptions) :
  (forall p, In p (Filters.applyPatternFilters patterns filters)
             <-> In p patterns /\ Filters.passes filters p) /\
  StronglySorted (Filters.in_order filters)
                 (Filters.applyPatternFilters patterns filters) /\
  (length (Filters.applyPatternFilters patterns filters) <= length patterns)%nat.
Proof.
  unfold Filters.applyPatternFilters. cbv zeta. split; [|split].
  - intro p. rewrite Filters_sort_In. unfold Filters.passes.
    assert (Htype :
      forall l, In p (match Filters.patternType filters with
                      | Filters.all => l
                      | Filters.only t => filter (fun p => PatternType_eqb (type p) t) l
                      | Filters.other_type => filter (fun _ => false) l
                      end)
                <-> In p l /\ match Filters.patternType filters with
                              | Filters.all => True
                              | Filters.only t => type p = t
                              | Filters.other_type => False
                              end).
    { intro l. destruct (Filters.patternType filters) as [|t|].
      - tauto.
      - rewrite filter_In, PatternType_eqb_eq. tauto.
      - rewrite filter_In. intuition discriminate. }
    destruct (Qltb (- (1)) (Filters.minProfitability filters)) eqn:Hprof.
    + apply Qltb_lt in Hprof.
      rewrite !filter_In, Htype, !Qle_bool_le, or0_Qeq. tauto.
    + apply Qltb_ge in Hprof.
      rewrite !filter_In, Htype, !Qle_bool_le. split.
      * intros [[[Hin Ht] Hc] Hs]. repeat split; try assumption. intro. lra.
      * tauto.
  - apply Filters_sort_sorted.
  - rewrite Filters_sort_length.
    assert (Hf : forall (f : DiscoveredPattern -> bool) l,
               (length (filter f l) <= length l)%nat).
    { intros f l. induction l as [|a l IH]; simpl; [lia|].
      destruct (f a); simpl; lia. }
    assert (Htype :
      (length (match Filters.patternType filters with
               | Filters.all => patterns
               | Filters.only t =>
                   filter (fun p => PatternType_eqb (type p) t) patterns
               | Filters.other_type => filter (fun _ => false) patterns
               end) <= length patterns)%nat).
    { destruct (Filters.patternType filters); [lia | apply Hf | apply Hf]. }
    destruct (Qltb (- (1)) (Filters.minProfitability filters)).
    + eapply Nat.le_trans; [apply Hf|]. eapply Nat.le_trans; [apply Hf|].
      eapply Nat.le_trans; [apply Hf|]. exact Htype.
    + eapply Nat.le_trans; [apply Hf|]. eapply Nat.le_trans; [apply Hf|].
      exact Htype.
Qed.

(** ** The correlations of the analysis endpoint *)

Lemma Qmult_comm_eq (x y : Q) : x * y = y * x.
Proof. unfold Qmult. f_equal; [apply Z.mul_comm | apply Pos.mul_comm]. Qed.

Lemma sumXY_combine (x : list Q) :
  forall y pre a,
    length x = length y ->
    fold_left (fun sum (xi_i : Q * nat) =>
                 sum + fst xi_i * nth (snd xi_i) (pre ++ y) 0)
              (combine x (seq (length pre) (length x))) a
    = fold_left (fun sum (xy : Q * Q) => sum + fst xy * snd xy) (combine x y) a.
Proof.
  induction x as [|x0 x IH]; intros y pre a Hlen.
  - reflexivity.
  - destruct y as [|y0 y]; [discriminate Hlen|]. simpl in Hlen.
    simpl. rewrite nth_middle.
    specialize (IH y (pre ++ [y0]) (a + x0 * y0) ltac:(lia)).
    rewrite <- app_assoc, length_app in IH. simpl in IH.
    rewrite Nat.add_1_r in IH. exact IH.
Qed.

Lemma sumXY_swap (x : list Q) :
  forall y a,
    fold_left (fun sum (xy : Q * Q) => sum + fst xy * snd xy) (combine x y) a
    = fold_left (fun sum (xy : Q * Q) => sum + fst xy * snd xy) (combine y x) a.
Proof.
  induction x as [|x0 x IH]; intros [|y0 y] a; try reflexivity.
  simpl. rewrite (Qmult_comm_eq x0 y0). apply IH.
Qed.

Lemma calculateCorrelation_comm {m : Indicators.JSMath} x y :
  Correlation.calculateCorrelation x y = Correlation.calculateCorrelation y x.
Proof.
  unfold Correlation.calculateCorrelation. cbv zeta.
  destruct (Nat.eqb_spec (length x) 0) as [Hx|Hx];
    destruct (Nat.eqb_spec (length y) 0) as [Hy|Hy]; simpl; try reflexivity.
  destruct (Nat.eqb_spec (length x) (length y)) as [He|He];
    destruct (Nat.eqb_spec (length y) (length x)) as [He'|He'];
    simpl; try reflexivity; try congruence.
  pose proof (sumXY_combine x y [] 0 He) as Hxy.
  pose proof (sumXY_combine y x [] 0 He') as Hyx.
  simpl in Hxy, Hyx. rewrite Hxy, Hyx.
  rewrite (sumXY_swap y x).
  unfold Qlen. rewrite He'.
  set (sx := fold_left (fun a b => a + b) x 0).
  set (sy := fold_left (fun a b => a + b) y 0).
  rewrite (Qmult_comm_eq sy sx).
  match goal with
  | |- context [Indicators.Math_sqrt (?a * ?b)] => rewrite (Qmult_comm_eq a b)
  end.
  reflexivity.
Qed.

Lemma calculateCorrelation_lengths {m : Indicators.JSMath} (x y : list Q) :
  length x <> length y -> Correlation.calculateCorrelation x y = 0.
Proof.
  intro H. unfold Correlation.calculateCorrelation. cbv zeta.
  destruct (Nat.eqb_spec (length x) (length y)) as [He|He]; [contradiction|].
  now rewrite !orb_true_r.
Qed.

(** X24: [calculateCorrelation] answers 0 for an empty series and for two
    series of different length, and it is symmetric in its arguments. *)
Theorem calculateCorrelation_symmetric (m : Indicators.JSMath) (x y : list Q) :
  (length x <> length y \/ x = [] \/ y = [] ->
   Correlation.calculateCorrelation x y = 0) /\
  Correlation.calculateCorrelation x y = Correlation.calculateCorrelation y x.
Proof.
  split; [|apply calculateCorrelation_comm].
  intro H. unfold Correlation.calculateCorrelation. cbv zeta.
  destruct (Nat.eqb_spec (length x) 0) as [Hx|Hx]; [reflexivity|].
  destruct (Nat.eqb_spec (length y) 0) as [Hy|Hy]; [reflexivity|].
  destruct (Nat.eqb_spec (length x) (length y)) as [He|He]; [|reflexivity].
  destruct H as [H|[H|H]]; [contradiction | subst x | subst y];
    simpl in *; congruence.
Qed.

Lemma find_rows {X} (R : nat -> PatternType * list DiscoveredPattern -> X) a :
  forall groups start,
    find (fun row : PatternType * X => PatternType_eqb (fst row) a)
         (map (fun ig : nat * (PatternType * list DiscoveredPattern) =>
                 let (i, g) := ig in (fst g, R i g))
              (combine (seq start (length groups)) groups))
    = match Correlation.lookup_from a groups start with
      | Some (i, members) => Some (a, R i (a, members))
      | None => None
      end.
Proof.
  induction groups as [|[k members] tl IH]; intro start; [reflexivity|].
  simpl. destruct (PatternType_eqb k a) eqn:Hk.
  - apply PatternType_eqb_eq in Hk. subst k. reflexivity.
  - apply IH.
Qed.

Lemma lookup_from_ge a groups :
  forall start i members,
    Correlation.lookup_from a groups start = Some (i, members) -> (start <= i)%nat.
Proof.
  induction groups as [|[k m] tl IH]; intros start i members H; [discriminate H|].
  simpl in H. destruct (PatternType_eqb k a).
  - inversion H. lia.
  - apply IH in H. lia.
Qed.

Lemma lookup_from_index a b groups :
  forall start i j ma mb,
    Correlation.lookup_from a groups start = Some (i, ma) ->
    Correlation.lookup_from b groups start = Some (j, mb) ->
    (i = j <-> a = b).
Proof.
  induction groups as [|[k m] tl IH]; intros start i j ma mb Ha Hb;
    [discriminate Ha|].
  simpl in Ha, Hb.
  destruct (PatternType_eqb k a) eqn:Hka; destruct (PatternType_eqb k b) eqn:Hkb.
  - apply PatternType_eqb_eq in Hka, Hkb. inversion Ha. inversion Hb. subst.
    tauto.
  - apply PatternType_eqb_eq in Hka. inversion Ha; subst.
    apply lookup_from_ge in Hb. split; [lia|]. intro He. subst b.
    rewrite (proj2 (PatternType_eqb_eq a a) eq_refl) in Hkb. discriminate Hkb.
  - apply PatternType_eqb_eq in Hkb. inversion Hb; subst.
    apply lookup_from_ge in Ha. split; [lia|]. intro He. subst a.
    rewrite (proj2 (PatternType_eqb_eq b b) eq_refl) in Hka. discriminate Hka.
  - exact (IH _ _ _ _ _ Ha Hb).
Qed.

Lemma lookup_from_group_push a p groups :
  forall start,
    option_map snd (Correlation.lookup_from a (Correlation.group_push p groups) start)
    = if PatternType_eqb (type p) a
      then Some (match option_map snd (Correlation.lookup_from a groups start) with
                 | Some members => members ++ [p]
                 | None => [p]
                 end)
      else option_map snd (Correlation.lookup_from a groups start).
Proof.
  induction groups as [|[k m] tl IH]; intro start.
  - simpl. destruct (PatternType_eqb (type p) a); reflexivity.
  - simpl. destruct (PatternType_eqb k (type p)) eqn:Hkp.
    + apply PatternType_eqb_eq in Hkp. subst k. simpl.
      destruct (PatternType_eqb (type p) a); reflexivity.
    + simpl. destruct (PatternType_eqb k a) eqn:Hka.
      * apply PatternType_eqb_eq in Hka. subst k.
        destruct (PatternType_eqb (type p) a) eqn:Hpa; [|reflexivity].
        apply PatternType_eqb_eq in Hpa. subst a.
        rewrite (proj2 (PatternType_eqb_eq _ _) eq_refl) in Hkp. discriminate Hkp.
      * apply IH.
Qed.

Lemma lookup_from_patternGroups a patterns start :
  option_map snd (Correlation.lookup_from a (Correlation.patternGroups patterns) start)
  = match Correlation.of_type a patterns with
    | [] => None
    | members => Some members
    end.
Proof.
  unfold Correlation.patternGroups, Correlation.of_type.
  induction patterns as [|p patterns IH] using rev_ind; [reflexivity|].
  rewrite fold_left_app, filter_app. simpl fold_left.
  rewrite lookup_from_group_push, IH. simpl filter.
  destruct (PatternType_eqb (type p) a).
  - destruct (filter _ patterns); reflexivity.
  - rewrite app_nil_r. reflexivity.
Qed.

Lemma entry_closed_form {m : Indicators.JSMath} patterns a b :
  Correlation.entry (Correlation.calculatePatternCorrelations patterns) a b
  = match Correlation.of_type a patterns, Correlation.of_type b patterns with
    | [], _ => None
    | _, [] => None
    | ga, gb =>
        Some (if PatternType_eqb a b then 1
              else Correlation.calculateCorrelation
                     (map (fun p => or0 (profitability p)) ga)
                     (map (fun p => or0 (profitability p)) gb))
    end.
Proof.
  unfold Correlation.entry, Correlation.calculatePatternCorrelations. cbv zeta.
  rewrite find_rows.
  pose proof (lookup_from_patternGroups a patterns 0) as Ha.
  pose proof (lookup_from_patternGroups b patterns 0) as Hb.
  destruct (Correlation.lookup_from a (Correlation.patternGroups patterns) 0)
    as [[i ma]|] eqn:Hla.
  - rewrite find_rows.
    destruct (Correlation.lookup_from b (Correlation.patternGroups patterns) 0)
      as [[j mb]|] eqn:Hlb.
    + simpl in Ha, Hb.
      destruct (Correlation.of_type a patterns) as [|a0 ga]; [discriminate Ha|].
      destruct (Correlation.of_type b patterns) as [|b0 gb]; [discriminate Hb|].
      inversion Ha; subst ma. inversion Hb; subst mb. cbn [snd].
      pose proof (lookup_from_index a b _ _ _ _ _ _ Hla Hlb) as Hij.
      f_equal. destruct (Nat.eqb_spec i j) as [He|He].
      * rewrite (proj2 (PatternType_eqb_eq a b) (proj1 Hij He)). reflexivity.
      * destruct (PatternType_eqb a b) eqn:Hab; [|reflexivity].
        apply PatternType_eqb_eq in Hab. exfalso. apply He, Hij, Hab.
    + simpl in Ha, Hb.
      destruct (Correlation.of_type b patterns); [|discriminate Hb].
      destruct (Correlation.of_type a patterns); reflexivity.
  - simpl in Ha. destruct (Correlation.of_type a patterns); [reflexivity|].
    discriminate Ha.
Qed.

(** X25: in the table of [calculatePatternCorrelations] the entry for two
    types exists exactly when both occur among the patterns and does not
    depend on their order; a type is correlated 1 with itself, and two
    different types that occur with different numbers of patterns are
    reported as uncorrelated (0). *)
Theorem calculatePatternCorrelations_table (m : Indicators.JSMath)
  (patterns : list DiscoveredPattern) (a b : PatternType) :
  let correlations := Correlation.calculatePatternCorrelations patterns in
  (Correlation.entry correlations a b = None
   <-> Correlation.count a patterns = 0%nat \/ Correlation.count b patterns = 0%nat) /\
  Correlation.entry correlations a b = Correlation.entry correlations b a /\
  ((0 < Correlation.count a patterns)%nat ->
   Correlation.entry correlations a a = Some 1) /\
  ((0 < Correlation.count a patterns)%nat -> (0 < Correlation.count b patterns)%nat ->
   a <> b -> Correlation.count a patterns <> Correlation.count b patterns ->
   Correlation.entry correlations a b = Some 0).
Proof.
  intro correlations. subst correlations. rewrite !entry_closed_form.
  unfold Correlation.count.
  assert (Hrefl : forall t, PatternType_eqb t t = true)
    by (intro t; now apply PatternType_eqb_eq).
  split; [|split; [|split]].
  - destruct (Correlation.of_type a patterns) as [|a0 ga];
      destruct (Correlation.of_type b patterns) as [|b0 gb]; simpl length;
      split; try (intros _; auto; fail); try discriminate.
    intros [H|H]; discriminate H.
  - destruct (Correlation.of_type a patterns) as [|a0 ga];
      destruct (Correlation.of_type b patterns) as [|b0 gb]; try reflexivity.
    f_equal. destruct (PatternType_eqb a b) eqn:Hab.
    + apply PatternType_eqb_eq in Hab. subst b. now rewrite Hrefl.
    + destruct (PatternType_eqb b a) eqn:Hba.
      * apply PatternType_eqb_eq in Hba. subst b.
        rewrite Hrefl in Hab. discriminate Hab.
      * apply calculateCorrelation_comm.
  - destruct (Correlation.of_type a patterns) as [|a0 ga]; simpl length;
      [lia|]. intros _. now rewrite Hrefl.
  - destruct (Correlation.of_type a patterns) as [|a0 ga];
      destruct (Correlation.of_type b patterns) as [|b0 gb]; simpl length;
      try lia.
    intros _ _ Hne Hcount.
    destruct (PatternType_eqb a b) eqn:Hab;
      [apply PatternType_eqb_eq in Hab; contradiction|].
    f_equal.
    apply calculateCorrelation_lengths. rewrite !length_map. exact Hcount.
Qed.

(** ** Job status and results *)

Lemma lower_not_upper c :
  ((65 <=? nat_of_ascii (Status.lower c)) && (nat_of_ascii (Status.lower c) <=? 90))%nat
  = false.
Proof. destruct c as [[] [] [] [] [] [] [] []]; vm_compute; reflexivity. Qed.

Lemma toLowerCase_not_upper s :
  Forall (fun c => ((65 <=? nat_of_ascii c) && (nat_of_ascii c <=? 90))%nat = false)
         (list_ascii_of_string (Status.toLowerCase s)).
Proof.
  induction s as [|c s IH]; simpl; constructor; [apply lower_not_upper | exact IH].
Qed.

Lemma toLowerCase_neq s t :
  existsb (fun c => ((65 <=? nat_of_ascii c) && (nat_of_ascii c <=? 90))%nat)
          (list_ascii_of_string t) = true ->
  Status.toLowerCase s <> t.
Proof.
  intros Hup He. subst t. apply existsb_exists in Hup. destruct Hup as [c [Hin Hc]].
  pose proof (proj1 (Forall_forall _ _) (toLowerCase_not_upper s) c Hin) as Hn.
  cbv beta in Hn. rewrite Hn in Hc. discriminate Hc.
Qed.

Lemma statusMap_lowered s :
  Status.statusMap (Status.key (Status.toLowerCase s))
  = let k := Status.toLowerCase s in
    if String.eqb k "queued" then Status.known Status.submitted
    else if String.eqb k "starting" then Status.known Status.running
    else if String.eqb k "running" then Status.known Status.running
    else if String.eqb k "complete" then Status.known Status.completed
    else if String.eqb k "error" then Status.known Status.failed
    else if String.eqb k "cancelled" then Status.known Status.cancelled
    else if String.eqb k "constructor" then Status.inherited k
    else if String.eqb k "__proto__" then Status.inherited k
    else Status.known Status.submitted.
Proof.
  cbv zeta. unfold Status.statusMap.
  assert (Hno : forall t,
    existsb (fun c => ((65 <=? nat_of_ascii c) && (nat_of_ascii c <=? 90))%nat)
            (list_ascii_of_string t) = true ->
    String.eqb (Status.toLowerCase s) t = false).
  { intros t Ht. apply String.eqb_neq. now apply toLowerCase_neq. }
  rewrite (Hno "cancelAcknowledged"%string eq_refl).
  unfold Status.Object_prototype. cbn [existsb].
  rewrite (Hno "hasOwnProperty"%string eq_refl), (Hno "isPrototypeOf"%string eq_refl),
    (Hno "propertyIsEnumerable"%string eq_refl), (Hno "toLocaleString"%string eq_refl),
    (Hno "toString"%string eq_refl), (Hno "valueOf"%string eq_refl),
    (Hno "__defineGetter__"%string eq_refl), (Hno "__defineSetter__"%string eq_refl),
    (Hno "__lookupGetter__"%string eq_refl), (Hno "__lookupSetter__"%string eq_refl).
  repeat match goal with
         | |- context [String.eqb ?a ?b] => destruct (String.eqb a b); try reflexivity
         end.
Qed.

Lemma status_and_progress_spec (s : string) :
  exists status progress,
    Status.mapKaggleStatus (Status.JString s) = Some status /\
    Status.calculateProgress (Status.JString s) = Some progress /\
    (status = Status.known Status.completed <-> progress == 100) /\
    0 <= progress /\ progress <= 100.
Proof.
  unfold Status.mapKaggleStatus, Status.calculateProgress. cbn [Status.lowered].
  rewrite statusMap_lowered. cbv zeta.
  eexists. eexists. split; [reflexivity|]. split; [reflexivity|].
  repeat match goal with
         | |- context [if String.eqb ?a ?b then _ else _] =>
             destruct (String.eqb a b) eqn:?; cbv iota
         end;
    repeat match goal with
           | H : String.eqb _ _ = true |- _ => apply String.eqb_eq in H
           | H : String.eqb _ _ = false |- _ => apply String.eqb_neq in H
           end;
    repeat split;
    try discriminate; try reflexivity; try assumption;
    try (intros [Hs|Hs]; discriminate Hs);
    try (intro Hq; exfalso; lra);
    try (intro Hq; exfalso; congruence);
    try (intros _; left; reflexivity);
    try (intros _; right; reflexivity);
    try (intros _; assumption).
Qed.

(** X26: for every status string of Kaggle, [mapKaggleStatus] and
    [calculateProgress] do not throw and agree: the progress is 100 exactly
    for a completed job and 0 exactly for a failed or cancelled one, and it
    always lies between 0 and 100.  A job is reported as cancelled only for
    the status [cancelled] in any letter case, so that Kaggle's
    [cancelAcknowledged] counts as submitted with progress 10. *)
Theorem status_and_progress_agree (s : string) :
  exists status progress,
    Status.mapKaggleStatus (Status.JString s) = Some status /\
    Status.calculateProgress (Status.JString s) = Some progress /\
    (status = Status.known Status.completed <-> progress == 100) /\
    (status = Status.known Status.failed \/ status = Status.known Status.cancelled
     <-> progress == 0) /\
    (status = Status.known Status.cancelled
     <-> Status.toLowerCase s = "cancelled"%string) /\
    0 <= progress /\ progress <= 100.
Proof.
  unfold Status.mapKaggleStatus, Status.calculateProgress. cbn [Status.lowered].
  rewrite statusMap_lowered. cbv zeta.
  eexists. eexists. split; [reflexivity|]. split; [reflexivity|].
  repeat match goal with
         | |- context [if String.eqb ?a ?b then _ else _] =>
             destruct (String.eqb a b) eqn:?; cbv iota
         end;
    repeat match goal with
           | H : String.eqb _ _ = true |- _ => apply String.eqb_eq in H
           | H : String.eqb _ _ = false |- _ => apply String.eqb_neq in H
           end;
    repeat split;
    try discriminate; try reflexivity; try assumption;
    try (intros [Hs|Hs]; discriminate Hs);
    try (intro Hq; exfalso; lra);
    try (intro Hq; exfalso; congruence);
    try (intros _; left; reflexivity);
    try (intros _; right; reflexivity);
    try (intros _; assumption).
Qed.

Lemma string_app_assoc (a b c : string) : ((a ++ b) ++ c = a ++ b ++ c)%string.
Proof. induction a as [|x a IH]; simpl; [reflexivity | now rewrite IH]. Qed.

Lemma split_pop_digits d :
  forall current,
    Status.split_pop current (NilEmpty.string_of_uint d)
    = (current ++ NilEmpty.string_of_uint d)%string.
Proof.
  induction d; intro current; simpl;
    try (rewrite IHd, string_app_assoc; reflexivity).
  induction current as [|c current IH]; simpl; [reflexivity | now rewrite <- IH].
Qed.

Lemma split_pop_last prefix d :
  forall current,
    Status.split_pop current (prefix ++ String "-" (NilEmpty.string_of_uint d))
    = NilEmpty.string_of_uint d.
Proof.
  induction prefix as [|c prefix IH]; intro current; simpl.
  - apply split_pop_digits.
  - destruct (Ascii.eqb c "-"); apply IH.
Qed.

Lemma string_of_nat_nonempty n : string_of_nat n <> ""%string.
Proof.
  unfold string_of_nat. intro He.
  assert (Hn : Nat.to_uint n = Decimal.Nil).
  { destruct (Nat.to_uint n); simpl in He; try discriminate He. reflexivity. }
  pose proof (Unsigned.of_to n) as Hof. rewrite Hn in Hof. simpl in Hof.
  subst n. discriminate Hn.
Qed.

Lemma fallback_jobId_timestamp username s :
  Status.split_pop "" (fst (Submit.fallback_jobId username s))
  = string_of_nat (Submit.clock s 0).
Proof.
  unfold Submit.fallback_jobId, Submit.bind, Submit.Date_now, Submit.ret.
  cbn [fst]. unfold string_of_nat.
  replace (username ++ "/forex-pattern-"
           ++ NilEmpty.string_of_uint (Nat.to_uint (Submit.clock s 0)))%string
    with ((username ++ "/forex-pattern")
          ++ String "-" (NilEmpty.string_of_uint (Nat.to_uint (Submit.clock s 0))))%string.
  - apply split_pop_last.
  - rewrite string_app_assoc. reflexivity.
Qed.

Lemma floor_above (k : Z) (x : Q) :
  (k <? Qfloor x)%Z = true <-> inject_Z (k + 1) <= x.
Proof.
  rewrite Z.ltb_lt. split; intro H.
  - apply Qle_trans with (inject_Z (Qfloor x)); [|apply Qfloor_le].
    rewrite <- Zle_Qle. lia.
  - apply Qfloor_resp_le in H. rewrite Qfloor_Z in H. lia.
Qed.

Lemma seconds_above (k : Z) (age : Q) :
  (k <? Demo.Math_floor (age / 1000))%Z = true <-> inject_Z ((k + 1) * 1000) <= age.
Proof.
  unfold Demo.Math_floor. rewrite floor_above, inject_Z_mult.
  change (inject_Z 1000) with 1000.
  assert (Hd : age / 1000 == age * (1 # 1000)) by field.
  rewrite Hd. split; intro H; lra.
Qed.

(** The status that [simulated] reports for a job of a known age. *)
Lemma simulated_of_age parseInt jobId t w :
  Status.split_pop "" jobId <> ""%string ->
  parseInt (Status.split_pop "" jobId) = Some t ->
  Status.valid_time (Demo.clocks w 1 - (Demo.clocks w 0 - t)) = true ->
  let age := Demo.clocks w 0 - t in
  let job := fst (Status.simulated parseInt jobId w) in
  Status.startTime job = Status.iso (Demo.clocks w 1 - age) /\
  Status.status job
  = Status.known (if (180 <? Demo.Math_floor (age / 1000))%Z then Status.completed
                  else if (30 <? Demo.Math_floor (age / 1000))%Z then Status.running
                  else Status.submitted).
Proof.
  intros Hne Hparse Hvalid age job. subst job. unfold Status.simulated. cbv zeta.
  apply String.eqb_neq in Hne. rewrite Hne.
  unfold Demo.bind, Demo.Date_now, Demo.ret. cbn [fst snd Demo.clocks Demo.randoms].
  rewrite Hparse. cbn [Demo.clocks]. subst age. rewrite Hvalid.
  destruct (180 <? Demo.Math_floor ((Demo.clocks w 0 - t) / 1000))%Z;
    [|destruct (30 <? Demo.Math_floor ((Demo.clocks w 0 - t) / 1000))%Z];
    split; reflexivity.
Qed.

(** X27: the round trip of a fallback job id.  For an id that
    [submitPatternMiningJob] made up at time [t], and a status endpoint
    that is not ok, [getJobStatus] reads [t] back out of the id and reports
    the job by its age: submitted below 31 s, running from 31 s, completed
    from 181 s. *)
Theorem fallback_job_progression
  (parseInt : string -> option Q)
  (fetch_status : string -> string -> string -> Status.StatusFetch)
  (username apiKey : string) (s : Submit.State) (w : Demo.World) :
  (forall n, parseInt (string_of_nat n) = Some (inject_Z (Z.of_nat n))) ->
  let jobId := fst (Submit.fallback_jobId username s) in
  let age := Demo.clocks w 0 - inject_Z (Z.of_nat (Submit.clock s 0)) in
  fetch_status username apiKey jobId = Status.StatusNotOk ->
  Status.valid_time (Demo.clocks w 1 - age) = true ->
  let job := fst (Status.getJobStatus parseInt fetch_status username apiKey jobId w) in
  Status.startTime job = Status.iso (Demo.clocks w 1 - age) /\
  (Status.status job = Status.known Status.submitted <-> age < 31000) /\
  (Status.status job = Status.known Status.running
   <-> 31000 <= age /\ age < 181000) /\
  (Status.status job = Status.known Status.completed <-> 181000 <= age).
Proof.
  intros Hparse jobId age Hfetch Hvalid job. subst job.
  unfold Status.getJobStatus. rewrite Hfetch.
  destruct (simulated_of_age parseInt jobId
              (inject_Z (Z.of_nat (Submit.clock s 0))) w) as [Hstart Hstatus].
  - unfold jobId. rewrite fallback_jobId_timestamp. apply string_of_nat_nonempty.
  - unfold jobId. rewrite fallback_jobId_timestamp. apply Hparse.
  - exact Hvalid.
  - fold age in Hstart, Hstatus. split; [exact Hstart|]. rewrite Hstatus.
    pose proof (seconds_above 180 age) as H180.
    pose proof (seconds_above 30 age) as H30.
    change (inject_Z ((180 + 1) * 1000)) with 181000 in H180.
    change (inject_Z ((30 + 1) * 1000)) with 31000 in H30.
    destruct (180 <? Demo.Math_floor (age / 1000))%Z.
    + pose proof (proj1 H180 eq_refl) as Ha.
      repeat split; try discriminate; try (intro; assumption); intros; lra.
    + assert (Ha : age < 181000).
      { apply Qnot_le_lt. intro Hc. apply H180 in Hc. discriminate Hc. }
      destruct (30 <? Demo.Math_floor (age / 1000))%Z.
      * pose proof (proj1 H30 eq_refl) as Hb.
        repeat split; try discriminate; try assumption; intros; lra.
      * assert (Hb : age < 31000).
        { apply Qnot_le_lt. intro Hc. apply H30 in Hc. discriminate Hc. }
        repeat split; try discriminate; try assumption; intros; lra.
Qed.

Lemma Sample_parseInt_digits n :
  Sample.parseInt (string_of_nat n) = Some (inject_Z (Z.of_nat n)).
Proof.
  unfold Sample.parseInt, string_of_nat. rewrite NilEmpty.usu.
  pose proof (Unsigned.of_to n) as Hof.
  remember (Nat.to_uint n) as d eqn:Hd.
  destruct d; cbv iota; try (rewrite Hof; reflexivity).
  simpl in Hof. subst n. discriminate Hd.
Qed.

Lemma fallback_job_progression_witness :
  Status.status
    (fst (Status.getJobStatus Sample.parseInt Sample.status_down "netszy" "key"
            (fst (Submit.fallback_jobId "netszy" Ref.state)) Sample.later))
  = Status.known Status.completed.
Proof.
  apply (proj2 (proj2 (proj2
           (fallback_job_progression Sample.parseInt Sample.status_down
              "netszy" "key" Ref.state Sample.later
              Sample_parseInt_digits eq_refl eq_refl)))).
  vm_compute. discriminate.
Defined.

(** The status that [simulated] reports when the id does not end in a
    number: an id with nothing after its last hyphen is taken to be one
    minute old. *)
Lemma simulated_not_a_number parseInt jobId w :
  Status.split_pop "" jobId = ""%string
  \/ parseInt (Status.split_pop "" jobId) = None ->
  let job := fst (Status.simulated parseInt jobId w) in
  Status.status job = Status.known Status.running /\
  (Status.split_pop "" jobId <> ""%string -> Status.progress job = 25) /\
  (Status.split_pop "" jobId = ""%string ->
   if Status.valid_time (Demo.clocks w 0 - 60000)
   then 33 < Status.progress job /\ Status.progress job < 34
   else Status.progress job = 25).
Proof.
  intros Hid job. subst job. unfold Status.simulated. cbv zeta.
  destruct (String.eqb (Status.split_pop "" jobId) "") eqn:He.
  - apply String.eqb_eq in He.
    unfold Status.demo_mode, Demo.bind, Demo.ret, Demo.Date_now.
    cbn [fst snd Demo.clocks Demo.randoms].
    destruct (Status.valid_time (Demo.clocks w 0 - 60000)).
    + replace (Demo.Math_floor (60000 / 1000)) with 60%Z by (vm_compute; reflexivity).
      change (180 <? 60)%Z with false. change (30 <? 60)%Z with true.
      cbn [fst snd Status.status Status.progress].
      split; [reflexivity|]. split; [intro Hne; contradiction|].
      intros _. split; vm_compute; reflexivity.
    + cbn [fst Status.status Status.progress].
      split; [reflexivity|]. split; [intro Hne; contradiction|].
      intros _. reflexivity.
  - apply String.eqb_neq in He. destruct Hid as [Hid|Hparse]; [contradiction|].
    unfold Demo.bind, Demo.Date_now, Demo.ret. cbn [fst snd Demo.clocks Demo.randoms].
    rewrite Hparse. unfold Status.demo_mode, Demo.bind, Demo.Date_now, Demo.ret.
    cbn [fst Status.status Status.progress].
    split; [reflexivity|]. split; [reflexivity|]. intro Hempty. contradiction.
Qed.



Lemma running_progress (seconds : Z) :
  (30 <? seconds)%Z = true ->
  10 <= Qmin 90 (inject_Z seconds / 180 * 100) /\
  Qmin 90 (inject_Z seconds / 180 * 100) <= 100 /\
  ~ Qmin 90 (inject_Z seconds / 180 * 100) == 100.
Proof.
  intro H30. apply Z.ltb_lt in H30.
  assert (Hs : 31 <= inject_Z seconds).
  { change 31 with (inject_Z 31). rewrite <- Zle_Qle. lia. }
  set (secs := inject_Z seconds) in *.
  assert (Hp : 10 <= secs / 180 * 100).
  { assert (He : secs / 180 * 100 == secs * (100 # 180)) by field.
    rewrite He. lra. }
  pose proof (Q.le_min_l 90 (secs / 180 * 100)) as Hle.
  assert (Hge : 10 <= Qmin 90 (secs / 180 * 100)).
  { apply Q.min_glb; [discriminate | exact Hp]. }
  repeat split; try assumption; lra.
Qed.

Lemma simulated_fields parseInt jobId w :
  let job := fst (Status.simulated parseInt jobId w) in
  Status.id job = jobId /\
  10 <= Status.progress job /\ Status.progress job <= 100 /\
  (Status.status job = Status.known Status.completed
   <-> Status.progress job == 100) /\
  Status.status job <> Status.known Status.failed /\
  Status.status job <> Status.known Status.cancelled.
Proof.
  intro job. subst job. unfold Status.simulated. cbv zeta.
  unfold Status.demo_mode, Demo.bind, Demo.Date_now, Demo.ret.
  destruct (String.eqb (Status.split_pop "" jobId) "");
    [|destruct (parseInt (Status.split_pop "" jobId)) as [t|]];
    cbn [fst snd Demo.clocks Demo.randoms];
    try match goal with
        | |- context [Status.valid_time ?x] => destruct (Status.valid_time x)
        end;
    try match goal with
        | |- context [(180 <? ?x)%Z] =>
            destruct (180 <? x)%Z;
            [|let H30 := fresh "H30" in
              destruct (30 <? x)%Z eqn:H30;
              [destruct (running_progress x H30) as [Hr1 [Hr2 Hr3]]|]]
        end;
    cbn [fst snd Status.id Status.status Status.progress];
    repeat split; try discriminate; try reflexivity; try assumption;
    try (intro Hc; contradiction).
Qed.

(** X29: whatever Kaggle answers to the status request, [getJobStatus]
    returns a status for the job asked about, with a progress between 0
    and 100 that is 100 exactly when the job is reported as completed. *)
Theorem getJobStatus_progress
  (parseInt : string -> option Q)
  (fetch_status : string -> string -> string -> Status.StatusFetch)
  (username apiKey jobId : string) (w : Demo.World) :
  let job := fst (Status.getJobStatus parseInt fetch_status username apiKey jobId w) in
  Status.id job = jobId /\
  0 <= Status.progress job /\ Status.progress job <= 100 /\
  (Status.status job = Status.known Status.completed
   <-> Status.progress job == 100).
Proof.
  intro job. subst job. unfold Status.getJobStatus.
  assert (Hdemo : forall w',
    let job := fst (Status.demo_mode jobId w') in
    Status.id job = jobId /\
    0 <= Status.progress job /\ Status.progress job <= 100 /\
    (Status.status job = Status.known Status.completed
     <-> Status.progress job == 100)).
  { intro w'. cbn. repeat split; try discriminate. }
  destruct (fetch_status username apiKey jobId) as [| | | |data];
    try apply Hdemo.
  - destruct (simulated_fields parseInt jobId w) as [Hid [Hlo [Hhi [Hc _]]]].
    repeat split; try assumption; try apply Hc. lra.
  - destruct (Status.data_status data) as [| |b|x|s|] eqn:Hs;
      try apply Hdemo.
    + cbn. destruct (Status.truthy (Status.creationTime data)); cbn;
        repeat split; try discriminate; intro Hq; exfalso; lra.
    + cbn. destruct (Status.truthy (Status.creationTime data)); cbn;
        repeat split; try discriminate; intro Hq; exfalso; lra.
    + destruct (status_and_progress_spec s)
        as [st [pr [Hst [Hpr [Hc [Hlo Hhi]]]]]].
      rewrite Hst, Hpr. cbn [Status.getStatusMessage Status.lowered].
      unfold Demo.bind, Demo.ret, Demo.Date_now.
      destruct (Status.truthy (Status.creationTime data));
        cbn [fst Status.id Status.status Status.progress];
        repeat split; try assumption; apply Hc.
Qed.

